(** * A brokerage ledger: [accounts.py]

    A shallow embedding of the [Account] class of
    [3_crew/new_engineering_team/output/accounts.py] together with the
    Python number semantics the class relies on, and the properties of the
    ledger stated over that embedding.

    The class stores money as Python numbers: an amount is an [int]
    (unbounded) or a [float] (IEEE 754 binary64, round to nearest even).
    Both are modelled: [int] as [Z], [float] as Rocq's primitive binary64
    floats, mixed arithmetic with CPython's conversion of the [int] operand
    (which raises [OverflowError] when the integer is out of the range of a
    double) and mixed comparisons with CPython's exact comparison.

    A method is a function from the account to an outcome (a returned value
    or a raised exception) and the account as the method leaves it, so that
    an exception raised after an assignment shows the assignment.  The clock
    reading of [datetime.utcnow()] is an argument of each mutating call, and
    the price table read by [get_share_price] is a parameter.

    Not modelled: text outside ASCII in [str.upper], the warning printed by
    [get_portfolio_value], the digits of the [,.2f] format (a message keeps
    the formatted doubles), arguments of type [bool], and memory.

    The file has five parts: the embedding of [accounts.py]; the notions the
    statements use, with the embedding of the handlers of [app.py] (the
    Gradio demo, in which pandas is a parameter); facts about doubles and
    Python numbers, about dictionaries and about the methods; the ledger
    properties C1 to C10; and further properties of the methods and of the
    handlers, X1 to X28. *)

From Stdlib Require Import ZArith List String Ascii Bool Lia Floats DecimalString.
Import ListNotations.

Local Open Scope Z_scope.

(* Decimal literals such as [0.1] denote the nearest double, as in Python. *)
#[local] Set Warnings "-inexact-float".

(** ** Python numbers *)

Module PyNum.

  (** A Python number: an [int] or a [float].  A [bool] is not a value of
      this type: [True] counts as the integer 1 in arithmetic, but it is
      printed as "True", and the messages below print their numbers. *)
Inductive num : Type :=
  | Int (z : Z)
  | Float (f : float).

  (** [float(z)]: the nearest double, ties to even; [None] stands for
      [OverflowError: int too large to convert to float]. *)
Definition float_of_int (z : Z) : option float :=
    match binary_normalize prec emax z 0 false with
    | S754_infinity _ => None
    | r => Some (SF2Prim r)
    end.

  (** The operand conversion of a mixed operation. *)
Definition to_float (a : num) : option float :=
    match a with
    | Int z => float_of_int z
    | Float f => Some f
    end.

  (** Binary arithmetic: [int op int] is exact, anything else is computed on
      doubles after converting the [int] operand. *)
Definition arith (opz : Z -> Z -> Z) (opf : float -> float -> float)
             (a b : num) : option num :=
    match a, b with
    | Int x, Int y => Some (Int (opz x y))
    | _, _ =>
        match to_float a, to_float b with
        | Some x, Some y => Some (Float (opf x y))
        | _, _ => None
        end
    end.

Definition add : num -> num -> option num := arith Z.add PrimFloat.add.
Definition sub : num -> num -> option num := arith Z.sub PrimFloat.sub.
Definition mul : num -> num -> option num := arith Z.mul PrimFloat.mul.

  (** Exact comparison of an integer with a double, as CPython's
      [float_richcompare] does it; [None] when the double is a NaN. *)
Definition cmp_int_float (z : Z) (f : float) : option comparison :=
    match Prim2SF f with
    | S754_nan => None
    | S754_infinity s => Some (if s then Gt else Lt)
    | S754_zero _ => Some (z ?= 0)
    | S754_finite s m e =>
        let v := cond_Zopp s (Zpos m) in
        Some (if 0 <=? e then z ?= v * 2 ^ e else z * 2 ^ (- e) ?= v)
    end.

Definition is_lt (c : option comparison) : bool :=
    match c with Some Lt => true | _ => false end.
Definition is_gt (c : option comparison) : bool :=
    match c with Some Gt => true | _ => false end.
Definition is_le (c : option comparison) : bool :=
    match c with Some (Lt | Eq) => true | _ => false end.
Definition is_ge (c : option comparison) : bool :=
    match c with Some (Gt | Eq) => true | _ => false end.
Definition is_eq (c : option comparison) : bool :=
    match c with Some Eq => true | _ => false end.

  (** [a < b], [a <= b], [a > b], [a >= b], [a == b]. *)
Definition ltb (a b : num) : bool :=
    match a, b with
    | Int x, Int y => x <? y
    | Float x, Float y => PrimFloat.ltb x y
    | Int x, Float y => is_lt (cmp_int_float x y)
    | Float x, Int y => is_gt (cmp_int_float y x)
    end.

Definition leb (a b : num) : bool :=
    match a, b with
    | Int x, Int y => x <=? y
    | Float x, Float y => PrimFloat.leb x y
    | Int x, Float y => is_le (cmp_int_float x y)
    | Float x, Int y => is_ge (cmp_int_float y x)
    end.

Definition gtb (a b : num) : bool := ltb b a.
Definition geb (a b : num) : bool := leb b a.

Definition eqb (a b : num) : bool :=
    match a, b with
    | Int x, Int y => x =? y
    | Float x, Float y => PrimFloat.eqb x y
    | Int x, Float y => is_eq (cmp_int_float x y)
    | Float x, Int y => is_eq (cmp_int_float y x)
    end.

Definition is_nan (a : num) : bool :=
    match a with
    | Int _ => false
    | Float f => PrimFloat.is_nan f
    end.

Definition is_infinity (a : num) : bool :=
    match a with
    | Int _ => false
    | Float f => PrimFloat.is_infinity f
    end.

  (** [math.isfinite]. *)
Definition is_finite (a : num) : bool := negb (is_nan a) && negb (is_infinity a).

Definition is_float (a : num) : bool :=
    match a with Float _ => true | Int _ => false end.

End PyNum.

Import PyNum.

(** ** Python strings and dictionaries *)

Module PyStr.

  (** [str.upper] on ASCII text. *)
Definition upper_ascii (c : ascii) : ascii :=
    let n := nat_of_ascii c in
    if (Nat.leb 97 n && Nat.leb n 122)%bool then ascii_of_nat (n - 32) else c.

Fixpoint upper (s : string) : string :=
    match s with
    | EmptyString => EmptyString
    | String c r => String (upper_ascii c) (upper r)
    end.

  (** The decimal digits of an integer, with its sign. *)
Definition decimal (z : Z) : string := NilZero.string_of_int (Z.to_int z).

  (** [sys.get_int_max_str_digits()], as CPython sets it. *)
Definition int_max_str_digits : Z := 4300.

  (** [str(z)] for an [int], which is also what [{z}] gives in an f-string:
      the conversion is refused for an integer of more than 4300 digits;
      [None] stands for [ValueError: Exceeds the limit (4300 digits) for
      integer string conversion]. *)
Definition str_of_int (z : Z) : option string :=
    if Z.abs z <? 10 ^ int_max_str_digits then Some (decimal z) else None.

End PyStr.

Module PyDict.

  (** A [dict] with [str] keys: the entries in insertion order, one per
      key.  Iteration ([items()]) follows that order. *)
Definition dict (V : Type) : Type := list (string * V).

Section Ops.
Context {V : Type}.

    (** [d.get(k)] *)
Fixpoint get (k : string) (d : dict V) : option V :=
      match d with
      | [] => None
      | (k', v) :: r => if String.eqb k k' then Some v else get k r
      end.

    (** [d[k] = v]: in place when [k] is present, at the end otherwise. *)
Fixpoint set (k : string) (v : V) (d : dict V) : dict V :=
      match d with
      | [] => [(k, v)]
      | (k', v') :: r =>
          if String.eqb k k' then (k', v) :: r else (k', v') :: set k v r
      end.

    (** [del d[k]] *)
Fixpoint del (k : string) (d : dict V) : dict V :=
      match d with
      | [] => []
      | (k', v') :: r => if String.eqb k k' then r else (k', v') :: del k r
      end.

Definition keys (d : dict V) : list string := map fst d.
End Ops.

End PyDict.

Import PyStr.

(** ** The module [accounts] *)

(** *** Exceptions

    The [TradingError] subclasses and the built-in exceptions the code can
    raise.  A message built with the [,.2f] format keeps the formatted
    doubles instead of their digits: [InsufficientFundsError p r b] stands
    for the message [p ++ "$" ++ fmt r ++ ": insufficient funds. Current
    balance: $" ++ fmt b]. *)
Inductive exn : Type :=
| ValueError (msg : string)
| OverflowError
| KeyError (key : string)
| InsufficientFundsError (prefix : string) (requested balance : float)
| InsufficientSharesError (msg : string)
| UnknownSymbolError (msg : string).

Inductive outcome (A : Type) : Type :=
| Return (a : A)
| Raise (e : exn).
Arguments Return {A} a.
Arguments Raise {A} e.

(** What a caller may pass where a number is expected: a number, or some other
    object (the tests pass a [str]).  A [bool], which passes
    [isinstance(x, int)], is not among them. *)
Inductive pyobj : Type :=
| PyNum (n : num)
| PyStr (s : string).

(** *** Transactions and the account *)

Inductive tx_type : Type := DEPOSIT | WITHDRAW | BUY | SELL.

(** The dictionary [_record_transaction] builds; absent values are [None]. *)
Record transaction : Type := {
  tx_timestamp : string;
  tx_type_of : tx_type;
  tx_symbol : option string;
  tx_quantity : option Z;
  tx_price_per_share : option float;
  tx_total_amount : num
}.

Record Account : Type := {
  _account_id : string;
  _user_name : string;
  _cash_balance : num;
  _total_deposits : num;
  _holdings : PyDict.dict Z;
  _transactions : list transaction
}.

(** *** Methods as state transformers

    A method runs on the account it is called on and either returns or
    raises; in both cases the account is left in the state the assignments
    executed so far have put it in. *)
Definition M (A : Type) : Type := Account -> outcome A * Account.

Definition ret {A : Type} (a : A) : M A := fun self => (Return a, self).
Definition raise {A : Type} (e : exn) : M A := fun self => (Raise e, self).
Definition bind {A B : Type} (m : M A) (k : A -> M B) : M B :=
  fun self =>
    match m self with
    | (Return a, self') => k a self'
    | (Raise e, self') => (Raise e, self')
    end.

Notation "x <- m ;; k" := (bind m (fun x => k))
  (at level 61, m at next level, right associativity).
Notation "m ;;; k" := (bind m (fun _ => k))
  (at level 61, right associativity).

Definition get_self : M Account := fun self => (Return self, self).

(** Assignments to the attributes of [self]. *)
Definition with_cash_balance (v : num) (self : Account) : Account :=
  {| _account_id := _account_id self; _user_name := _user_name self;
     _cash_balance := v; _total_deposits := _total_deposits self;
     _holdings := _holdings self; _transactions := _transactions self |}.

Definition with_total_deposits (v : num) (self : Account) : Account :=
  {| _account_id := _account_id self; _user_name := _user_name self;
     _cash_balance := _cash_balance self; _total_deposits := v;
     _holdings := _holdings self; _transactions := _transactions self |}.

Definition with_holdings (h : PyDict.dict Z) (self : Account) : Account :=
  {| _account_id := _account_id self; _user_name := _user_name self;
     _cash_balance := _cash_balance self; _total_deposits := _total_deposits self;
     _holdings := h; _transactions := _transactions self |}.

Definition with_transactions (l : list transaction) (self : Account) : Account :=
  {| _account_id := _account_id self; _user_name := _user_name self;
     _cash_balance := _cash_balance self; _total_deposits := _total_deposits self;
     _holdings := _holdings self; _transactions := l |}.

Definition set_cash_balance (v : num) : M unit :=
  fun self => (Return tt, with_cash_balance v self).
Definition set_total_deposits (v : num) : M unit :=
  fun self => (Return tt, with_total_deposits v self).
Definition set_holdings (h : PyDict.dict Z) : M unit :=
  fun self => (Return tt, with_holdings h self).
Definition append_transaction (t : transaction) : M unit :=
  fun self => (Return tt, with_transactions (_transactions self ++ [t]) self).

(** An arithmetic operation that may raise [OverflowError]. *)
Definition arith_or_raise {T : Type} (r : option T) : M T :=
  match r with
  | Some v => ret v
  | None => raise OverflowError
  end.

(** The [,.2f] format of a number: it converts an [int] to a double first. *)
Definition format_2f (a : num) : M float := arith_or_raise (to_float a).

(** The message of the [ValueError] of [str(z)]. *)
Definition digit_limit_message : string :=
  "Exceeds the limit (4300 digits) for integer string conversion; use sys.set_int_max_str_digits() to increase the limit"%string.

(** An integer in an f-string, [{z}]. *)
Definition format_int (z : Z) : M string :=
  match str_of_int z with
  | Some text => ret text
  | None => raise (ValueError digit_limit_message)
  end.

Local Open Scope string_scope.
Local Open Scope Z_scope.

(** *** Share prices *)

Definition _test_prices : PyDict.dict float :=
  [("AAPL", 150.0%float); ("GOOGL", 2750.0%float); ("TSLA", 700.5%float)].

Section Accounts.

(** The price table [get_share_price] reads: [_test_prices] in the module,
    another table when the prices move (the tests patch the lookup). *)
Variable prices : PyDict.dict float.

Definition get_share_price (symbol : string) : outcome float :=
  let normalized_symbol := upper symbol in
  match PyDict.get normalized_symbol prices with
  | None => Raise (UnknownSymbolError ("No price data found for symbol: " ++ symbol))
  | Some price => Return price
  end.

Definition call {A : Type} (r : outcome A) : M A := fun self => (r, self).

(** *** [Account] *)

(** The dictionary of a transaction.  [symbol.upper() if symbol else None]:
    no symbol and the empty symbol both give [None]. *)
Definition make_transaction (now : string) (type : tx_type)
    (symbol : option string) (quantity : option Z)
    (price_per_share : option float) (total_amount : num) : transaction :=
  {| tx_timestamp := now;
     tx_type_of := type;
     tx_symbol := match symbol with
                  | Some (String c r) => Some (upper (String c r))
                  | _ => None
                  end;
     tx_quantity := quantity;
     tx_price_per_share := price_per_share;
     tx_total_amount := total_amount |}.

(** [_record_transaction]; [now] is the reading of
    [datetime.utcnow().isoformat()]. *)
Definition _record_transaction (now : string) (type : tx_type)
    (symbol : option string) (quantity : option Z)
    (price_per_share : option float) (total_amount : num) : M unit :=
  let transaction :=
    make_transaction now type symbol quantity price_per_share total_amount in
  append_transaction transaction.

Definition __init__ (account_id user_name : string) (initial_deposit : num)
    (now : string) : outcome Account :=
  if ltb initial_deposit (Int 0) then
    Raise (ValueError "Initial deposit cannot be negative.")
  else
    let self := {| _account_id := account_id; _user_name := user_name;
                   _cash_balance := initial_deposit;
                   _total_deposits := initial_deposit;
                   _holdings := []; _transactions := [] |} in
    if gtb initial_deposit (Int 0) then
      match _record_transaction now DEPOSIT None None None initial_deposit self with
      | (Return _, self') => Return self'
      | (Raise e, _) => Raise e
      end
    else Return self.

Definition deposit (amount : pyobj) (now : string) : M unit :=
  match amount with
  | PyNum amount =>
      if leb amount (Int 0) then
        raise (ValueError "Deposit amount must be a positive number.")
      else
        self <- get_self ;;
        cash <- arith_or_raise (add (_cash_balance self) amount) ;;
        set_cash_balance cash ;;;
        self <- get_self ;;
        total <- arith_or_raise (add (_total_deposits self) amount) ;;
        set_total_deposits total ;;;
        _record_transaction now DEPOSIT None None None amount
  | _ => raise (ValueError "Deposit amount must be a positive number.")
  end.

Definition withdraw (amount : pyobj) (now : string) : M unit :=
  match amount with
  | PyNum amount =>
      if leb amount (Int 0) then
        raise (ValueError "Withdrawal amount must be a positive number.")
      else
        self <- get_self ;;
        if gtb amount (_cash_balance self) then
          requested <- format_2f amount ;;
          balance <- format_2f (_cash_balance self) ;;
          raise (InsufficientFundsError "Cannot withdraw " requested balance)
        else
          cash <- arith_or_raise (sub (_cash_balance self) amount) ;;
          set_cash_balance cash ;;;
          _record_transaction now WITHDRAW None None None amount
  | _ => raise (ValueError "Withdrawal amount must be a positive number.")
  end.

Definition buy_shares (symbol : string) (quantity : pyobj) (now : string) : M unit :=
  match quantity with
  | PyNum (Int quantity) =>
      if quantity <=? 0 then
        raise (ValueError "Quantity to buy must be a positive integer.")
      else
        price <- call (get_share_price symbol) ;;
        total_cost <- arith_or_raise (mul (Float price) (Int quantity)) ;;
        self <- get_self ;;
        if gtb total_cost (_cash_balance self) then
          quantity_text <- format_int quantity ;;
          requested <- format_2f total_cost ;;
          balance <- format_2f (_cash_balance self) ;;
          raise (InsufficientFundsError
                   ("Cannot buy " ++ quantity_text ++ " of " ++ upper symbol
                    ++ " for ") requested balance)
        else
          cash <- arith_or_raise (sub (_cash_balance self) total_cost) ;;
          set_cash_balance cash ;;;
          let normalized_symbol := upper symbol in
          self <- get_self ;;
          set_holdings
            (PyDict.set normalized_symbol
               (match PyDict.get normalized_symbol (_holdings self) with
                | Some owned => owned
                | None => 0
                end + quantity)
               (_holdings self)) ;;;
          _record_transaction now BUY (Some symbol) (Some quantity) (Some price)
            total_cost
  | _ => raise (ValueError "Quantity to buy must be a positive integer.")
  end.

Definition sell_shares (symbol : string) (quantity : pyobj) (now : string) : M unit :=
  match quantity with
  | PyNum (Int quantity) =>
      if quantity <=? 0 then
        raise (ValueError "Quantity to sell must be a positive integer.")
      else
        let normalized_symbol := upper symbol in
        self <- get_self ;;
        let shares_owned :=
          match PyDict.get normalized_symbol (_holdings self) with
          | Some owned => owned
          | None => 0
          end in
        if quantity >? shares_owned then
          quantity_text <- format_int quantity ;;
          owned_text <- format_int shares_owned ;;
          raise (InsufficientSharesError
                   ("Cannot sell " ++ quantity_text ++ " shares of "
                    ++ normalized_symbol ++ ". Only " ++ owned_text
                    ++ " shares are owned."))
        else
          price <- call (get_share_price symbol) ;;
          total_value <- arith_or_raise (mul (Float price) (Int quantity)) ;;
          cash <- arith_or_raise (add (_cash_balance self) total_value) ;;
          set_cash_balance cash ;;;
          self <- get_self ;;
          match PyDict.get normalized_symbol (_holdings self) with
          | None => raise (KeyError normalized_symbol)
          | Some owned =>
              set_holdings (PyDict.set normalized_symbol (owned - quantity)
                              (_holdings self)) ;;;
              self <- get_self ;;
              match PyDict.get normalized_symbol (_holdings self) with
              | None => raise (KeyError normalized_symbol)
              | Some remaining =>
                  (if remaining =? 0 then
                     set_holdings (PyDict.del normalized_symbol (_holdings self))
                   else ret tt) ;;;
                  _record_transaction now SELL (Some symbol) (Some quantity)
                    (Some price) total_value
              end
          end
  | _ => raise (ValueError "Quantity to sell must be a positive integer.")
  end.

(** *** Read accessors and derived values *)

Definition get_cash_balance (self : Account) : num := _cash_balance self.

(** [dict.copy()] and [list.copy()]: the copies share nothing with the
    account, which values of an immutable model express by themselves. *)
Definition get_holdings (self : Account) : PyDict.dict Z := _holdings self.
Definition get_transaction_history (self : Account) : list transaction :=
  _transactions self.

(** One iteration of the loop of [get_portfolio_value]: the body of the [try]
    adds [price * quantity] (a [float] times an [int]: the quantity is
    converted) to the running total; [UnknownSymbolError] is
    caught (the handler prints a warning and the loop goes on); any other
    exception leaves the loop. *)
Definition portfolio_step (total_value : float) (item : string * Z) : outcome float :=
  let (symbol, quantity) := item in
  match get_share_price symbol with
  | Return price =>
      match float_of_int quantity with
      | Some q => Return (total_value + price * q)%float
      | None => Raise OverflowError
      end
  | Raise (UnknownSymbolError _) => Return total_value
  | Raise e => Raise e
  end.

Fixpoint portfolio_loop (total_value : float) (items : PyDict.dict Z) : outcome float :=
  match items with
  | [] => Return total_value
  | item :: rest =>
      match portfolio_step total_value item with
      | Return t => portfolio_loop t rest
      | Raise e => Raise e
      end
  end.

Definition get_portfolio_value (self : Account) : outcome float :=
  portfolio_loop 0%float (_holdings self).

Definition get_total_value (self : Account) : outcome num :=
  match get_portfolio_value self with
  | Return pv =>
      match add (get_cash_balance self) (Float pv) with
      | Some v => Return v
      | None => Raise OverflowError
      end
  | Raise e => Raise e
  end.

Definition get_profit_loss (self : Account) : outcome num :=
  match get_total_value self with
  | Return tv =>
      match sub tv (_total_deposits self) with
      | Some v => Return v
      | None => Raise OverflowError
      end
  | Raise e => Raise e
  end.

(** *** Calls and the states they reach *)

Inductive op : Type :=
| Deposit (amount : pyobj)
| Withdraw (amount : pyobj)
| Buy (symbol : string) (quantity : pyobj)
| Sell (symbol : string) (quantity : pyobj).

Definition run_op (o : op) (now : string) : M unit :=
  match o with
  | Deposit amount => deposit amount now
  | Withdraw amount => withdraw amount now
  | Buy symbol quantity => buy_shares symbol quantity now
  | Sell symbol quantity => sell_shares symbol quantity now
  end.

End Accounts.

(** The states of an account: what [__init__] builds and what the four
    mutating methods make of it, whether they return or raise, at whatever
    prices the lookup gives at the time of each call. *)
Inductive reachable : Account -> Prop :=
| reachable_init account_id user_name initial_deposit now self :
    __init__ account_id user_name initial_deposit now = Return self ->
    reachable self
| reachable_step prices o now self r self' :
    reachable self ->
    run_op prices o now self = (r, self') ->
    reachable self'.

(** ** Notions about doubles *)

(** The number of binary digits of a mantissa. *)
Definition digits (m : positive) : Z := Zpos (digits2_pos m).

(** The bits shifted out so far were not all zero. *)
Definition inexact (mrs : shr_record) : bool := shr_r mrs || shr_s mrs.

(** The value of a positive finite double, scaled by [2^1074] so that it is
    an integer. *)
Definition sval (m : positive) (e : Z) : Z := Zpos m * 2 ^ (e + 1074).

(** Not a NaN and not below zero: [0 <= x]. *)
Definition sf_nonneg (x : spec_float) : Prop :=
  match x with
  | S754_zero _ | S754_finite false _ _ | S754_infinity false => True
  | _ => False
  end.

(** Above zero: [0 < x]. *)
Definition sf_pos (x : spec_float) : Prop :=
  match x with
  | S754_finite false _ _ | S754_infinity false => True
  | _ => False
  end.

(** Neither infinite nor a NaN. *)
Definition sf_finite (x : spec_float) : Prop :=
  match x with
  | S754_zero _ | S754_finite _ _ _ => True
  | _ => False
  end.

(** ** Scenarios *)

(** A sequence of calls, each with the clock reading it sees; a call that
    raises leaves the account as the exception found it and the next call
    goes on from there. *)
Fixpoint run_calls (prices : PyDict.dict float) (calls : list (op * string))
    (self : Account) : Account :=
  match calls with
  | [] => self
  | (o, now) :: rest => run_calls prices rest (snd (run_op prices o now self))
  end.

(** [Account(account_id, user_name, initial_deposit)] followed by calls. *)
Definition open_account (account_id user_name : string) (initial_deposit : num)
    (now : string) (prices : PyDict.dict float) (calls : list (op * string))
    : option Account :=
  match __init__ account_id user_name initial_deposit now with
  | Return self => Some (run_calls prices calls self)
  | Raise _ => None
  end.

(** The table after the price of AAPL has moved to 160. *)
Definition prices_aapl_160 : PyDict.dict float :=
  [("AAPL", 160.0%float); ("GOOGL", 2750.0%float); ("TSLA", 700.5%float)].

(** ** Properties of states and arguments *)

(** The holdings dictionary is well formed: one entry per key, every key in
    upper case, every quantity positive. *)
Definition holdings_wf (h : PyDict.dict Z) : Prop :=
  NoDup (PyDict.keys h) /\
  forall k v, In (k, v) h -> upper k = k /\ 0 < v.

(** The quantity [sell_shares] compares with: [self._holdings.get(k, 0)]. *)
Definition shares_owned (symbol : string) (self : Account) : Z :=
  match PyDict.get (upper symbol) (_holdings self) with
  | Some owned => owned
  | None => 0
  end.

(** The message of [InsufficientSharesError]. *)
Definition insufficient_shares_message (quantity : Z) (normalized_symbol : string)
    (owned : Z) : string :=
  "Cannot sell " ++ decimal quantity ++ " shares of " ++ normalized_symbol
  ++ ". Only " ++ decimal owned ++ " shares are owned.".

(** What [sell_shares] raises when the quantity is above the shares owned:
    [InsufficientSharesError] with that message, or the [ValueError] of the
    f-string when one of the two integers has more than 4300 digits. *)
Definition insufficient_shares_error (quantity : Z) (normalized_symbol : string)
    (owned : Z) : exn :=
  match str_of_int quantity, str_of_int owned with
  | Some _, Some _ =>
      InsufficientSharesError (insufficient_shares_message quantity normalized_symbol owned)
  | _, _ => ValueError digit_limit_message
  end.

(** An argument is a positive number: an [int] or a [float] with [0 < a]. *)
Definition positive_number (a : pyobj) : bool :=
  match a with
  | PyNum n => gtb n (Int 0)
  | PyStr _ => false
  end.

Definition obj_is_nan (a : pyobj) : bool :=
  match a with
  | PyNum n => is_nan n
  | PyStr _ => false
  end.

Definition raises_ValueError {A : Type} (r : outcome A * Account) : bool :=
  match fst r with
  | Raise (ValueError _) => true
  | _ => false
  end.

Definition raises_UnknownSymbolError {A : Type} (r : outcome A) : bool :=
  match r with
  | Raise (UnknownSymbolError _) => true
  | _ => false
  end.

(** [self._cash_balance >= 0] *)
Definition cash_nonneg (self : Account) : bool := geb (_cash_balance self) (Int 0).

(** A call of [deposit] that stopped between its two additions: the cash
    balance has the amount added, the total of the deposits has not, and
    nothing is recorded. *)
Definition deposit_half_done (o : op) (self self' : Account) : Prop :=
  exists amount cash,
    o = Deposit (PyNum amount) /\
    add (_cash_balance self) amount = Some cash /\
    add (_total_deposits self) amount = None /\
    self' = with_cash_balance cash self.

(** ** Accounts used below *)

(** An account opened with the integer [10**400] from which all but 5 has
    been withdrawn: the balance is the [int] 5, the total of the deposits
    is still [10**400], which no double can hold. *)
Definition account_with_huge_deposits : option Account :=
  open_account "acc" "user" (Int (10 ^ 400)) "t0" _test_prices
    [(Withdraw (PyNum (Int (10 ^ 400 - 5))), "t1")].

(** The account of the tests, [Account("acc123", "Test User", 10000.0)],
    after [buy_shares('AAPL', 10)]. *)
Definition account_after_buying_aapl (initial_deposit : num) : option Account :=
  open_account "acc123" "Test User" initial_deposit "t0" _test_prices
    [(Buy "AAPL" (PyNum (Int 10)), "t1")].

(** [0 <= a]: the number is not a NaN and not below zero. *)
Definition NonNeg (a : num) : Prop := geb a (Int 0) = true.

(** Every price of the table is above zero, as the price lookup promises. *)
Definition positive_prices (prices : PyDict.dict float) : Prop :=
  forall symbol price, In (symbol, price) prices -> gtb (Float price) (Int 0) = true.

(** The amount of a deposit or a withdrawal is a NaN. *)
Definition op_amount_is_nan (o : op) : bool :=
  match o with
  | Deposit amount | Withdraw amount => obj_is_nan amount
  | Buy _ _ | Sell _ _ => false
  end.

(** The states reached from an initial deposit that is not below zero by
    calls made at positive prices, while the cash balance was finite and
    with no NaN passed as an amount. *)
Inductive reachable_while_finite : Account -> Prop :=
| finite_init account_id user_name initial_deposit now self :
    __init__ account_id user_name initial_deposit now = Return self ->
    geb initial_deposit (Int 0) = true ->
    reachable_while_finite self
| finite_step prices o now self r self' :
    reachable_while_finite self ->
    positive_prices prices ->
    is_finite (_cash_balance self) = true ->
    op_amount_is_nan o = false ->
    run_op prices o now self = (r, self') ->
    reachable_while_finite self'.

(** An account opened with [2.0**1023] to which [2.0**1023] is deposited,
    which overflows the balance to [inf], and which then buys [2**1023]
    shares of AAPL, whose cost is [inf] as well. *)
Definition account_after_overflow : option Account :=
  open_account "acc" "user" (Float 0x1p+1023) "t0" _test_prices
    [(Deposit (PyNum (Float 0x1p+1023)), "t1");
     (Buy "AAPL" (PyNum (Int (2 ^ 1023))), "t2")].

(** ** The portfolio value in the words of the specification *)

(** The contribution of one holding: [price_lookup(symbol) * quantity], and
    0 for a holding whose price lookup fails.  (The quantity enters the
    product as a double; a quantity no double can hold has no product, and
    the statements below leave such holdings out.) *)
Definition holding_value (prices : PyDict.dict float) (item : string * Z) : float :=
  match get_share_price prices (fst item), float_of_int (snd item) with
  | Return price, Some quantity => (price * quantity)%float
  | _, _ => 0%float
  end.

(** The sum over all holdings, in the order of the dictionary. *)
Definition portfolio_sum (prices : PyDict.dict float) (holdings : PyDict.dict Z) : float :=
  fold_left (fun total item => (total + holding_value prices item)%float) holdings 0%float.

(** Every quantity held can be converted to a double. *)
Definition quantities_fit_double (holdings : PyDict.dict Z) : Prop :=
  forall symbol quantity, In (symbol, quantity) holdings -> float_of_int quantity <> None.

(** An account opened with an infinite balance that buys [10**308] shares of
    AAPL twice: it holds [2 * 10**308] shares, more than the largest
    double. *)
Definition account_with_huge_holding : option Account :=
  open_account "acc" "user" (Float infinity) "t0" _test_prices
    [(Buy "AAPL" (PyNum (Int (10 ^ 308))), "t1");
     (Buy "AAPL" (PyNum (Int (10 ^ 308))), "t2")].

(** An account opened with [2.0**53 + 2002] that buys 2 shares of TSLA (at
    700.5) and sells them again. *)
Definition account_before_round_trip : option Account :=
  open_account "acc" "user" (Float 9007199254742994) "t0" _test_prices [].

Definition account_after_round_trip : option Account :=
  open_account "acc" "user" (Float 9007199254742994) "t0" _test_prices
    [(Buy "TSLA" (PyNum (Int 2)), "t1"); (Sell "TSLA" (PyNum (Int 2)), "t2")].

(** ** The balances and the transaction log *)

Definition tx_type_eqb (a b : tx_type) : bool :=
  match a, b with
  | DEPOSIT, DEPOSIT | WITHDRAW, WITHDRAW | BUY, BUY | SELL, SELL => true
  | _, _ => false
  end.

(** [sum(t['total_amount'] for t in log if t['type'] == type)]: Python's
    [sum] starts from the integer 0 and adds from the left. *)
Definition sum_amounts (type : tx_type) (log : list transaction) : option num :=
  fold_left
    (fun total tx =>
       match total with
       | Some t =>
           if tx_type_eqb (tx_type_of tx) type then add t (tx_total_amount tx)
           else Some t
       | None => None
       end)
    log (Some (Int 0)).

(** The cash balance as the claim computes it: the deposits, minus the
    withdrawals, minus the purchases, plus the sales. *)
Definition cash_from_sums (log : list transaction) : option num :=
  match sum_amounts DEPOSIT log, sum_amounts WITHDRAW log,
        sum_amounts BUY log, sum_amounts SELL log with
  | Some d, Some w, Some b, Some s =>
      match sub d w with
      | Some dw =>
          match sub dw b with
          | Some dwb => add dwb s
          | None => None
          end
      | None => None
      end
  | _, _, _, _ => None
  end.

(** The records that follow the one of the initial deposit, if there is
    one. *)
Definition later_transactions (initial_deposit : num) (log : list transaction)
    : list transaction :=
  if gtb initial_deposit (Int 0) then tl log else log.

(** The effect of one recorded transaction on the cash balance and on the
    total of the deposits. *)
Definition replay_cash_step (cash : option num) (tx : transaction) : option num :=
  match cash with
  | Some c =>
      match tx_type_of tx with
      | DEPOSIT | SELL => add c (tx_total_amount tx)
      | WITHDRAW | BUY => sub c (tx_total_amount tx)
      end
  | None => None
  end.

Definition replay_deposits_step (total : option num) (tx : transaction) : option num :=
  match total with
  | Some t =>
      match tx_type_of tx with
      | DEPOSIT => add t (tx_total_amount tx)
      | _ => Some t
      end
  | None => None
  end.

(** The log replayed in order on top of the initial deposit. *)
Definition replay_cash (initial_deposit : num) (log : list transaction) : option num :=
  fold_left replay_cash_step (later_transactions initial_deposit log)
    (Some initial_deposit).

Definition replay_deposits (initial_deposit : num) (log : list transaction)
    : option num :=
  fold_left replay_deposits_step (later_transactions initial_deposit log)
    (Some initial_deposit).

(** The states reached from [Account(..., initial_deposit)] by calls that
    returned.  (A call that raises leaves the state as it is, but for the
    deposit that stops half way.) *)
Inductive reached_by_returns (initial_deposit : num) : Account -> Prop :=
| returns_init account_id user_name now self :
    __init__ account_id user_name initial_deposit now = Return self ->
    reached_by_returns initial_deposit self
| returns_step prices o now self self' :
    reached_by_returns initial_deposit self ->
    run_op prices o now self = (Return tt, self') ->
    reached_by_returns initial_deposit self'.

(** [Account('acc', 'user', 0.1)], then [withdraw(0.1)], then
    [deposit(0.2)]. *)
Definition account_after_interleaving : option Account :=
  open_account "acc" "user" (Float 0.1) "t0" _test_prices
    [(Withdraw (PyNum (Float 0.1)), "t1"); (Deposit (PyNum (Float 0.2)), "t2")].

(** ** Notions for the further properties *)

(** The calls of a sequence that return, counted as [run_calls] runs them. *)
Fixpoint returned_calls (prices : PyDict.dict float) (calls : list (op * string))
    (self : Account) : nat :=
  match calls with
  | [] => O
  | (o, now) :: rest =>
      match run_op prices o now self with
      | (Return _, self') => S (returned_calls prices rest self')
      | (Raise _, self') => returned_calls prices rest self'
      end
  end.

(** A record of the log is well formed: a DEPOSIT or a WITHDRAW has an
    amount that is not [<= 0] and no symbol, quantity or price; a BUY or a
    SELL has a positive quantity, a price, their product as its amount, and
    a symbol in upper case (or none, for the empty symbol). *)
Definition transaction_wf (tx : transaction) : Prop :=
  match tx_type_of tx with
  | DEPOSIT | WITHDRAW =>
      tx_symbol tx = None /\ tx_quantity tx = None /\
      tx_price_per_share tx = None /\
      leb (tx_total_amount tx) (Int 0) = false
  | BUY | SELL =>
      exists quantity price,
        tx_quantity tx = Some quantity /\ 0 < quantity /\
        tx_price_per_share tx = Some price /\
        mul (Float price) (Int quantity) = Some (tx_total_amount tx) /\
        match tx_symbol tx with
        | Some s => upper s = s /\ s <> ""
        | None => True
        end
  end.

(** What a record adds to the number of shares of [symbol]: the quantity of
    a BUY, minus the quantity of a SELL. *)
Definition traded_quantity (symbol : string) (tx : transaction) : Z :=
  match tx_symbol tx, tx_quantity tx with
  | Some s, Some q =>
      if String.eqb s symbol then
        match tx_type_of tx with
        | BUY => q
        | SELL => - q
        | DEPOSIT | WITHDRAW => 0
        end
      else 0
  | _, _ => 0
  end.

(** The shares of [symbol] bought less the shares sold, over the log. *)
Definition net_quantity (symbol : string) (log : list transaction) : Z :=
  fold_left (fun n tx => n + traded_quantity symbol tx) log 0.

(** The exceptions the docstring of each method lists under [Raises]. *)
Definition documented (o : op) (e : exn) : bool :=
  match o, e with
  | (Deposit _ | Withdraw _ | Buy _ _ | Sell _ _), ValueError _ => true
  | (Withdraw _ | Buy _ _), InsufficientFundsError _ _ _ => true
  | (Buy _ _ | Sell _ _), UnknownSymbolError _ => true
  | Sell _ _, InsufficientSharesError _ => true
  | _, _ => false
  end.

(** The quantity is a positive [int]. *)
Definition positive_int (quantity : pyobj) : bool :=
  match quantity with
  | PyNum (Int q) => 0 <? q
  | _ => false
  end.

(** The states reached from an initial deposit that is not below zero by
    calls that pass no NaN as an amount. *)
Inductive reachable_without_nan : Account -> Prop :=
| without_nan_init account_id user_name initial_deposit now self :
    __init__ account_id user_name initial_deposit now = Return self ->
    geb initial_deposit (Int 0) = true ->
    reachable_without_nan self
| without_nan_step prices o now self r self' :
    reachable_without_nan self ->
    op_amount_is_nan o = false ->
    run_op prices o now self = (r, self') ->
    reachable_without_nan self'.

(** ** The module [app]

    The handlers of the Gradio demo.  They work on the one account of the
    module, [trading_account], which is [None] when the constructor has
    raised; a handler is a function from that account to what it returns or
    raises and the account it leaves.  The arguments are what the input
    components deliver: a number or [None] for a [gr.Number], a string or
    [None] for the [gr.Dropdown].  pandas is a parameter ([pandas] below):
    the type of its data frames, the constructor [pd.DataFrame(data,
    columns=...)], and the operations by which [format_transactions_to_df]
    builds the table of a log that is not empty, with what they may
    raise. *)

(** What a handler can raise besides the exceptions of [accounts]. *)
Inductive app_exn : Type :=
| FromAccounts (e : exn)
| TypeError (msg : string)
| FromPandas (msg : string).

Inductive result (A : Type) : Type :=
| Returns (a : A)
| Raises (e : app_exn).
Arguments Returns {A} a.
Arguments Raises {A} e.

Definition result_of {A : Type} (r : outcome A) : result A :=
  match r with
  | Return a => Returns a
  | Raise e => Raises (FromAccounts e)
  end.

Definition rbind {A B : Type} (r : result A) (k : A -> result B) : result B :=
  match r with
  | Returns a => k a
  | Raises e => Raises e
  end.

(** [except TradingError]: the three exception classes of [accounts]. *)
Definition is_TradingError (e : exn) : bool :=
  match e with
  | InsufficientFundsError _ _ _ | InsufficientSharesError _ | UnknownSymbolError _ => true
  | ValueError _ | OverflowError | KeyError _ => false
  end.

(** [except (ValueError, TradingError)] *)
Definition is_ValueError_or_TradingError (e : exn) : bool :=
  match e with
  | ValueError _ => true
  | _ => is_TradingError e
  end.

(** [float(amount)] *)
Definition float_of (amount : option num) : result float :=
  match amount with
  | None => Raises (TypeError "float() argument must be a string or a real number, not 'NoneType'")
  | Some a =>
      match to_float a with
      | Some f => Returns f
      | None => Raises (FromAccounts OverflowError)
      end
  end.

(** [int(f)] for a float: the integer part, towards zero. *)
Definition int_of_float (f : float) : outcome Z :=
  match Prim2SF f with
  | S754_nan => Raise (ValueError "cannot convert float NaN to integer")
  | S754_infinity _ => Raise OverflowError
  | S754_zero _ => Return 0
  | S754_finite s m e =>
      Return (cond_Zopp s (if 0 <=? e then Zpos m * 2 ^ e else Zpos m / 2 ^ (- e)))
  end.

(** [int(quantity)] for a number. *)
Definition int_of (quantity : num) : outcome Z :=
  match quantity with
  | Int z => Return z
  | Float f => int_of_float f
  end.

(** [not symbol] and [not quantity]: [None], the empty string and zero are
    false. *)
Definition not_symbol (symbol : option string) : bool :=
  match symbol with
  | None | Some "" => true
  | Some _ => false
  end.

Definition not_quantity (quantity : option num) : bool :=
  match quantity with
  | None => true
  | Some q => eqb q (Int 0)
  end.

(** A cell of a table: a string, an integer, or an amount formatted with
    ["${x:,.2f}"] (kept as the double). *)
Inductive cell : Type :=
| Text (s : string)
| Count (z : Z)
| Dollars (f : float).

(** The message of a handler: one of its two literal messages; a success
    message with an amount formatted with [,.2f] in it (["Success: " ++ verb
    ++ " $" ++ amount ++ "."]); the success message of a trade (["Success: "
    ++ verb ++ " " ++ str(quantity) ++ " shares of " ++ symbol ++ "."]; the
    quantity of a trade that returned fits a double, and [str] prints it:
    [returned_trade_prints]); or ["Error: " ++ str(e)]. *)
Inductive message : Type :=
| Literal (s : string)
| Success (verb : string) (amount : float)
| SuccessTrade (verb : string) (quantity : Z) (symbol : string)
| ErrorOf (e : exn).

(** pandas: the data frames, [pd.DataFrame(data, columns=columns)] (with no
    rows for [pd.DataFrame(columns=columns)]), and the table
    [format_transactions_to_df] makes of a log that is not empty (the lines
    from [df = pd.DataFrame(transactions_list)] on). *)
Record pandas : Type := {
  DataFrame : Type;
  pd_DataFrame : list (list cell) -> list string -> DataFrame;
  transactions_table : list transaction -> result DataFrame
}.

Section App.

Variable prices : PyDict.dict float.
Variable pd : pandas.

(** The body of the loop of [format_holdings_to_df]. *)
Definition holdings_row (item : string * Z) : outcome (list cell) :=
  let (symbol, quantity) := item in
  match get_share_price prices symbol with
  | Return price =>
      match float_of_int quantity with
      | Some q => Return [Text symbol; Count quantity; Dollars price; Dollars (price * q)]
      | None => Raise OverflowError
      end
  | Raise e =>
      if is_TradingError e then Return [Text symbol; Count quantity; Text "N/A"; Text "N/A"]
      else Raise e
  end.

Fixpoint holdings_rows (items : PyDict.dict Z) (data : list (list cell))
    : outcome (list (list cell)) :=
  match items with
  | [] => Return data
  | item :: rest =>
      match holdings_row item with
      | Return row => holdings_rows rest (data ++ [row])
      | Raise e => Raise e
      end
  end.

Definition format_holdings_to_df (holdings_dict : PyDict.dict Z)
    : outcome (DataFrame pd) :=
  match holdings_dict with
  | [] => Return (pd_DataFrame pd [] ["Symbol"; "Quantity"])
  | _ =>
      match holdings_rows holdings_dict [] with
      | Return data =>
          Return (pd_DataFrame pd data
                    ["Symbol"; "Quantity"; "Current Price"; "Current Value"])
      | Raise e => Raise e
      end
  end.

Definition format_transactions_to_df (transactions_list : list transaction)
    : result (DataFrame pd) :=
  match transactions_list with
  | [] =>
      Returns (pd_DataFrame pd []
                 ["Timestamp"; "Type"; "Symbol"; "Quantity"; "Price/Share";
                  "Total Amount"])
  | _ => transactions_table pd transactions_list
  end.

(** The six values [get_all_metrics] returns. *)
Record metrics : Type := {
  cash : cell;
  portfolio_val : cell;
  total_val : cell;
  pnl : cell;
  holdings_df : DataFrame pd;
  transactions_df : DataFrame pd
}.

(** ["${x:,.2f}"] of a number. *)
Definition dollars (a : num) : result cell :=
  match to_float a with
  | Some f => Returns (Dollars f)
  | None => Raises (FromAccounts OverflowError)
  end.

Definition get_all_metrics (account : option Account) : result metrics :=
  match account with
  | None =>
      rbind (result_of (format_holdings_to_df [])) (fun empty_holdings =>
      rbind (format_transactions_to_df []) (fun empty_tx =>
      Returns {| cash := Text "$0.00"; portfolio_val := Text "$0.00";
                 total_val := Text "$0.00"; pnl := Text "$0.00";
                 holdings_df := empty_holdings; transactions_df := empty_tx |}))
  | Some account =>
      rbind (dollars (get_cash_balance account)) (fun cash =>
      rbind (result_of (get_portfolio_value prices account)) (fun pv =>
      rbind (result_of (get_total_value prices account)) (fun tv =>
      rbind (dollars tv) (fun total_val =>
      rbind (result_of (get_profit_loss prices account)) (fun pl =>
      rbind (dollars pl) (fun pnl =>
      rbind (result_of (format_holdings_to_df (get_holdings account))) (fun holdings_df =>
      rbind (format_transactions_to_df (get_transaction_history account))
        (fun transactions_df =>
      Returns {| cash := cash; portfolio_val := Dollars pv; total_val := total_val;
                 pnl := pnl; holdings_df := holdings_df;
                 transactions_df := transactions_df |}))))))))
  end.

(** [return message, *get_all_metrics(account)] *)
Definition respond (msg : message) (account : option Account)
    : result (message * metrics) * option Account :=
  (rbind (get_all_metrics account) (fun m => Returns (msg, m)), account).

(** The [try] of a handler around a call of a method of the account: the
    success message when the call returns, ["Error: ..."] when it raises a
    [ValueError] or a [TradingError]; any other exception leaves the
    handler. *)
Definition respond_to_call (success : message) (r : outcome unit * Account)
    : result (message * metrics) * option Account :=
  match r with
  | (Return _, account) => respond success (Some account)
  | (Raise e, account) =>
      if is_ValueError_or_TradingError e then respond (ErrorOf e) (Some account)
      else (Raises (FromAccounts e), Some account)
  end.

Definition handle_deposit (amount : option num) (now : string)
    (trading_account : option Account) : result (message * metrics) * option Account :=
  match trading_account with
  | None => respond (Literal "ERROR: Account not initialized.") None
  | Some account =>
      match float_of amount with
      | Raises e => (Raises e, Some account)
      | Returns f =>
          respond_to_call (Success "Deposited" f)
            (deposit (PyNum (Float f)) now account)
      end
  end.

Definition handle_withdraw (amount : option num) (now : string)
    (trading_account : option Account) : result (message * metrics) * option Account :=
  match trading_account with
  | None => respond (Literal "ERROR: Account not initialized.") None
  | Some account =>
      match float_of amount with
      | Raises e => (Raises e, Some account)
      | Returns f =>
          respond_to_call (Success "Withdrew" f)
            (withdraw (PyNum (Float f)) now account)
      end
  end.

(** The test [not symbol or not quantity or int(quantity) <= 0] of the two
    trade handlers, with the arguments the call is made with when the test
    lets it through: the symbol and [int(quantity)].  The conversion is
    made only when the first two tests fail, and may raise. *)
Definition trade_arguments (symbol : option string) (quantity : option num)
    : outcome (option (string * Z)) :=
  if not_symbol symbol || not_quantity quantity then Return None
  else
    match symbol, quantity with
    | Some symbol, Some quantity =>
        match int_of quantity with
        | Return q => if q <=? 0 then Return None else Return (Some (symbol, q))
        | Raise e => Raise e
        end
    | _, _ => Return None
    end.

Definition handle_buy (symbol : option string) (quantity : option num) (now : string)
    (trading_account : option Account) : result (message * metrics) * option Account :=
  match trading_account with
  | None => respond (Literal "ERROR: Account not initialized.") None
  | Some account =>
      match trade_arguments symbol quantity with
      | Raise e => (Raises (FromAccounts e), Some account)
      | Return None =>
          respond (Literal "Error: Please provide a valid symbol and a positive quantity.")
            (Some account)
      | Return (Some (symbol, q)) =>
          respond_to_call
            (SuccessTrade "Bought" q symbol)
            (buy_shares prices symbol (PyNum (Int q)) now account)
      end
  end.

Definition handle_sell (symbol : option string) (quantity : option num) (now : string)
    (trading_account : option Account) : result (message * metrics) * option Account :=
  match trading_account with
  | None => respond (Literal "ERROR: Account not initialized.") None
  | Some account =>
      match trade_arguments symbol quantity with
      | Raise e => (Raises (FromAccounts e), Some account)
      | Return None =>
          respond (Literal "Error: Please provide a valid symbol and a positive quantity.")
            (Some account)
      | Return (Some (symbol, q)) =>
          respond_to_call
            (SuccessTrade "Sold" q symbol)
            (sell_shares prices symbol (PyNum (Int q)) now account)
      end
  end.

(** A click on one of the four buttons. *)
Inductive click : Type :=
| ClickDeposit (amount : option num)
| ClickWithdraw (amount : option num)
| ClickBuy (symbol : option string) (quantity : option num)
| ClickSell (symbol : option string) (quantity : option num).

Definition handle (c : click) (now : string) (trading_account : option Account)
    : result (message * metrics) * option Account :=
  match c with
  | ClickDeposit amount => handle_deposit amount now trading_account
  | ClickWithdraw amount => handle_withdraw amount now trading_account
  | ClickBuy symbol quantity => handle_buy symbol quantity now trading_account
  | ClickSell symbol quantity => handle_sell symbol quantity now trading_account
  end.

End App.

(** [trading_account] as the module creates it: [Account("gradio_demo_001",
    "Demo User", 10000.00)], or [None] had the constructor raised. *)
Definition trading_account_at_start (now : string) : option Account :=
  match __init__ "gradio_demo_001" "Demo User" (Float 10000) now with
  | Return account => Some account
  | Raise _ => None
  end.

(** The accounts the demo can be in: the initial one and those the clicks
    lead to. *)
Inductive app_reachable : option Account -> Prop :=
| app_start now : app_reachable (trading_account_at_start now)
| app_click prices pd c now trading_account :
    app_reachable trading_account ->
    app_reachable (snd (handle prices pd c now trading_account)).

(** A stand-in for pandas in the examples: its data frames keep the rows
    and the columns they are built from, and the table of the transactions
    has a row with the kind of each record. *)
Definition rows_and_columns : pandas :=
  {| DataFrame := list (list cell) * list string;
     pd_DataFrame := fun data columns => (data, columns);
     transactions_table := fun transactions_list =>
       Returns (map (fun tx =>
                       [Text (match tx_type_of tx with
                              | DEPOSIT => "DEPOSIT" | WITHDRAW => "WITHDRAW"
                              | BUY => "BUY" | SELL => "SELL"
                              end)]) transactions_list,
                ["Type"]) |}.

(** What a message says of the account a handler has left: a success
    message, that one record has been appended; an error message, that the
    account is as it was. *)
Definition message_agrees (msg : message) (account account' : Account) : Prop :=
  match msg with
  | Success _ _ | SuccessTrade _ _ _ =>
      exists tx, _transactions account' = (_transactions account ++ [tx])%list
  | ErrorOf e => is_ValueError_or_TradingError e = true /\ account' = account
  | Literal s =>
      s = "Error: Please provide a valid symbol and a positive quantity." /\
      account' = account
  end.

(** The row of a holding in the table of the holdings: the symbol, the
    quantity, and the price and the value, or "N/A" twice when the symbol
    has no price. *)
Definition row_shows (prices : PyDict.dict float) (item : string * Z)
    (row : list cell) : Prop :=
  match get_share_price prices (fst item) with
  | Return price =>
      row = [Text (fst item); Count (snd item); Dollars price;
             Dollars (holding_value prices item)]
  | Raise _ => row = [Text (fst item); Count (snd item); Text "N/A"; Text "N/A"]
  end.

(** * Facts about Python numbers *)

(** ** Doubles through their specification

    The primitive operations on doubles are specified by the functions of
    [SpecFloat] ([add_spec], [sub_spec], [mul_spec], ...).  This module
    derives from those functions what the ledger needs: the result of
    rounding is a valid double, rounding does not change the sign and is
    monotone, and sums, differences and products of doubles that are not
    below zero are not below zero. *)

Module FloatFacts.

(** *** NaN *)

Lemma Pos_compare_cont_refl (m : positive) : Pos.compare_cont Eq m m = Eq.
Proof. apply Pos.compare_refl. Qed.

Lemma SFcompare_refl (x : spec_float) : x <> S754_nan -> SFcompare x x = Some Eq.
Proof.
  destruct x as [s|s| |s m e]; intros H; try reflexivity.
  - now destruct s.
  - contradiction.
  - simpl. rewrite Z.compare_refl, Pos_compare_cont_refl. now destruct s.
Qed.

Lemma is_nan_spec (f : float) : PrimFloat.is_nan f = true <-> Prim2SF f = S754_nan.
Proof.
  unfold PrimFloat.is_nan. rewrite eqb_spec. unfold SFeqb.
  destruct (Prim2SF f) as [s|s| |s m e] eqn:E.
  - simpl. split; discriminate.
  - destruct s; simpl; split; discriminate.
  - simpl. tauto.
  - rewrite SFcompare_refl by discriminate. simpl. split; discriminate.
Qed.

Lemma not_nan_spec (f : float) : PrimFloat.is_nan f = false <-> Prim2SF f <> S754_nan.
Proof.
  rewrite <- is_nan_spec. destruct (PrimFloat.is_nan f); split; congruence.
Qed.

(** *** Powers of two *)

Lemma pow2_pos (k : Z) : 0 <= k -> 0 < 2 ^ k.
Proof. intros. apply Z.pow_pos_nonneg; lia. Qed.

Lemma pow2_split (a b : Z) : 0 <= a -> 0 <= b -> 2 ^ (a + b) = 2 ^ a * 2 ^ b.
Proof. intros. apply Z.pow_add_r; lia. Qed.

Lemma pow2_succ (k : Z) : 0 <= k -> 2 ^ (k + 1) = 2 * 2 ^ k.
Proof. intros. rewrite Z.pow_add_r by lia. lia. Qed.

Lemma pow2_le (a b : Z) : 0 <= a <= b -> 2 ^ a <= 2 ^ b.
Proof. intros. apply Z.pow_le_mono_r; lia. Qed.

(** *** Binary digits *)

Lemma digits_pos m : 1 <= digits m.
Proof. unfold digits. lia. Qed.

Lemma digits_bounds (m : positive) : 2 ^ (digits m - 1) <= Zpos m < 2 ^ digits m.
Proof.
  unfold digits. induction m as [m IH|m IH|]; simpl digits2_pos.
  - rewrite Pos2Z.inj_succ.
    replace (Z.succ (Zpos (digits2_pos m)) - 1) with ((Zpos (digits2_pos m) - 1) + 1) by lia.
    rewrite pow2_succ by lia. unfold Z.succ. rewrite pow2_succ by lia. lia.
  - rewrite Pos2Z.inj_succ.
    replace (Z.succ (Zpos (digits2_pos m)) - 1) with ((Zpos (digits2_pos m) - 1) + 1) by lia.
    rewrite pow2_succ by lia. unfold Z.succ. rewrite pow2_succ by lia. lia.
  - simpl. lia.
Qed.

Lemma digits_unique (m : positive) (k : Z) : 2 ^ (k - 1) <= Zpos m < 2 ^ k -> digits m = k.
Proof.
  intros H. pose proof (digits_bounds m) as B. pose proof (digits_pos m).
  assert (0 < k).
  { destruct (Z.le_gt_cases k 0) as [Hk|]; [|lia].
    assert (2 ^ k <= 2 ^ 0).
    { destruct (Z.eq_dec k 0) as [->|]; [lia|]. rewrite Z.pow_neg_r by lia. simpl. lia. }
    simpl in *. lia. }
  destruct (Z.lt_trichotomy (digits m) k) as [Hlt|[He|Hgt]]; [|exact He|].
  - assert (2 ^ digits m <= 2 ^ (k - 1)) by (apply pow2_le; lia). lia.
  - assert (2 ^ k <= 2 ^ (digits m - 1)) by (apply pow2_le; lia). lia.
Qed.

(** *** Shifting a mantissa to the right

    [shr] shifts bit by bit and remembers in two flags whether the bits
    shifted out were all zero; [n] shifts divide the mantissa by [2^n]. *)

Lemma iter_pos_nat {A} (f : A -> A) (n : positive) (x : A) :
  iter_pos f n x = Nat.iter (Pos.to_nat n) f x.
Proof.
  revert x. induction n as [n IH|n IH|]; intros x; simpl iter_pos.
  - rewrite !IH. rewrite Pos2Nat.inj_xI. simpl.
    replace (Pos.to_nat n + (Pos.to_nat n + 0))%nat with (Pos.to_nat n + Pos.to_nat n)%nat by lia.
    rewrite Nat.iter_add. rewrite <- Nat.iter_succ_r. simpl.
    rewrite <- Nat.iter_succ_r. simpl. reflexivity.
  - rewrite !IH. rewrite Pos2Nat.inj_xO. simpl.
    replace (Pos.to_nat n + (Pos.to_nat n + 0))%nat with (Pos.to_nat n + Pos.to_nat n)%nat by lia.
    now rewrite Nat.iter_add.
  - reflexivity.
Qed.

Lemma shr_1_m mrs : 0 <= shr_m mrs -> shr_m (shr_1 mrs) = shr_m mrs / 2.
Proof.
  destruct mrs as [m r s]. simpl. intros Hm.
  destruct m as [|p|p]; [reflexivity| |lia].
  destruct p as [p|p|]; simpl shr_m.
  - rewrite Pos2Z.inj_xI. apply Z.div_unique with 1; lia.
  - rewrite Pos2Z.inj_xO. apply Z.div_unique with 0; lia.
  - reflexivity.
Qed.

Lemma shr_1_inexact mrs :
  0 <= shr_m mrs -> inexact (shr_1 mrs) = Z.odd (shr_m mrs) || inexact mrs.
Proof.
  destruct mrs as [m r s]. unfold inexact. simpl. intros Hm.
  destruct m as [|p|p]; [reflexivity| |lia].
  destruct p as [p|p|]; simpl; reflexivity.
Qed.

Lemma mod_pow2_succ (m : Z) (n : Z) : 0 <= n ->
  (m mod 2 ^ (n + 1) <> 0 <-> m mod 2 ^ n <> 0 \/ Z.odd (m / 2 ^ n) = true).
Proof.
  intros Hn. pose proof (pow2_pos n Hn) as Hp.
  rewrite pow2_succ by lia. rewrite (Z.mul_comm 2).
  rewrite Z.rem_mul_r by lia.
  pose proof (Z.mod_pos_bound m (2 ^ n) Hp) as B1.
  rewrite Zmod_odd.
  destruct (Z.odd (m / 2 ^ n)).
  - split; [intros _; now right|intros _; nia].
  - split; [intros H; left; lia|intros [H|H]; [lia|discriminate]].
Qed.

Lemma shr_iter (n : nat) (mrs : shr_record) :
  0 <= shr_m mrs ->
  shr_m (Nat.iter n shr_1 mrs) = shr_m mrs / 2 ^ Z.of_nat n /\
  (inexact (Nat.iter n shr_1 mrs) = true <->
   inexact mrs = true \/ shr_m mrs mod 2 ^ Z.of_nat n <> 0).
Proof.
  intros Hm. induction n as [|n [IHm IHi]].
  - simpl. rewrite Z.div_1_r, Z.mod_1_r. intuition congruence.
  - rewrite Nat.iter_succ.
    assert (Hq : 0 <= shr_m (Nat.iter n shr_1 mrs)).
    { rewrite IHm. apply Z.div_pos; [lia|apply pow2_pos; lia]. }
    rewrite shr_1_m, shr_1_inexact by exact Hq.
    rewrite Nat2Z.inj_succ. unfold Z.succ. split.
    + rewrite IHm, pow2_succ by lia. rewrite Z.div_div; [|apply Z.pow_nonzero; lia|lia].
      f_equal. lia.
    + rewrite orb_true_iff, IHi, mod_pow2_succ by lia. rewrite IHm. tauto.
Qed.

Lemma shr_spec (mrs : shr_record) (e n : Z) :
  0 <= shr_m mrs -> 0 < n ->
  shr mrs e n = (fst (shr mrs e n), e + n) /\
  shr_m (fst (shr mrs e n)) = shr_m mrs / 2 ^ n /\
  (inexact (fst (shr mrs e n)) = true <->
   inexact mrs = true \/ shr_m mrs mod 2 ^ n <> 0).
Proof.
  intros Hm Hn. destruct n as [|p|p]; try lia.
  unfold shr. cbn [fst]. rewrite iter_pos_nat.
  split; [reflexivity|].
  pose proof (shr_iter (Pos.to_nat p) mrs Hm) as H.
  rewrite positive_nat_Z in H. exact H.
Qed.

Lemma round_nearest_even_cases (q : Z) (l : location) :
  round_nearest_even q l = q \/ round_nearest_even q l = q + 1.
Proof.
  destruct l as [|[]]; simpl; auto. destruct (Z.even q); auto.
Qed.

Lemma loc_exact mrs : inexact mrs = false -> loc_of_shr_record mrs = loc_Exact.
Proof. destruct mrs as [m [] []]; simpl; unfold inexact; simpl; congruence. Qed.

(** *** Rounding to nearest even

    For binary64 the precision is 53 and the least exponent -1074. *)

Lemma fexp_eq (e : Z) : fexp prec emax e = Z.max (e - 53) (-1074).
Proof. reflexivity. Qed.

Lemma Zdigits2_pos (p : positive) : Zdigits2 (Zpos p) = digits p.
Proof. reflexivity. Qed.

Lemma shr_fexp_exact (m e : Z) :
  0 <= m ->
  let n := Z.max (fexp prec emax (Zdigits2 m + e) - e) 0 in
  exists mrs,
    shr_fexp prec emax m e loc_Exact = (mrs, e + n) /\
    shr_m mrs = m / 2 ^ n /\
    (inexact mrs = true <-> m mod 2 ^ n <> 0).
Proof.
  intros Hm n. unfold shr_fexp. cbn [shr_record_of_loc].
  set (k := fexp prec emax (Zdigits2 m + e) - e) in *.
  destruct (Z.le_gt_cases k 0) as [Hk|Hk].
  - exists {| shr_m := m; shr_r := false; shr_s := false |}.
    replace n with 0 by (unfold n; lia).
    split; [|split].
    + rewrite Z.add_0_r. destruct k; try reflexivity. lia.
    + simpl. now rewrite Z.div_1_r.
    + simpl. rewrite Z.mod_1_r. unfold inexact; simpl. split; [discriminate|lia].
  - replace n with k by (unfold n; lia).
    destruct (shr_spec {| shr_m := m; shr_r := false; shr_s := false |} e k Hm Hk)
      as (E & Hq & Hi).
    eexists. split; [exact E|]. split; [exact Hq|].
    rewrite Hi. unfold inexact; simpl. intuition congruence.
Qed.

(** The two steps of [binary_round_aux] on a positive mantissa. *)
Lemma binary_round_aux_exact (sx : bool) (m : positive) (e n : Z) :
  n = Z.max (fexp prec emax (digits m + e) - e) 0 ->
  exists m1 n2,
    (m1 = Zpos m / 2 ^ n \/ (m1 = Zpos m / 2 ^ n + 1 /\ Zpos m mod 2 ^ n <> 0)) /\
    n2 = Z.max (fexp prec emax (Zdigits2 m1 + (e + n)) - (e + n)) 0 /\
    binary_round_aux prec emax sx (Zpos m) e loc_Exact =
    match m1 / 2 ^ n2 with
    | Z0 => S754_zero sx
    | Zpos m' =>
        if (e + n + n2) <=? emax - prec then S754_finite sx m' (e + n + n2)
        else S754_infinity sx
    | Zneg _ => S754_nan
    end.
Proof.
  intros Hn. unfold binary_round_aux.
  destruct (shr_fexp_exact (Zpos m) e ltac:(lia)) as (mrs' & E1 & Hq & Hi).
  rewrite Zdigits2_pos in E1, Hq, Hi. cbv zeta in E1, Hq, Hi.
  rewrite <- Hn in E1, Hq, Hi. rewrite E1.
  set (q := Zpos m / 2 ^ n) in *.
  set (m1 := round_nearest_even (shr_m mrs') (loc_of_shr_record mrs')).
  assert (Hq0 : 0 <= q) by (apply Z.div_pos; [lia|apply pow2_pos; lia]).
  assert (Hm1 : m1 = q \/ (m1 = q + 1 /\ Zpos m mod 2 ^ n <> 0)).
  { destruct (inexact mrs') eqn:Hin.
    - destruct (round_nearest_even_cases (shr_m mrs') (loc_of_shr_record mrs'))
        as [H|H]; fold m1 in H; rewrite Hq in H; [now left|].
      right. split; [exact H|]. now apply Hi.
    - left. unfold m1. rewrite (loc_exact _ Hin). simpl. exact Hq. }
  destruct (shr_fexp_exact m1 (e + n) ltac:(lia)) as (mrs'' & E2 & Hq2 & _).
  cbv zeta in E2, Hq2.
  exists m1, (Z.max (fexp prec emax (Zdigits2 m1 + (e + n)) - (e + n)) 0).
  split; [exact Hm1|]. split; [reflexivity|].
  rewrite E2, Hq2. reflexivity.
Qed.

(** *** Rounding an aligned mantissa gives a valid double *)

Lemma bounded_eq (m : positive) (e : Z) :
  bounded prec emax m e = true <-> Z.max (digits m + e - 53) (-1074) = e /\ e <= 971.
Proof.
  unfold bounded, canonical_mantissa. rewrite andb_true_iff, Z.eqb_eq, Z.leb_le.
  rewrite fexp_eq. unfold digits. change (emax - prec) with 971. tauto.
Qed.

Lemma div_pow2_bounds (m : positive) (n : Z) :
  0 <= n -> n < digits m ->
  2 ^ (digits m - n - 1) <= Zpos m / 2 ^ n < 2 ^ (digits m - n).
Proof.
  intros Hn Hlt. pose proof (digits_bounds m) as [Hlo Hhi].
  pose proof (pow2_pos n Hn).
  split.
  - apply Z.div_le_lower_bound; [lia|].
    rewrite <- pow2_split by lia. replace (n + (digits m - n - 1)) with (digits m - 1) by lia.
    exact Hlo.
  - apply Z.div_lt_upper_bound; [lia|].
    rewrite <- pow2_split by lia. replace (n + (digits m - n)) with (digits m) by lia.
    exact Hhi.
Qed.

Lemma binary_round_aux_aligned (sx : bool) (m : positive) (e : Z) :
  -1074 <= e -> e <= fexp prec emax (digits m + e) ->
  let n := fexp prec emax (digits m + e) - e in
  let q := Zpos m / 2 ^ n in
  let r := binary_round_aux prec emax sx (Zpos m) e loc_Exact in
  r = S754_infinity sx \/
  exists m' e',
    r = S754_finite sx m' e' /\ bounded prec emax m' e' = true /\
    e + n <= e' /\
    (Zpos m' * 2 ^ (e' - (e + n)) = q \/
     (Zpos m' * 2 ^ (e' - (e + n)) = q + 1 /\ Zpos m mod 2 ^ n <> 0)) /\
    (n = 0 \/ 2 ^ 52 <= q).
Proof.
  intros He Hal n q r.
  assert (Hn : n = Z.max (digits m + e - 53) (-1074) - e) by (unfold n; now rewrite fexp_eq).
  rewrite fexp_eq in Hal.
  destruct (binary_round_aux_exact sx m e n) as (m1 & n2 & Hm1 & Hn2 & Hr).
  { rewrite fexp_eq. lia. }
  fold r in Hr. fold q in Hm1. rewrite fexp_eq in Hn2.
  pose proof (digits_pos m) as HD.
  destruct (Z.eq_dec n 0) as [Hn0|Hn0].
  - (* already canonical *)
    assert (Hq : q = Zpos m) by (unfold q; rewrite Hn0; simpl; apply Z.div_1_r).
    assert (Hm1' : m1 = Zpos m).
    { destruct Hm1 as [->|[_ Hne]]; [exact Hq|].
      rewrite Hn0 in Hne. simpl in Hne. rewrite Z.mod_1_r in Hne. lia. }
    rewrite Hm1', Zdigits2_pos in Hn2. assert (Hn20 : n2 = 0) by lia.
    rewrite Hm1', Hn20 in Hr. change (2 ^ 0) with 1 in Hr. rewrite Z.div_1_r in Hr.
    destruct (Z.leb_spec (e + n + 0) (emax - prec)) as [Hle|Hgt]; [|now left].
    right. exists m, (e + n + 0). split; [exact Hr|]. split.
    { apply bounded_eq. change (emax - prec) with 971 in Hle. lia. }
    split; [lia|]. split; [|now left].
    left. replace (e + n + 0 - (e + n)) with 0 by lia. simpl. lia.
  - (* rounding to 53 digits *)
    assert (Hn' : n = digits m - 53 /\ 0 < n) by lia. destruct Hn' as [Hn1 Hnpos].
    assert (Hqb : 2 ^ 52 <= q < 2 ^ 53).
    { pose proof (div_pow2_bounds m n ltac:(lia) ltac:(lia)) as B.
      replace (digits m - n - 1) with 52 in B by lia. replace (digits m - n) with 53 in B by lia.
      exact B. }
    assert (Hm1b : 2 ^ 52 <= m1 <= 2 ^ 53) by lia.
    destruct (Z.eq_dec m1 (2 ^ 53)) as [Htop|Htop].
    + (* the carry: 2^53 becomes 2^52 with the exponent one up *)
      rewrite Htop in Hn2. change (Zdigits2 (2 ^ 53)) with 54 in Hn2.
      assert (Hn21 : n2 = 1) by lia.
      rewrite Htop, Hn21 in Hr.
      change (2 ^ 53 / 2 ^ 1) with (Zpos (2 ^ 52)%positive) in Hr. cbv iota in Hr.
      destruct (Z.leb_spec (e + n + 1) (emax - prec)) as [Hle|Hgt]; [|now left].
      right. exists (2 ^ 52)%positive, (e + n + 1). split; [exact Hr|]. split.
      { apply bounded_eq. change (digits (2 ^ 52)) with 53.
        change (emax - prec) with 971 in Hle. lia. }
      split; [lia|]. split; [|now right].
      right. replace (e + n + 1 - (e + n)) with 1 by lia.
      destruct Hm1 as [->|[E Hne]]; [lia|]. split; [|exact Hne].
      rewrite <- E, Htop. reflexivity.
    + destruct m1 as [|p1|p1]; try lia.
      assert (HD1 : digits p1 = 53) by (apply digits_unique; change (2 ^ (53 - 1)) with (2 ^ 52); lia).
      rewrite Zdigits2_pos, HD1 in Hn2. assert (Hn20 : n2 = 0) by lia.
      rewrite Hn20 in Hr. change (2 ^ 0) with 1 in Hr. rewrite Z.div_1_r in Hr.
      destruct (Z.leb_spec (e + n + 0) (emax - prec)) as [Hle|Hgt]; [|now left].
      right. exists p1, (e + n + 0). split; [exact Hr|]. split.
      { apply bounded_eq. rewrite HD1. change (emax - prec) with 971 in Hle. lia. }
      split; [lia|]. split; [|now right].
      replace (e + n + 0 - (e + n)) with 0 by lia. simpl (2 ^ 0). rewrite Z.mul_1_r.
      destruct Hm1 as [E|[E Hne]]; [now left|right; split; [exact E|exact Hne]].
Qed.

(** *** [binary_round] *)

Lemma iter_xO (m d : positive) : Zpos (Pos.iter xO m d) = Zpos m * 2 ^ Zpos d.
Proof.
  induction d as [|d IH] using Pos.peano_ind.
  - simpl. lia.
  - rewrite Pos.iter_succ, Pos2Z.inj_xO, IH, Pos2Z.inj_succ.
    unfold Z.succ. rewrite pow2_succ by lia. lia.
Qed.

Lemma digits_shift (m : positive) (m' : positive) (k : Z) :
  0 <= k -> Zpos m' = Zpos m * 2 ^ k -> digits m' = digits m + k.
Proof.
  intros Hk E. apply digits_unique. rewrite E.
  pose proof (digits_bounds m) as [Hlo Hhi]. pose proof (digits_pos m).
  pose proof (pow2_pos k Hk).
  replace (digits m + k - 1) with ((digits m - 1) + k) by lia.
  rewrite !pow2_split by lia. nia.
Qed.

Lemma shl_align_fexp_spec (mx : positive) (ex : Z) :
  -1074 <= ex ->
  exists mz ez,
    shl_align mx ex (fexp prec emax (digits mx + ex)) = (mz, ez) /\
    -1074 <= ez /\ ez <= fexp prec emax (digits mz + ez) /\
    sval mz ez = sval mx ex.
Proof.
  intros He. rewrite fexp_eq. unfold shl_align.
  pose proof (digits_pos mx).
  destruct (Z.max (digits mx + ex - 53) (-1074) - ex) as [|d|d] eqn:Ed.
  - exists mx, ex. rewrite fexp_eq. split; [reflexivity|]. split; [lia|]. split; [lia|reflexivity].
  - exists mx, ex. rewrite fexp_eq. split; [reflexivity|]. split; [lia|]. split; [lia|reflexivity].
  - exists (Pos.iter xO mx d), (Z.max (digits mx + ex - 53) (-1074)).
    pose proof (iter_xO mx d) as Hv.
    pose proof (digits_shift mx _ (Zpos d) ltac:(lia) Hv) as HD.
    rewrite fexp_eq, HD. split; [reflexivity|]. split; [lia|]. split; [lia|].
    unfold sval. rewrite Hv.
    replace (ex + 1074) with (Zpos d + (Z.max (digits mx + ex - 53) (-1074) + 1074)) by lia.
    rewrite (pow2_split (Zpos d)) by lia. ring.
Qed.

(** What [binary_round] returns for an exponent that is not below the least
    one: infinity, or a valid double [m' * 2^e'] that is one of the two
    multiples of the rounding unit [2^e1] around the argument. *)
Lemma binary_round_spec (sx : bool) (mx : positive) (ex : Z) :
  -1074 <= ex ->
  let r := binary_round prec emax sx mx ex in
  r = S754_infinity sx \/
  exists m' e' e1 q,
    r = S754_finite sx m' e' /\ bounded prec emax m' e' = true /\
    -1074 <= e1 /\ 0 <= q /\
    q * 2 ^ (e1 + 1074) <= sval mx ex < (q + 1) * 2 ^ (e1 + 1074) /\
    (sval m' e' = q * 2 ^ (e1 + 1074) \/
     (sval m' e' = (q + 1) * 2 ^ (e1 + 1074) /\ q * 2 ^ (e1 + 1074) < sval mx ex)) /\
    (sval mx ex = q * 2 ^ (e1 + 1074) \/ 2 ^ 52 <= q).
Proof.
  intros He r.
  destruct (shl_align_fexp_spec mx ex He) as (mz & ez & Eal & Hez & Hal & Hv).
  unfold r, binary_round. change (Zpos (digits2_pos mx)) with (digits mx). rewrite Eal.
  destruct (binary_round_aux_aligned sx mz ez Hez Hal)
    as [Hinf|(m' & e' & Hr & Hb & Hle & Hval & Hq)]; [now left|].
  right.
  set (n := fexp prec emax (digits mz + ez) - ez) in *.
  set (q := Zpos mz / 2 ^ n) in *.
  assert (Hn : 0 <= n) by (unfold n; lia).
  pose proof (pow2_pos n Hn) as Hpn.
  pose proof (pow2_pos (ez + 1074) ltac:(lia)) as Hpe.
  assert (Hq0 : 0 <= q) by (apply Z.div_pos; lia).
  pose proof (Z_div_mod_eq_full (Zpos mz) (2 ^ n)) as Hdm. fold q in Hdm.
  pose proof (Z.mod_pos_bound (Zpos mz) (2 ^ n) Hpn) as Hmb.
  assert (He1 : 2 ^ (ez + n + 1074) = 2 ^ n * 2 ^ (ez + 1074)).
  { replace (ez + n + 1074) with (n + (ez + 1074)) by lia. apply pow2_split; lia. }
  assert (HS' : sval m' e' = Zpos m' * 2 ^ (e' - (ez + n)) * 2 ^ (ez + n + 1074)).
  { unfold sval. replace (e' + 1074) with ((e' - (ez + n)) + (ez + n + 1074)) by lia.
    rewrite pow2_split by lia. lia. }
  exists m', e', (ez + n), q.
  split; [exact Hr|]. split; [exact Hb|]. split; [lia|]. split; [exact Hq0|].
  assert (HX : sval mz ez = Zpos mz * 2 ^ (ez + 1074)) by reflexivity.
  rewrite <- Hv, HX, HS', He1.
  split; [nia|]. split.
  - destruct Hval as [E|[E Hne]]; [left; rewrite E; reflexivity|].
    right. split; [rewrite E; reflexivity|]. nia.
  - destruct Hq as [Hn0|Hq]; [|now right].
    left. unfold q. rewrite Hn0. simpl (2 ^ 0). rewrite Z.div_1_r. lia.
Qed.

(** *** The order of the valid doubles above zero *)

Lemma bounded_facts (m : positive) (e : Z) :
  bounded prec emax m e = true ->
  -1074 <= e <= 971 /\ Zpos m < 2 ^ 53 /\ (-1074 < e -> 2 ^ 52 <= Zpos m).
Proof.
  intros H. apply bounded_eq in H. destruct H as [Hc He].
  pose proof (digits_bounds m) as [Hlo Hhi]. pose proof (digits_pos m).
  split; [lia|]. split.
  - assert (2 ^ digits m <= 2 ^ 53) by (apply pow2_le; lia). lia.
  - intros Hlt. assert (digits m - 1 = 52) as <- by lia. exact Hlo.
Qed.

Lemma sval_positive m e : -1074 <= e -> 0 < sval m e.
Proof. intros. unfold sval. pose proof (pow2_pos (e + 1074)). nia. Qed.

Lemma sval_lt_of_exponent (m1 m2 : positive) (e1 e2 : Z) :
  bounded prec emax m1 e1 = true -> bounded prec emax m2 e2 = true ->
  e1 < e2 -> sval m1 e1 < sval m2 e2.
Proof.
  intros B1 B2 Hlt.
  apply bounded_facts in B1. apply bounded_facts in B2.
  destruct B1 as (He1 & Hm1 & _). destruct B2 as (He2 & _ & Hm2).
  specialize (Hm2 ltac:(lia)). unfold sval.
  pose proof (pow2_pos (e1 + 1074) ltac:(lia)) as Hp.
  assert (Hle : 2 * 2 ^ (e1 + 1074) <= 2 ^ (e2 + 1074)).
  { rewrite <- pow2_succ by lia. apply pow2_le. lia. }
  change (2 ^ 53) with (2 * 2 ^ 52) in Hm1. nia.
Qed.

Lemma SFcompare_pos_finite (m1 m2 : positive) (e1 e2 : Z) :
  bounded prec emax m1 e1 = true -> bounded prec emax m2 e2 = true ->
  SFcompare (S754_finite false m1 e1) (S754_finite false m2 e2)
  = Some (sval m1 e1 ?= sval m2 e2).
Proof.
  intros B1 B2. simpl. f_equal.
  destruct (Z.compare_spec e1 e2) as [->|Hlt|Hgt].
  - unfold sval. pose proof (bounded_facts _ _ B2) as (He & _).
    pose proof (pow2_pos (e2 + 1074) ltac:(lia)).
    rewrite <- Zmult_compare_compat_r by lia. reflexivity.
  - symmetry. apply Z.compare_lt_iff. now apply sval_lt_of_exponent.
  - symmetry. apply Z.compare_gt_iff. now apply sval_lt_of_exponent.
Qed.

Lemma SFcompare_antisym (x y : spec_float) :
  SFcompare y x = option_map CompOpp (SFcompare x y).
Proof.
  destruct x as [sx|sx| |sx mx ex], y as [sy|sy| |sy my ey]; simpl;
    try reflexivity;
    try (destruct sx; reflexivity); try (destruct sy; reflexivity);
    try (destruct sx, sy; reflexivity).
  destruct sx, sy; simpl; try reflexivity; f_equal;
    rewrite (Z.compare_antisym ex ey);
    destruct (ex ?= ey); simpl; try reflexivity;
    repeat rewrite Pos.compare_cont_antisym; reflexivity.
Qed.

(** The rounding of [binary_round] is monotone with respect to the doubles. *)
Lemma round_monotone (mf : positive) (ef : Z) (X V e1 q : Z) :
  bounded prec emax mf ef = true ->
  -1074 <= e1 -> 0 <= q ->
  q * 2 ^ (e1 + 1074) <= X < (q + 1) * 2 ^ (e1 + 1074) ->
  (V = q * 2 ^ (e1 + 1074) \/ (V = (q + 1) * 2 ^ (e1 + 1074) /\ q * 2 ^ (e1 + 1074) < X)) ->
  (X = q * 2 ^ (e1 + 1074) \/ 2 ^ 52 <= q) ->
  (sval mf ef <= X -> sval mf ef <= V) /\ (X <= sval mf ef -> V <= sval mf ef).
Proof.
  intros B He1 Hq HX HV Hex.
  pose proof (pow2_pos (e1 + 1074) ltac:(lia)) as HP.
  set (P := 2 ^ (e1 + 1074)) in *.
  destruct Hex as [Hex|Hq52].
  { split; intros H; destruct HV as [->|[-> Hlt]]; lia. }
  apply bounded_facts in B. destruct B as (Hef & Hmf & _).
  destruct (Z.le_gt_cases e1 ef) as [Hge|Hlt].
  - (* the double is a multiple of the rounding unit *)
    assert (HF : sval mf ef = Zpos mf * 2 ^ (ef - e1) * P).
    { unfold sval, P. replace (ef + 1074) with ((ef - e1) + (e1 + 1074)) by lia.
      rewrite pow2_split by lia. ring. }
    set (k := Zpos mf * 2 ^ (ef - e1)) in *. rewrite HF.
    split; intros H.
    + assert (Hk : k < q + 1) by (apply (Z.mul_lt_mono_pos_r P); lia).
      assert (k * P <= q * P) by (apply Z.mul_le_mono_nonneg_r; lia).
      destruct HV as [->|[-> Hlt]]; lia.
    + destruct HV as [->|[-> Hlt]]; [lia|].
      assert (Hk : q < k) by (apply (Z.mul_lt_mono_pos_r P); lia).
      apply Z.mul_le_mono_nonneg_r; lia.
  - (* the double is below every double with the exponent of the result *)
    assert (HF : sval mf ef < q * P).
    { unfold sval, P.
      pose proof (pow2_pos (ef + 1074) ltac:(lia)) as Hp.
      assert (Hle : 2 * 2 ^ (ef + 1074) <= 2 ^ (e1 + 1074)).
      { rewrite <- pow2_succ by lia. apply pow2_le. lia. }
      change (2 ^ 53) with (2 * 2 ^ 52) in Hmf. nia. }
    split; intros H; destruct HV as [->|[-> Hlt']]; lia.
Qed.

(** *** Signs of sums, differences and products *)

Lemma sf_pos_nonneg x : sf_pos x -> sf_nonneg x.
Proof. destruct x as [s|[]| |[] m e]; simpl; tauto. Qed.

Lemma binary_round_aux_sign (sx : bool) (m : positive) (e : Z) :
  match binary_round_aux prec emax sx (Zpos m) e loc_Exact with
  | S754_zero s | S754_infinity s | S754_finite s _ _ => s = sx
  | S754_nan => False
  end.
Proof.
  destruct (binary_round_aux_exact sx m e _ eq_refl) as (m1 & n2 & Hm1 & Hn2 & ->).
  set (n := Z.max (fexp prec emax (digits m + e) - e) 0) in *.
  assert (0 <= Zpos m / 2 ^ n) by (apply Z.div_pos; [lia|apply pow2_pos; lia]).
  assert (0 <= m1 / 2 ^ n2) by (apply Z.div_pos; [lia|apply pow2_pos; lia]).
  destruct (m1 / 2 ^ n2); [reflexivity| |lia].
  destruct (_ <=? _); reflexivity.
Qed.

Lemma binary_round_pos (m : positive) (e : Z) :
  -1074 <= e ->
  sf_pos (binary_round prec emax false m e) /\
  valid_binary (binary_round prec emax false m e) = true.
Proof.
  intros He.
  destruct (binary_round_spec false m e He) as [->|(m' & e' & e1 & q & -> & Hb & _)].
  - split; [exact I|reflexivity].
  - split; [exact I|exact Hb].
Qed.

Lemma binary_normalize_nonneg (z e : Z) :
  0 <= z -> -1074 <= e ->
  sf_nonneg (binary_normalize prec emax z e false) /\
  valid_binary (binary_normalize prec emax z e false) = true /\
  (0 < z -> sf_pos (binary_normalize prec emax z e false)).
Proof.
  intros Hz He. destruct z as [|p|p]; [| |lia]; simpl binary_normalize.
  - split; [exact I|]. split; [reflexivity|lia].
  - destruct (binary_round_pos p e He) as [Hp Hv].
    split; [now apply sf_pos_nonneg|]. split; [exact Hv|]. intros _. exact Hp.
Qed.

Lemma shl_align_value (m : positive) (e ez : Z) :
  ez <= e -> Zpos (fst (shl_align m e ez)) = Zpos m * 2 ^ (e - ez).
Proof.
  intros Hle. unfold shl_align.
  destruct (ez - e) as [|d|d] eqn:Ed; simpl fst.
  - replace (e - ez) with 0 by lia. simpl. lia.
  - lia.
  - rewrite iter_xO. f_equal. f_equal. lia.
Qed.

Lemma sval_aligned (m : positive) (e ez : Z) :
  -1074 <= ez <= e ->
  sval m e = Zpos (fst (shl_align m e ez)) * 2 ^ (ez + 1074).
Proof.
  intros H. rewrite shl_align_value by lia. unfold sval.
  replace (e + 1074) with ((e - ez) + (ez + 1074)) by lia.
  rewrite pow2_split by lia. ring.
Qed.

Lemma valid_finite_exponent s m e :
  valid_binary (S754_finite s m e) = true -> -1074 <= e.
Proof. intros H. apply bounded_facts in H. lia. Qed.

(** The sum of two doubles that are not below zero is not below zero. *)
Lemma SFadd_nonneg (x y : spec_float) :
  valid_binary x = true -> valid_binary y = true ->
  sf_nonneg x -> sf_nonneg y -> sf_nonneg (SF64add x y).
Proof.
  intros Vx Vy Hx Hy.
  destruct x as [sx|[]| |[] mx ex], y as [sy|[]| |[] my ey];
    simpl in Hx, Hy; try contradiction; try exact I.
  - destruct sx, sy; exact I.
  - apply valid_finite_exponent in Vx. apply valid_finite_exponent in Vy.
    unfold SF64add, SFadd. cbn [cond_Zopp].
    apply binary_normalize_nonneg; lia.
Qed.

(** The difference of two doubles, the smaller one not below zero and the
    larger one finite, is not below zero. *)
Lemma SFsub_nonneg (c a : spec_float) :
  valid_binary c = true -> valid_binary a = true ->
  sf_nonneg a -> SFleb a c = true -> sf_finite c -> sf_nonneg (SF64sub c a).
Proof.
  intros Vc Va Ha Hle Hc.
  destruct c as [sc|sc| |sc mc ec]; simpl in Hc; try contradiction;
    destruct a as [sa|[]| |[] ma ea]; simpl in Ha; try contradiction;
    try (unfold SFleb in Hle; simpl in Hle; discriminate).
  - destruct sc, sa; exact I.
  - unfold SFleb in Hle; simpl in Hle. destruct sc; [discriminate|exact I].
  - destruct sc; [unfold SFleb in Hle; simpl in Hle; discriminate|].
    unfold SFleb in Hle. rewrite SFcompare_pos_finite in Hle by assumption.
    assert (HS : sval ma ea <= sval mc ec).
    { destruct (Z.compare_spec (sval ma ea) (sval mc ec)); [lia|lia|discriminate]. }
    apply valid_finite_exponent in Vc. apply valid_finite_exponent in Va.
    unfold SF64sub, SFsub. cbn [cond_Zopp].
    set (ez := Z.min ec ea).
    rewrite (sval_aligned ma ea ez), (sval_aligned mc ec ez) in HS by (unfold ez; lia).
    pose proof (pow2_pos (ez + 1074) ltac:(unfold ez; lia)) as Hp.
    apply binary_normalize_nonneg; [nia|unfold ez; lia].
Qed.

(** The product of a double above zero and a finite double above zero is not
    below zero. *)
Lemma SFmul_nonneg (x y : spec_float) :
  sf_pos x -> sf_pos y -> sf_finite y -> sf_nonneg (SF64mul x y).
Proof.
  intros Hx Hy Fy.
  destruct x as [sx|[]| |[] mx ex]; simpl in Hx; try contradiction;
    destruct y as [sy|[]| |[] my ey]; simpl in Hy, Fy; try contradiction.
  - exact I.
  - unfold SF64mul, SFmul. cbn [xorb].
    pose proof (binary_round_aux_sign false (mx * my) (ex + ey)) as H.
    destruct (binary_round_aux prec emax false (Z.pos (mx * my)) (ex + ey) loc_Exact)
      as [s|s| |s m e]; try contradiction; subst s; exact I.
Qed.

End FloatFacts.

(** ** Comparisons with an integer *)

Lemma cmp_int_float_defined (z : Z) (f : float) :
  PrimFloat.is_nan f = false -> exists c, cmp_int_float z f = Some c.
Proof.
  intros H. apply FloatFacts.not_nan_spec in H. unfold cmp_int_float.
  destruct (Prim2SF f); try (eexists; reflexivity). contradiction.
Qed.

(** For a number that is not a NaN, [a <= 0] is the negation of [a > 0]. *)
Lemma leb_zero_not_gtb (a : num) :
  is_nan a = false -> leb a (Int 0) = negb (gtb a (Int 0)).
Proof.
  destruct a as [z|f]; simpl; intros H.
  - unfold gtb, ltb. destruct (Z.leb_spec z 0), (Z.ltb_spec 0 z); simpl; lia.
  - unfold gtb, ltb.
    destruct (cmp_int_float_defined 0 f H) as [c ->]. now destruct c.
Qed.

Import FloatFacts.

(** ** The conversion of an integer *)

Lemma binary_normalize_cases (z : Z) :
  match binary_normalize prec emax z 0 false with
  | S754_nan => False
  | r => valid_binary r = true
  end.
Proof.
  destruct z as [|p|p]; simpl binary_normalize; [reflexivity| |].
  - destruct (binary_round_spec false p 0 ltac:(lia))
      as [->|(m' & e' & e1 & q & -> & Hb & _)]; [reflexivity|exact Hb].
  - destruct (binary_round_spec true p 0 ltac:(lia))
      as [->|(m' & e' & e1 & q & -> & Hb & _)]; [reflexivity|exact Hb].
Qed.

Lemma float_of_int_spec (z : Z) (g : float) :
  float_of_int z = Some g ->
  Prim2SF g = binary_normalize prec emax z 0 false /\ sf_finite (Prim2SF g).
Proof.
  unfold float_of_int. intros H.
  pose proof (binary_normalize_cases z) as Hv.
  set (r := binary_normalize prec emax z 0 false) in *.
  assert (Hvalid : valid_binary r = true) by (destruct r; tauto).
  assert (E : g = SF2Prim r) by (destruct r; congruence).
  assert (E' : Prim2SF g = r) by (rewrite E; now apply Prim2SF_SF2Prim).
  split; [exact E'|]. rewrite E'.
  destruct r; try exact I; [discriminate H|contradiction].
Qed.

Lemma float_of_int_nonneg (z : Z) (g : float) :
  0 <= z -> float_of_int z = Some g ->
  sf_nonneg (Prim2SF g) /\ sf_finite (Prim2SF g) /\ (0 < z -> sf_pos (Prim2SF g)).
Proof.
  intros Hz H. apply float_of_int_spec in H. destruct H as [E F].
  rewrite E in *.
  destruct (binary_normalize_nonneg z 0 Hz ltac:(lia)) as (Hn & _ & Hp).
  auto.
Qed.

(** ** Comparisons through the specification *)

Lemma cmp_int_float_finite (z : Z) (f : float) (m : positive) (e : Z) :
  Prim2SF f = S754_finite false m e -> -1074 <= e ->
  cmp_int_float z f = Some (z * 2 ^ 1074 ?= sval m e).
Proof.
  intros E He. unfold cmp_int_float. rewrite E. cbn [cond_Zopp]. f_equal.
  unfold sval. destruct (Z.leb_spec 0 e) as [H0|H0].
  - rewrite (pow2_split e 1074) by lia. rewrite Z.mul_assoc.
    apply Zmult_compare_compat_r. pose proof (pow2_pos 1074). lia.
  - replace 1074 with ((- e) + (e + 1074)) at 1 by lia.
    rewrite (pow2_split (- e) (e + 1074)) by lia. rewrite Z.mul_assoc.
    apply Zmult_compare_compat_r. pose proof (pow2_pos (e + 1074)). lia.
Qed.

Lemma NonNeg_Int (z : Z) : NonNeg (Int z) <-> 0 <= z.
Proof. unfold NonNeg, geb, leb. apply Z.leb_le. Qed.

Lemma is_infinity_spec (f : float) :
  PrimFloat.is_infinity f = true <-> exists s, Prim2SF f = S754_infinity s.
Proof.
  unfold PrimFloat.is_infinity. rewrite eqb_spec, abs_spec.
  change (Prim2SF infinity) with (S754_infinity false).
  destruct (Prim2SF f) as [s|s| |s m e]; unfold SFeqb; simpl; split;
    try discriminate; try (intros [s' H]; discriminate H); try reflexivity.
  intros _. now exists s.
Qed.

Lemma is_finite_spec (f : float) :
  is_finite (Float f) = true <-> sf_finite (Prim2SF f).
Proof.
  unfold is_finite, is_nan, is_infinity.
  rewrite andb_true_iff, !negb_true_iff, not_nan_spec.
  split.
  - intros [Hn Hi].
    destruct (Prim2SF f) as [s|s| |s m e] eqn:E; try exact I.
    + assert (PrimFloat.is_infinity f = true) by (apply is_infinity_spec; eauto).
      congruence.
    + congruence.
  - intros H. split.
    + intros E. rewrite E in H. exact H.
    + destruct (PrimFloat.is_infinity f) eqn:Ei; [|reflexivity].
      apply is_infinity_spec in Ei. destruct Ei as [s E]. rewrite E in H. contradiction.
Qed.

Lemma cmp_zero_float (f : float) :
  cmp_int_float 0 f =
  match Prim2SF f with
  | S754_nan => None
  | S754_zero _ => Some Eq
  | S754_infinity s | S754_finite s _ _ => Some (if s then Gt else Lt)
  end.
Proof.
  unfold cmp_int_float. destruct (Prim2SF f) as [s|s| |s m e]; try reflexivity.
  f_equal. destruct (Z.leb_spec 0 e) as [He|He].
  - pose proof (pow2_pos e He) as Hp.
    destruct s; cbn [cond_Zopp].
    + apply Z.compare_gt_iff. nia.
    + apply Z.compare_lt_iff. nia.
  - destruct s; reflexivity.
Qed.

Lemma NonNeg_Float (f : float) : NonNeg (Float f) <-> sf_nonneg (Prim2SF f).
Proof.
  unfold NonNeg, geb, leb. rewrite cmp_zero_float.
  destruct (Prim2SF f) as [s|[]| |[] m e]; simpl; split;
    try discriminate; try contradiction; try reflexivity; try (intros _; exact I).
Qed.

Lemma gtb_zero_Float (f : float) :
  gtb (Float f) (Int 0) = true <-> sf_pos (Prim2SF f).
Proof.
  unfold gtb, ltb. rewrite cmp_zero_float.
  destruct (Prim2SF f) as [s|[]| |[] m e]; simpl; split;
    try discriminate; try contradiction; try reflexivity; try (intros _; exact I).
Qed.

Lemma to_float_nonneg (a : num) (x : float) :
  NonNeg a -> to_float a = Some x -> sf_nonneg (Prim2SF x).
Proof.
  destruct a as [z|f]; simpl.
  - intros Hz H. apply NonNeg_Int in Hz. now apply (float_of_int_nonneg z x Hz).
  - intros Hf [= <-]. now apply NonNeg_Float.
Qed.

Lemma to_float_finite (a : num) (x : float) :
  is_finite a = true -> to_float a = Some x -> sf_finite (Prim2SF x).
Proof.
  destruct a as [z|f]; simpl.
  - intros _ H. now apply (float_of_int_spec z x).
  - intros Hf [= <-]. now apply is_finite_spec.
Qed.

(** ** Arithmetic that stays above zero *)

Lemma arith_float (opz : Z -> Z -> Z) (opf : float -> float -> float)
    (a b c : num) :
  is_float a || is_float b = true ->
  arith opz opf a b = Some c ->
  exists x y, to_float a = Some x /\ to_float b = Some y /\ c = Float (opf x y).
Proof.
  intros Hf. unfold arith.
  destruct a as [za|fa], b as [zb|fb]; try discriminate Hf;
    destruct (to_float _) as [x|]; try discriminate;
    destruct (to_float _) as [y|]; try discriminate;
    intros [= <-]; eauto.
Qed.

(** [a + b] of two numbers that are not below zero. *)
Lemma add_nonneg (a b c : num) :
  NonNeg a -> NonNeg b -> add a b = Some c -> NonNeg c.
Proof.
  intros Ha Hb H.
  destruct (is_float a || is_float b) eqn:Hf.
  - destruct (arith_float _ _ a b c Hf H) as (x & y & Ex & Ey & ->).
    apply NonNeg_Float. rewrite add_spec.
    apply SFadd_nonneg;
      [apply Prim2SF_valid|apply Prim2SF_valid
      |exact (to_float_nonneg a x Ha Ex)|exact (to_float_nonneg b y Hb Ey)].
  - destruct a as [x|x], b as [y|y]; try discriminate Hf.
    injection H as <-. apply NonNeg_Int. apply NonNeg_Int in Ha, Hb. lia.
Qed.

(** ** The conversion is monotone *)

Lemma float_of_int_round (p : positive) (g : float) :
  float_of_int (Zpos p) = Some g ->
  exists m' e',
    Prim2SF g = S754_finite false m' e' /\ bounded prec emax m' e' = true /\
    forall mf ef, bounded prec emax mf ef = true ->
      (sval mf ef <= Zpos p * 2 ^ 1074 -> sval mf ef <= sval m' e') /\
      (Zpos p * 2 ^ 1074 <= sval mf ef -> sval m' e' <= sval mf ef).
Proof.
  intros H. apply float_of_int_spec in H. destruct H as [E F].
  simpl binary_normalize in E.
  destruct (binary_round_spec false p 0 ltac:(lia))
    as [Hinf|(m' & e' & e1 & q & Hr & Hb & He1 & Hq & HX & HV & Hex)].
  - rewrite E, Hinf in F. contradiction.
  - exists m', e'. split; [congruence|]. split; [exact Hb|].
    intros mf ef Bf.
    change (Zpos p * 2 ^ 1074) with (sval p 0).
    now apply (round_monotone mf ef (sval p 0) (sval m' e') e1 q).
Qed.

(** A double that is not above an integer is not above the double the
    integer is converted to. *)
Lemma float_of_int_above (z : Z) (f g : float) :
  float_of_int z = Some g -> 0 <= z -> sf_nonneg (Prim2SF f) ->
  is_ge (cmp_int_float z f) = true ->
  SFleb (Prim2SF f) (Prim2SF g) = true.
Proof.
  intros Hg Hz Hf Hcmp.
  pose proof (Prim2SF_valid f) as Vf.
  destruct (Prim2SF f) as [s|[]| |[] mf ef] eqn:Ef; simpl in Hf; try contradiction.
  - destruct (float_of_int_nonneg z g Hz Hg) as (Hn & _).
    destruct (Prim2SF g) as [s'|[]| |[] m' e']; simpl in Hn; try contradiction;
      reflexivity.
  - unfold cmp_int_float in Hcmp. rewrite Ef in Hcmp. simpl in Hcmp. discriminate Hcmp.
  - pose proof (valid_finite_exponent _ _ _ Vf) as He.
    rewrite (cmp_int_float_finite z f mf ef Ef He) in Hcmp.
    assert (HS : sval mf ef <= z * 2 ^ 1074).
    { unfold is_ge in Hcmp.
      destruct (Z.compare_spec (z * 2 ^ 1074) (sval mf ef));
        [lia|discriminate Hcmp|lia]. }
    pose proof (sval_positive mf ef He) as Hpos.
    pose proof (pow2_pos 1074 ltac:(lia)) as Hp.
    destruct z as [|p|p]; [lia| |lia].
    destruct (float_of_int_round p g Hg) as (m' & e' & Eg & Bg & Hmono).
    rewrite Eg. unfold SFleb. rewrite SFcompare_pos_finite by assumption.
    destruct (Hmono mf ef Vf) as [H1 _]. specialize (H1 HS).
    destruct (Z.compare_spec (sval mf ef) (sval m' e')); [reflexivity|reflexivity|lia].
Qed.

(** The double an integer is converted to is not above a double that the
    integer is not above. *)
Lemma float_of_int_below (z : Z) (f g : float) :
  float_of_int z = Some g -> 0 <= z ->
  is_le (cmp_int_float z f) = true ->
  SFleb (Prim2SF g) (Prim2SF f) = true.
Proof.
  intros Hg Hz Hcmp.
  pose proof (Prim2SF_valid f) as Vf.
  destruct (float_of_int_nonneg z g Hz Hg) as (Hn & Hfin & Hpos).
  destruct (Prim2SF f) as [s|s| |s mf ef] eqn:Ef.
  - unfold cmp_int_float in Hcmp. rewrite Ef in Hcmp. unfold is_le in Hcmp.
    assert (z = 0) as -> by (destruct (Z.compare_spec z 0); [lia|lia|discriminate Hcmp]).
    apply float_of_int_spec in Hg. destruct Hg as [-> _]. reflexivity.
  - unfold cmp_int_float in Hcmp. rewrite Ef in Hcmp.
    destruct s; [simpl in Hcmp; discriminate Hcmp|].
    destruct (Prim2SF g) as [s'|[]| |[] m' e']; simpl in Hn, Hfin; try contradiction;
      reflexivity.
  - unfold cmp_int_float in Hcmp. rewrite Ef in Hcmp. simpl in Hcmp. discriminate Hcmp.
  - pose proof (valid_finite_exponent _ _ _ Vf) as He.
    destruct s.
    + (* a double below zero is below the integer *)
      exfalso. unfold cmp_int_float in Hcmp. rewrite Ef in Hcmp.
      cbv zeta in Hcmp. unfold is_le in Hcmp.
      destruct (Z.leb_spec 0 ef) as [H0|H0].
      * pose proof (pow2_pos ef H0).
        destruct (Z.compare_spec z (cond_Zopp true (Zpos mf) * 2 ^ ef)) as [H1|H1|H1];
          [| |discriminate Hcmp]; simpl cond_Zopp in H1; nia.
      * pose proof (pow2_pos (- ef) ltac:(lia)).
        destruct (Z.compare_spec (z * 2 ^ (- ef)) (cond_Zopp true (Zpos mf)))
          as [H1|H1|H1];
          [| |discriminate Hcmp]; simpl cond_Zopp in H1; nia.
    + rewrite (cmp_int_float_finite z f mf ef Ef He) in Hcmp.
      assert (HS : z * 2 ^ 1074 <= sval mf ef).
      { unfold is_le in Hcmp.
        destruct (Z.compare_spec (z * 2 ^ 1074) (sval mf ef));
          [lia|lia|discriminate Hcmp]. }
      destruct z as [|p|p]; [| |lia].
      * apply float_of_int_spec in Hg. destruct Hg as [-> _]. reflexivity.
      * destruct (float_of_int_round p g Hg) as (m' & e' & Eg & Bg & Hmono).
        rewrite Eg. unfold SFleb. rewrite SFcompare_pos_finite by assumption.
        destruct (Hmono mf ef Vf) as [_ H2]. specialize (H2 HS).
        destruct (Z.compare_spec (sval m' e') (sval mf ef)); [reflexivity|reflexivity|lia].
Qed.

Lemma to_float_leb (a b : num) (x y : float) :
  is_float a || is_float b = true ->
  NonNeg a -> NonNeg b -> leb a b = true ->
  to_float a = Some x -> to_float b = Some y ->
  SFleb (Prim2SF x) (Prim2SF y) = true.
Proof.
  intros Hf Ha Hb Hle Ex Ey.
  destruct a as [za|fa], b as [zb|fb]; try discriminate Hf; simpl in Ex, Ey, Hle.
  - injection Ey as <-. apply NonNeg_Int in Ha.
    now apply (float_of_int_below za fb x).
  - injection Ex as <-. apply NonNeg_Int in Hb. apply NonNeg_Float in Ha.
    now apply (float_of_int_above zb fa y).
  - injection Ex as <-. injection Ey as <-. now rewrite <- leb_spec.
Qed.

(** [b - a] for [0 <= a <= b] with [b] finite. *)
Lemma sub_nonneg (a b c : num) :
  NonNeg a -> NonNeg b -> leb a b = true -> is_finite b = true ->
  sub b a = Some c -> NonNeg c.
Proof.
  intros Ha Hb Hle Hfin H.
  destruct (is_float b || is_float a) eqn:Hf.
  - destruct (arith_float _ _ b a c Hf H) as (y & x & Ey & Ex & ->).
    apply NonNeg_Float. rewrite sub_spec.
    apply SFsub_nonneg; try apply Prim2SF_valid.
    + exact (to_float_nonneg a x Ha Ex).
    + apply (to_float_leb a b x y); auto. now rewrite orb_comm.
    + exact (to_float_finite b y Hfin Ey).
  - destruct a as [x|x], b as [y|y]; try discriminate Hf.
    injection H as <-. apply NonNeg_Int. simpl in Hle. lia.
Qed.

(** [price * quantity] for a price and a quantity above zero. *)
Lemma mul_nonneg (price : float) (quantity : Z) (c : num) :
  gtb (Float price) (Int 0) = true -> 0 < quantity ->
  mul (Float price) (Int quantity) = Some c -> NonNeg c.
Proof.
  intros Hp Hq H.
  destruct (arith_float _ _ (Float price) (Int quantity) c eq_refl H)
    as (x & y & Ex & Ey & ->).
  injection Ex as <-. simpl in Ey.
  destruct (float_of_int_nonneg quantity y ltac:(lia) Ey) as (_ & Hfin & Hpos).
  apply NonNeg_Float. rewrite mul_spec.
  apply SFmul_nonneg; [now apply gtb_zero_Float|now apply Hpos|exact Hfin].
Qed.

Lemma NonNeg_not_nan (a : num) : NonNeg a -> is_nan a = false.
Proof.
  destruct a as [z|f]; [reflexivity|]. intros H. apply NonNeg_Float in H.
  simpl. apply not_nan_spec. intros E. rewrite E in H. exact H.
Qed.

(** A number above zero is not below zero. *)
Lemma gtb_zero_NonNeg (a : num) : gtb a (Int 0) = true -> NonNeg a.
Proof.
  destruct a as [z|f].
  - unfold gtb, ltb. intros H. apply NonNeg_Int. lia.
  - intros H. apply NonNeg_Float. apply sf_pos_nonneg. now apply gtb_zero_Float.
Qed.

Lemma SFcompare_defined (x y : spec_float) :
  x <> S754_nan -> y <> S754_nan -> exists c, SFcompare x y = Some c.
Proof.
  destruct x as [sx|sx| |sx mx ex], y as [sy|sy| |sy my ey]; simpl; intros Hx Hy;
    try contradiction; eauto.
Qed.

(** Numbers that are not NaNs are totally ordered: not [a > b] is [a <= b]. *)
Lemma not_gtb_leb (a b : num) :
  is_nan a = false -> is_nan b = false -> gtb a b = false -> leb a b = true.
Proof.
  unfold gtb. destruct a as [x|x], b as [y|y]; simpl; intros Ha Hb H.
  - lia.
  - destruct (cmp_int_float_defined x y Hb) as [c E]. rewrite E in *.
    now destruct c.
  - destruct (cmp_int_float_defined y x Ha) as [c E]. rewrite E in *.
    now destruct c.
  - rewrite ltb_spec in H. rewrite leb_spec. unfold SFltb in H. unfold SFleb.
    apply not_nan_spec in Ha, Hb.
    rewrite (SFcompare_antisym (Prim2SF y) (Prim2SF x)).
    destruct (SFcompare_defined _ _ Hb Ha) as [c E]. rewrite E in *.
    now destruct c.
Qed.

(** ** Adding zero *)

Lemma SFadd_not_neg_zero (x y : spec_float) :
  valid_binary x = true -> valid_binary y = true ->
  x <> S754_zero true -> SF64add x y <> S754_zero true.
Proof.
  intros Vx Vy Hx.
  destruct x as [sx|sx| |sx mx ex], y as [sy|sy| |sy my ey]; simpl;
    try discriminate; try (destruct sx, sy; discriminate).
  - destruct sx, sy; try discriminate. contradiction.
  - apply valid_finite_exponent in Vx. apply valid_finite_exponent in Vy.
    set (z := cond_Zopp sx (Zpos (fst (shl_align mx ex (Z.min ex ey)))) +
              cond_Zopp sy (Zpos (fst (shl_align my ey (Z.min ex ey))))).
    destruct z as [|p|p]; simpl binary_normalize; [discriminate| |].
    + destruct (binary_round_spec false p (Z.min ex ey) ltac:(lia))
        as [->|(m' & e' & e1 & q & -> & _)]; discriminate.
    + destruct (binary_round_spec true p (Z.min ex ey) ltac:(lia))
        as [->|(m' & e' & e1 & q & -> & _)]; discriminate.
Qed.

Lemma add_not_neg_zero (x y : float) :
  Prim2SF x <> S754_zero true -> Prim2SF (x + y) <> S754_zero true.
Proof.
  intros H. rewrite add_spec. apply SFadd_not_neg_zero; auto using Prim2SF_valid.
Qed.

(** [x + 0.0] is [x], except for [-0.0]. *)
Lemma add_zero_r (x : float) : Prim2SF x <> S754_zero true -> (x + 0)%float = x.
Proof.
  intros H. apply Prim2SF_inj. rewrite add_spec.
  change (Prim2SF 0) with (S754_zero false).
  destruct (Prim2SF x) as [[]|s| |s m e]; try reflexivity. contradiction.
Qed.

(** ** Integers that fit a double have few digits *)

(** The greatest value of a double, scaled as [sval]. *)
Lemma sval_le_max (m : positive) (e : Z) :
  bounded prec emax m e = true -> sval m e <= (2 ^ 53 - 1) * 2 ^ 2045.
Proof.
  intros B. apply bounded_facts in B. destruct B as (He & Hm & _).
  unfold sval.
  assert (Hp : 0 < 2 ^ (e + 1074)) by (apply pow2_pos; lia).
  assert (Hle : 2 ^ (e + 1074) <= 2 ^ 2045) by (apply pow2_le; lia).
  nia.
Qed.

Lemma binary_round_small (sx : bool) (p : positive) :
  binary_round prec emax sx p 0 <> S754_infinity sx -> Zpos p < 2 ^ 1025.
Proof.
  intros Hfin.
  destruct (binary_round_spec sx p 0 ltac:(lia))
    as [Hinf|(m' & e' & e1 & q & _ & Hb & He1 & Hq & HX & HV & Hex)];
    [contradiction|].
  pose proof (sval_le_max m' e' Hb) as Hmax.
  pose proof (pow2_pos (e1 + 1074) ltac:(lia)) as HU.
  set (U := 2 ^ (e1 + 1074)) in *. set (V := sval m' e') in *.
  assert (HXV : sval p 0 <= 2 * V).
  { destruct HV as [HV|[HV _]]; [|lia].
    destruct Hex as [Hex|Hex]; [lia|].
    assert (U <= V) by (rewrite HV; change (2 ^ 52) with 4503599627370496 in Hex; nia).
    lia. }
  assert (Hlt : sval p 0 < 2 ^ 1025 * 2 ^ 1074).
  { apply Z.le_lt_trans with (2 * ((2 ^ 53 - 1) * 2 ^ 2045)); [lia|].
    replace (2 ^ 1025 * 2 ^ 1074) with (2 * (2 ^ 53 * 2 ^ 2045)).
    - assert (0 < 2 ^ 2045) by (apply pow2_pos; lia). lia.
    - rewrite <- !pow2_split by lia. rewrite <- pow2_succ by lia. reflexivity. }
  unfold sval in Hlt. change (0 + 1074) with 1074 in Hlt.
  assert (0 < 2 ^ 1074) by (apply pow2_pos; lia).
  apply Z.mul_lt_mono_pos_r with (2 ^ 1074); assumption.
Qed.

Lemma float_of_int_small (z : Z) (g : float) :
  float_of_int z = Some g -> Z.abs z < 2 ^ 1025.
Proof.
  unfold float_of_int. intros H.
  destruct z as [|p|p].
  - apply pow2_pos. lia.
  - simpl binary_normalize in H. apply (binary_round_small false p).
    intros E. rewrite E in H. discriminate H.
  - simpl binary_normalize in H. apply (binary_round_small true p).
    intros E. rewrite E in H. discriminate H.
Qed.

(** Such an integer is within the limit of [str]. *)
Lemma float_of_int_str (z : Z) (g : float) :
  float_of_int z = Some g -> str_of_int z = Some (PyStr.decimal z).
Proof.
  intros H. apply float_of_int_small in H. unfold str_of_int, PyStr.str_of_int.
  destruct (Z.ltb_spec (Z.abs z) (10 ^ PyStr.int_max_str_digits)); [reflexivity|].
  assert (Hpow : 2 ^ 1025 < 10 ^ PyStr.int_max_str_digits) by (vm_compute; reflexivity).
  lia.
Qed.

(** * Lemmas *)

(** ** Strings and dictionaries *)

Lemma upper_ascii_idem (c : ascii) : upper_ascii (upper_ascii c) = upper_ascii c.
Proof.
  destruct c as [[] [] [] [] [] [] [] []]; vm_compute; reflexivity.
Qed.

Lemma upper_idem (s : string) : upper (upper s) = upper s.
Proof.
  induction s as [|c s IH]; simpl; [reflexivity|].
  now rewrite upper_ascii_idem, IH.
Qed.

Section DictFacts.
Context {V : Type}.
Implicit Types (d : PyDict.dict V) (k : string) (v : V).

Lemma get_In d k v : PyDict.get k d = Some v -> In (k, v) d.
Proof.
  induction d as [|[k' v'] d IH]; simpl; [discriminate|].
  destruct (String.eqb_spec k k') as [->|Hne].
  - intros [= ->]. now left.
  - intros H. right. auto.
Qed.

Lemma get_None_keys d k : PyDict.get k d = None <-> ~ In k (PyDict.keys d).
Proof.
  induction d as [|[k' v'] d IH]; simpl.
  - tauto.
  - destruct (String.eqb_spec k k') as [->|Hne].
    + split; [discriminate|]. intros H. exfalso. apply H. now left.
    + rewrite IH. split.
      * intros H [E|HI]; [congruence|tauto].
      * intros H HI. apply H. now right.
Qed.

Lemma In_keys d k v : In (k, v) d -> In k (PyDict.keys d).
Proof. intros H. apply (in_map fst) in H. exact H. Qed.

Lemma keys_set d k v :
  PyDict.keys (PyDict.set k v d) =
  match PyDict.get k d with
  | Some _ => PyDict.keys d
  | None => (PyDict.keys d ++ [k])%list
  end.
Proof.
  induction d as [|[k' v'] d IH]; simpl; [reflexivity|].
  destruct (String.eqb_spec k k') as [->|Hne]; simpl; [reflexivity|].
  rewrite IH. now destruct (PyDict.get k d).
Qed.

Lemma NoDup_set d k v : NoDup (PyDict.keys d) -> NoDup (PyDict.keys (PyDict.set k v d)).
Proof.
  intros Hnd. rewrite keys_set.
  destruct (PyDict.get k d) eqn:E; [exact Hnd|].
  apply get_None_keys in E.
  apply NoDup_app; [exact Hnd| repeat constructor; simpl; tauto |].
  intros x Hx [<-|[]]. contradiction.
Qed.

Lemma In_set d k v k1 v1 :
  In (k1, v1) (PyDict.set k v d) -> (k1 = k /\ v1 = v) \/ In (k1, v1) d.
Proof.
  induction d as [|[k' v'] d IH]; simpl.
  - intros [[= <- <-]|[]]. now left.
  - destruct (String.eqb_spec k k') as [->|Hne]; simpl.
    + intros [[= <- <-]|HI]; [now left|right; now right].
    + intros [E|HI]; [right; now left|].
      destruct (IH HI) as [?|?]; [now left|right; now right].
Qed.

Lemma get_set_same d k v : PyDict.get k (PyDict.set k v d) = Some v.
Proof.
  induction d as [|[k' v'] d IH]; simpl.
  - now rewrite String.eqb_refl.
  - destruct (String.eqb_spec k k') as [->|Hne]; simpl.
    + now rewrite String.eqb_refl.
    + destruct (String.eqb_spec k k'); [contradiction|exact IH].
Qed.

Lemma keys_del_incl d k x : In x (PyDict.keys (PyDict.del k d)) -> In x (PyDict.keys d).
Proof.
  induction d as [|[k' v'] d IH]; simpl; [tauto|].
  destruct (String.eqb_spec k k') as [->|Hne]; simpl; [now right|].
  intros [E|HI]; [now left|right; auto].
Qed.

Lemma NoDup_del d k : NoDup (PyDict.keys d) -> NoDup (PyDict.keys (PyDict.del k d)).
Proof.
  induction d as [|[k' v'] d IH]; simpl; [trivial|].
  intros Hnd. inversion Hnd as [|? ? Hni Hnd']; subst.
  destruct (String.eqb_spec k k') as [->|Hne]; simpl; [exact Hnd'|].
  constructor; [|auto]. intros HI. apply Hni. eapply keys_del_incl; eauto.
Qed.

Lemma get_del_same d k : NoDup (PyDict.keys d) -> PyDict.get k (PyDict.del k d) = None.
Proof.
  induction d as [|[k' v'] d IH]; simpl; [reflexivity|].
  intros Hnd. inversion Hnd as [|? ? Hni Hnd']; subst.
  destruct (String.eqb_spec k k') as [->|Hne]; simpl.
  - now apply get_None_keys.
  - destruct (String.eqb_spec k k'); [contradiction|auto].
Qed.

(** Writing back the value a key already has changes nothing. *)
Lemma set_same d k v : PyDict.get k d = Some v -> PyDict.set k v d = d.
Proof.
  induction d as [|[k' v'] d IH]; simpl; [discriminate|].
  destruct (String.eqb_spec k k') as [->|Hne].
  - now intros [= ->].
  - intros H. now rewrite IH.
Qed.

Lemma set_set d k v w : PyDict.set k w (PyDict.set k v d) = PyDict.set k w d.
Proof.
  induction d as [|[k' v'] d IH]; simpl.
  - now rewrite String.eqb_refl.
  - destruct (String.eqb_spec k k') as [->|Hne]; simpl.
    + now rewrite String.eqb_refl.
    + destruct (String.eqb_spec k k'); [contradiction|]. now rewrite IH.
Qed.

(** A key inserted at the end and deleted again leaves the dictionary as it
    was. *)
Lemma del_set_absent d k v : PyDict.get k d = None -> PyDict.del k (PyDict.set k v d) = d.
Proof.
  induction d as [|[k' v'] d IH]; simpl.
  - now rewrite String.eqb_refl.
  - destruct (String.eqb_spec k k') as [->|Hne]; [discriminate|]. simpl.
    destruct (String.eqb_spec k k'); [contradiction|].
    intros H. now rewrite IH.
Qed.

End DictFacts.

(** ** The methods, call by call *)

Ltac unfold_M :=
  unfold arith_or_raise, format_2f, format_int, _record_transaction,
    append_transaction, set_cash_balance, set_total_deposits, set_holdings,
    get_self, call in *;
  unfold bind, ret, raise in *.

Ltac reduce_M :=
  cbn beta iota delta [with_cash_balance with_total_deposits with_holdings
    with_transactions _cash_balance _total_deposits _holdings _transactions
    _account_id _user_name].

Lemma deposit_eq (amount : num) (now : string) (self : Account) :
  deposit (PyNum amount) now self =
  if leb amount (Int 0) then
    (Raise (ValueError "Deposit amount must be a positive number."), self)
  else
    match add (_cash_balance self) amount with
    | None => (Raise OverflowError, self)
    | Some cash =>
        match add (_total_deposits self) amount with
        | None => (Raise OverflowError, with_cash_balance cash self)
        | Some total =>
            (Return tt,
             with_transactions
               (_transactions self
                ++ [make_transaction now DEPOSIT None None None amount])%list
               (with_total_deposits total (with_cash_balance cash self)))
        end
    end.
Proof.
  unfold deposit. destruct (leb amount (Int 0)); [reflexivity|].
  unfold_M. reduce_M.
  destruct (add (_cash_balance self) amount); [|reflexivity]. reduce_M.
  destruct (add (_total_deposits self) amount); reflexivity.
Qed.

Lemma withdraw_eq (amount : num) (now : string) (self : Account) :
  withdraw (PyNum amount) now self =
  if leb amount (Int 0) then
    (Raise (ValueError "Withdrawal amount must be a positive number."), self)
  else if gtb amount (_cash_balance self) then
    match to_float amount, to_float (_cash_balance self) with
    | Some requested, Some balance =>
        (Raise (InsufficientFundsError "Cannot withdraw " requested balance), self)
    | _, _ => (Raise OverflowError, self)
    end
  else
    match sub (_cash_balance self) amount with
    | None => (Raise OverflowError, self)
    | Some cash =>
        (Return tt,
         with_transactions
           (_transactions self
            ++ [make_transaction now WITHDRAW None None None amount])%list
           (with_cash_balance cash self))
    end.
Proof.
  unfold withdraw. destruct (leb amount (Int 0)); [reflexivity|].
  unfold_M. reduce_M.
  destruct (gtb amount (_cash_balance self)).
  - destruct (to_float amount); [|reflexivity]. reduce_M.
    destruct (to_float (_cash_balance self)); reflexivity.
  - destruct (sub (_cash_balance self) amount); reflexivity.
Qed.

(** A quantity whose product with the price exists fits a double, and is
    within the limit of [str]. *)
Lemma mul_price_str price quantity total :
  mul (Float price) (Int quantity) = Some total ->
  str_of_int quantity = Some (decimal quantity).
Proof.
  unfold mul, arith. cbn [to_float].
  destruct (float_of_int quantity) as [q|] eqn:E; [|discriminate].
  intros _. exact (float_of_int_str quantity q E).
Qed.

Lemma buy_shares_eq prices (symbol : string) (quantity : Z) (now : string)
    (self : Account) :
  buy_shares prices symbol (PyNum (Int quantity)) now self =
  if quantity <=? 0 then
    (Raise (ValueError "Quantity to buy must be a positive integer."), self)
  else
    match get_share_price prices symbol with
    | Raise e => (Raise e, self)
    | Return price =>
        match mul (Float price) (Int quantity) with
        | None => (Raise OverflowError, self)
        | Some total_cost =>
            if gtb total_cost (_cash_balance self) then
              match to_float total_cost, to_float (_cash_balance self) with
              | Some requested, Some balance =>
                  (Raise (InsufficientFundsError
                            ("Cannot buy " ++ decimal quantity ++ " of "
                             ++ upper symbol ++ " for ") requested balance), self)
              | _, _ => (Raise OverflowError, self)
              end
            else
              match sub (_cash_balance self) total_cost with
              | None => (Raise OverflowError, self)
              | Some cash =>
                  (Return tt,
                   with_transactions
                     (_transactions self
                      ++ [make_transaction now BUY (Some symbol) (Some quantity)
                            (Some price) total_cost])%list
                     (with_holdings
                        (PyDict.set (upper symbol)
                           (shares_owned symbol self + quantity) (_holdings self))
                        (with_cash_balance cash self)))
              end
        end
    end.
Proof.
  unfold buy_shares, shares_owned. destruct (quantity <=? 0); [reflexivity|].
  unfold_M. reduce_M.
  destruct (get_share_price prices symbol); [|reflexivity]. reduce_M.
  destruct (mul (Float a) (Int quantity)) as [total_cost|] eqn:Hm; [|reflexivity].
  reduce_M.
  destruct (gtb total_cost (_cash_balance self)).
  - rewrite (mul_price_str _ _ _ Hm). reduce_M.
    destruct (to_float total_cost); [|reflexivity]. reduce_M.
    destruct (to_float (_cash_balance self)); reflexivity.
  - destruct (sub (_cash_balance self) total_cost); reflexivity.
Qed.

(** [str] gives the decimal digits, or nothing. *)
Lemma str_of_int_cases z :
  str_of_int z = Some (decimal z) \/ str_of_int z = None.
Proof. unfold str_of_int. destruct (_ <? _); auto. Qed.



Lemma str_of_int_zero : str_of_int 0 = Some (decimal 0).
Proof. vm_compute. reflexivity. Qed.

Lemma sell_shares_eq prices (symbol : string) (quantity : Z) (now : string)
    (self : Account) :
  sell_shares prices symbol (PyNum (Int quantity)) now self =
  if quantity <=? 0 then
    (Raise (ValueError "Quantity to sell must be a positive integer."), self)
  else if quantity >? shares_owned symbol self then
    (Raise (insufficient_shares_error quantity (upper symbol)
              (shares_owned symbol self)), self)
  else
    match get_share_price prices symbol with
    | Raise e => (Raise e, self)
    | Return price =>
        match mul (Float price) (Int quantity) with
        | None => (Raise OverflowError, self)
        | Some total_value =>
            match add (_cash_balance self) total_value with
            | None => (Raise OverflowError, self)
            | Some cash =>
                let remaining := shares_owned symbol self - quantity in
                let holdings := PyDict.set (upper symbol) remaining (_holdings self) in
                (Return tt,
                 with_transactions
                   (_transactions self
                    ++ [make_transaction now SELL (Some symbol) (Some quantity)
                          (Some price) total_value])%list
                   (with_holdings
                      (if remaining =? 0 then PyDict.del (upper symbol) holdings
                       else holdings)
                      (with_cash_balance cash self)))
            end
        end
    end.
Proof.
  unfold sell_shares, shares_owned, insufficient_shares_error,
    insufficient_shares_message.
  destruct (Z.leb_spec quantity 0) as [|Hq]; [reflexivity|].
  unfold_M. reduce_M.
  destruct (PyDict.get (upper symbol) (_holdings self)) as [owned|] eqn:Hget.
  2:{ destruct (Z.gtb_spec quantity 0); [|lia]. rewrite str_of_int_zero.
      destruct (str_of_int_cases quantity) as [E|E]; rewrite E; reflexivity. }
  destruct (quantity >? owned).
  { destruct (str_of_int_cases quantity) as [E|E]; rewrite E; [|reflexivity].
    reduce_M.
    destruct (str_of_int_cases owned) as [E'|E']; rewrite E'; reflexivity. }
  destruct (get_share_price prices symbol); [|reflexivity]. reduce_M.
  destruct (mul (Float a) (Int quantity)) as [total_value|]; [|reflexivity]. reduce_M.
  destruct (add (_cash_balance self) total_value); [|reflexivity]. reduce_M.
  rewrite Hget. reduce_M. rewrite get_set_same.
  destruct (owned - quantity =? 0); reflexivity.
Qed.

Lemma In_del_ne {V : Type} (d : PyDict.dict V) k k1 v1 :
  NoDup (PyDict.keys d) -> In (k1, v1) (PyDict.del k d) -> k1 <> k /\ In (k1, v1) d.
Proof.
  induction d as [|[k' v'] d IH]; simpl; [tauto|].
  intros Hnd. inversion Hnd as [|? ? Hni Hnd']; subst.
  destruct (String.eqb_spec k k') as [->|Hne]; simpl.
  - intros HI. split; [|now right]. intros ->. apply Hni. eapply In_keys; eauto.
  - intros [[= <- <-]|HI]; [split; [congruence|now left]|].
    destruct (IH Hnd' HI). split; [assumption|now right].
Qed.

(** ** What a call does to the account *)

(** A call returns after appending one transaction, or raises and leaves the
    account alone; the one exception is [deposit] raising between its two
    additions. *)
Lemma run_op_all_or_nothing prices o now self r self' :
  run_op prices o now self = (r, self') ->
  match r with
  | Return _ => exists t, _transactions self' = (_transactions self ++ [t])%list
  | Raise e => self' = self \/ (e = OverflowError /\ deposit_half_done o self self')
  end.
Proof.
  destruct o as [[amount|s]|[amount|s]|symbol [[quantity|f]|s]|symbol [[quantity|f]|s]];
    unfold run_op;
    try (unfold deposit, withdraw, buy_shares, sell_shares, raise;
         intros [= <- <-]; now left).
  - rewrite deposit_eq.
    destruct (leb amount (Int 0)); [intros [= <- <-]; now left|].
    destruct (add (_cash_balance self) amount) as [cash|] eqn:Hc;
      [|intros [= <- <-]; now left].
    destruct (add (_total_deposits self) amount) as [total|] eqn:Ht;
      intros [= <- <-].
    + eexists. reflexivity.
    + right. split; [reflexivity|]. exists amount, cash. auto.
  - rewrite withdraw_eq.
    destruct (leb amount (Int 0)); [intros [= <- <-]; now left|].
    destruct (gtb amount (_cash_balance self)).
    + destruct (to_float amount), (to_float (_cash_balance self));
        intros [= <- <-]; now left.
    + destruct (sub (_cash_balance self) amount); intros [= <- <-];
        [eexists; reflexivity|now left].
  - rewrite buy_shares_eq.
    destruct (quantity <=? 0); [intros [= <- <-]; now left|].
    destruct (get_share_price prices symbol) as [price|e];
      [|intros [= <- <-]; now left].
    destruct (mul (Float price) (Int quantity)) as [total_cost|];
      [|intros [= <- <-]; now left].
    destruct (gtb total_cost (_cash_balance self)).
    + destruct (to_float total_cost), (to_float (_cash_balance self));
        intros [= <- <-]; now left.
    + destruct (sub (_cash_balance self) total_cost); intros [= <- <-];
        [eexists; reflexivity|now left].
  - rewrite sell_shares_eq.
    destruct (quantity <=? 0); [intros [= <- <-]; now left|].
    destruct (quantity >? shares_owned symbol self); [intros [= <- <-]; now left|].
    destruct (get_share_price prices symbol) as [price|e];
      [|intros [= <- <-]; now left].
    destruct (mul (Float price) (Int quantity)) as [total_value|];
      [|intros [= <- <-]; now left].
    destruct (add (_cash_balance self) total_value); intros [= <- <-];
      [eexists; reflexivity|now left].
Qed.

Lemma run_calls_reachable prices calls self :
  reachable self -> reachable (run_calls prices calls self).
Proof.
  revert self. induction calls as [|[o now] calls IH]; intros self H; simpl.
  - exact H.
  - apply IH. eapply reachable_step; [exact H|]. apply surjective_pairing.
Qed.

Lemma open_account_reachable account_id user_name initial_deposit now prices calls self :
  open_account account_id user_name initial_deposit now prices calls = Some self ->
  reachable self.
Proof.
  unfold open_account.
  destruct (__init__ account_id user_name initial_deposit now) as [s0|e] eqn:Hi;
    [|discriminate].
  intros [= <-]. apply run_calls_reachable. eapply reachable_init; eauto.
Qed.

Lemma init_eq account_id user_name initial_deposit now :
  __init__ account_id user_name initial_deposit now =
  if ltb initial_deposit (Int 0) then
    Raise (ValueError "Initial deposit cannot be negative.")
  else
    Return {| _account_id := account_id; _user_name := user_name;
              _cash_balance := initial_deposit;
              _total_deposits := initial_deposit;
              _holdings := [];
              _transactions :=
                if gtb initial_deposit (Int 0)
                then [make_transaction now DEPOSIT None None None initial_deposit]
                else [] |}.
Proof.
  unfold __init__. destruct (ltb initial_deposit (Int 0)); [reflexivity|].
  destruct (gtb initial_deposit (Int 0)); reflexivity.
Qed.

(** ** The holdings *)

Lemma shares_owned_nonneg symbol self :
  holdings_wf (_holdings self) -> 0 <= shares_owned symbol self.
Proof.
  intros [_ Hv]. unfold shares_owned.
  destruct (PyDict.get (upper symbol) (_holdings self)) as [owned|] eqn:E; [|lia].
  apply get_In in E. apply Hv in E. lia.
Qed.

Lemma holdings_wf_set h k v :
  holdings_wf h -> upper k = k -> 0 < v -> holdings_wf (PyDict.set k v h).
Proof.
  intros [Hnd Hv] Hk Hpos. split.
  - now apply NoDup_set.
  - intros k1 v1 HI. apply In_set in HI. destruct HI as [[-> ->]|HI]; auto.
Qed.

Lemma holdings_wf_del_zero h k :
  holdings_wf h -> holdings_wf (PyDict.del k (PyDict.set k 0 h)).
Proof.
  intros [Hnd Hv]. split.
  - apply NoDup_del. now apply NoDup_set.
  - intros k1 v1 HI. apply In_del_ne in HI; [|now apply NoDup_set].
    destruct HI as [Hne HI]. apply In_set in HI.
    destruct HI as [[-> ->]|HI]; [contradiction|auto].
Qed.

Lemma run_op_holdings_wf prices o now self r self' :
  run_op prices o now self = (r, self') ->
  holdings_wf (_holdings self) -> holdings_wf (_holdings self').
Proof.
  intros Hrun Hwf.
  destruct o as [[amount|s]|[amount|s]|symbol [[quantity|f]|s]|symbol [[quantity|f]|s]];
    unfold run_op in Hrun;
    try (unfold deposit, withdraw, buy_shares, sell_shares, raise in Hrun;
         injection Hrun as <- <-; exact Hwf).
  - rewrite deposit_eq in Hrun.
    destruct (leb amount (Int 0)); [injection Hrun as <- <-; exact Hwf|].
    destruct (add (_cash_balance self) amount);
      [|injection Hrun as <- <-; exact Hwf].
    destruct (add (_total_deposits self) amount);
      injection Hrun as <- <-; exact Hwf.
  - rewrite withdraw_eq in Hrun.
    destruct (leb amount (Int 0)); [injection Hrun as <- <-; exact Hwf|].
    destruct (gtb amount (_cash_balance self)).
    + destruct (to_float amount), (to_float (_cash_balance self));
        injection Hrun as <- <-; exact Hwf.
    + destruct (sub (_cash_balance self) amount);
        injection Hrun as <- <-; exact Hwf.
  - rewrite buy_shares_eq in Hrun.
    destruct (Z.leb_spec quantity 0); [injection Hrun as <- <-; exact Hwf|].
    destruct (get_share_price prices symbol) as [price|e];
      [|injection Hrun as <- <-; exact Hwf].
    destruct (mul (Float price) (Int quantity)) as [total_cost|];
      [|injection Hrun as <- <-; exact Hwf].
    destruct (gtb total_cost (_cash_balance self)).
    + destruct (to_float total_cost), (to_float (_cash_balance self));
        injection Hrun as <- <-; exact Hwf.
    + destruct (sub (_cash_balance self) total_cost);
        injection Hrun as <- <-; [|exact Hwf].
      cbn [_holdings with_transactions with_holdings].
      apply holdings_wf_set; [exact Hwf|apply upper_idem|].
      pose proof (shares_owned_nonneg symbol self Hwf). lia.
  - rewrite sell_shares_eq in Hrun.
    destruct (Z.leb_spec quantity 0); [injection Hrun as <- <-; exact Hwf|].
    destruct (Z.gtb_spec quantity (shares_owned symbol self));
      [injection Hrun as <- <-; exact Hwf|].
    destruct (get_share_price prices symbol) as [price|e];
      [|injection Hrun as <- <-; exact Hwf].
    destruct (mul (Float price) (Int quantity)) as [total_value|];
      [|injection Hrun as <- <-; exact Hwf].
    destruct (add (_cash_balance self) total_value);
      injection Hrun as <- <-; [|exact Hwf].
    cbn [_holdings with_transactions with_holdings].
    destruct (Z.eqb_spec (shares_owned symbol self - quantity) 0) as [->|Hne].
    + now apply holdings_wf_del_zero.
    + apply holdings_wf_set; [exact Hwf|apply upper_idem|lia].
Qed.

Lemma reachable_holdings_wf self : reachable self -> holdings_wf (_holdings self).
Proof.
  induction 1 as [account_id user_name initial_deposit now self Hinit
                 |prices o now self r self' _ IH Hrun].
  - rewrite init_eq in Hinit.
    destruct (ltb initial_deposit (Int 0)); [discriminate|].
    injection Hinit as <-. split; [constructor|intros k v []].
  - eapply run_op_holdings_wf; eauto.
Qed.

(** ** The cash balance *)

Lemma positive_amount_NonNeg (amount : num) :
  is_nan amount = false -> leb amount (Int 0) = false -> NonNeg amount.
Proof.
  intros Hn Hle. apply gtb_zero_NonNeg.
  rewrite (leb_zero_not_gtb amount Hn) in Hle. now destruct (gtb amount (Int 0)).
Qed.

Lemma get_share_price_In prices symbol price :
  get_share_price prices symbol = Return price -> In (upper symbol, price) prices.
Proof.
  unfold get_share_price.
  destruct (PyDict.get (upper symbol) prices) as [p|] eqn:E; [|discriminate].
  intros [= <-]. now apply get_In.
Qed.

(** A call made at positive prices on a finite balance that is not below
    zero, with an amount that is not a NaN, leaves a balance that is not
    below zero. *)
Lemma run_op_cash_nonneg prices o now self r self' :
  positive_prices prices ->
  NonNeg (_cash_balance self) ->
  is_finite (_cash_balance self) = true ->
  op_amount_is_nan o = false ->
  run_op prices o now self = (r, self') ->
  NonNeg (_cash_balance self').
Proof.
  intros Hprices Hcash Hfin Hnan Hrun.
  destruct o as [[amount|s]|[amount|s]|symbol [[quantity|f]|s]|symbol [[quantity|f]|s]];
    unfold run_op in Hrun;
    try (unfold deposit, withdraw, buy_shares, sell_shares, raise in Hrun;
         injection Hrun as <- <-; exact Hcash).
  - rewrite deposit_eq in Hrun. simpl in Hnan.
    destruct (leb amount (Int 0)) eqn:Hle; [injection Hrun as <- <-; exact Hcash|].
    pose proof (positive_amount_NonNeg amount Hnan Hle) as Ha.
    destruct (add (_cash_balance self) amount) as [cash|] eqn:Hc;
      [|injection Hrun as <- <-; exact Hcash].
    pose proof (add_nonneg _ _ _ Hcash Ha Hc) as Hc'.
    destruct (add (_total_deposits self) amount);
      injection Hrun as <- <-; exact Hc'.
  - rewrite withdraw_eq in Hrun. simpl in Hnan.
    destruct (leb amount (Int 0)) eqn:Hle; [injection Hrun as <- <-; exact Hcash|].
    pose proof (positive_amount_NonNeg amount Hnan Hle) as Ha.
    destruct (gtb amount (_cash_balance self)) eqn:Hgt.
    + destruct (to_float amount), (to_float (_cash_balance self));
        injection Hrun as <- <-; exact Hcash.
    + destruct (sub (_cash_balance self) amount) as [cash|] eqn:Hc;
        injection Hrun as <- <-; [|exact Hcash].
      apply (sub_nonneg amount (_cash_balance self) cash); auto.
      apply not_gtb_leb; auto. now apply NonNeg_not_nan.
  - rewrite buy_shares_eq in Hrun.
    destruct (Z.leb_spec quantity 0); [injection Hrun as <- <-; exact Hcash|].
    destruct (get_share_price prices symbol) as [price|e] eqn:Hp;
      [|injection Hrun as <- <-; exact Hcash].
    apply get_share_price_In in Hp. apply Hprices in Hp.
    destruct (mul (Float price) (Int quantity)) as [total_cost|] eqn:Hm;
      [|injection Hrun as <- <-; exact Hcash].
    pose proof (mul_nonneg price quantity total_cost Hp ltac:(lia) Hm) as Hcost.
    destruct (gtb total_cost (_cash_balance self)) eqn:Hgt.
    + destruct (to_float total_cost), (to_float (_cash_balance self));
        injection Hrun as <- <-; exact Hcash.
    + destruct (sub (_cash_balance self) total_cost) as [cash|] eqn:Hc;
        injection Hrun as <- <-; [|exact Hcash].
      apply (sub_nonneg total_cost (_cash_balance self) cash); auto.
      apply not_gtb_leb; auto; now apply NonNeg_not_nan.
  - rewrite sell_shares_eq in Hrun.
    destruct (Z.leb_spec quantity 0); [injection Hrun as <- <-; exact Hcash|].
    destruct (quantity >? shares_owned symbol self);
      [injection Hrun as <- <-; exact Hcash|].
    destruct (get_share_price prices symbol) as [price|e] eqn:Hp;
      [|injection Hrun as <- <-; exact Hcash].
    apply get_share_price_In in Hp. apply Hprices in Hp.
    destruct (mul (Float price) (Int quantity)) as [total_value|] eqn:Hm;
      [|injection Hrun as <- <-; exact Hcash].
    pose proof (mul_nonneg price quantity total_value Hp ltac:(lia) Hm) as Hval.
    destruct (add (_cash_balance self) total_value) as [cash|] eqn:Hc;
      injection Hrun as <- <-; [|exact Hcash].
    exact (add_nonneg _ _ _ Hcash Hval Hc).
Qed.

(** ** The portfolio value *)

Lemma get_share_price_raises prices symbol e :
  get_share_price prices symbol = Raise e -> exists msg, e = UnknownSymbolError msg.
Proof.
  unfold get_share_price. destruct (PyDict.get (upper symbol) prices); [discriminate|].
  intros [= <-]. eauto.
Qed.

Lemma portfolio_step_eq prices total symbol quantity :
  portfolio_step prices total (symbol, quantity) =
  match get_share_price prices symbol with
  | Return price =>
      match float_of_int quantity with
      | Some q => Return (total + price * q)%float
      | None => Raise OverflowError
      end
  | Raise _ => Return total
  end.
Proof.
  unfold portfolio_step.
  destruct (get_share_price prices symbol) as [price|e] eqn:E; [reflexivity|].
  destruct (get_share_price_raises _ _ _ E) as [msg ->]. reflexivity.
Qed.

Lemma portfolio_loop_sum prices items total :
  quantities_fit_double items ->
  Prim2SF total <> S754_zero true ->
  portfolio_loop prices total items =
  Return (fold_left (fun t item => (t + holding_value prices item)%float) items total).
Proof.
  revert total. induction items as [|[symbol quantity] items IH]; intros total Hfit Hz.
  - reflexivity.
  - cbn [portfolio_loop fold_left]. rewrite portfolio_step_eq.
    assert (Hfit' : quantities_fit_double items).
    { intros s q HI. apply (Hfit s q). now right. }
    destruct (float_of_int quantity) as [q|] eqn:Eq;
      [|exfalso; apply (Hfit symbol quantity); [now left|exact Eq]].
    unfold holding_value. cbn [fst snd]. rewrite Eq.
    destruct (get_share_price prices symbol) as [price|e].
    + apply IH; [exact Hfit'|]. now apply add_not_neg_zero.
    + rewrite (add_zero_r total Hz). now apply IH.
Qed.

Lemma portfolio_loop_not_unknown prices items total :
  raises_UnknownSymbolError (portfolio_loop prices total items) = false.
Proof.
  revert total. induction items as [|[symbol quantity] items IH]; intros total.
  - reflexivity.
  - cbn [portfolio_loop]. rewrite portfolio_step_eq.
    destruct (get_share_price prices symbol) as [price|e]; [|apply IH].
    destruct (float_of_int quantity); [apply IH|reflexivity].
Qed.

(** ** Buying and selling back *)

Lemma mul_price_float price quantity c :
  mul (Float price) (Int quantity) = Some c -> exists k, c = Float k.
Proof.
  intros H.
  destruct (arith_float _ _ (Float price) (Int quantity) c eq_refl H)
    as (x & y & _ & _ & ->). eauto.
Qed.

Lemma sub_float_r a k c : sub a (Float k) = Some c -> exists c1, c = Float c1.
Proof.
  intros H.
  destruct (arith_float _ _ a (Float k) c (orb_true_r _) H) as (x & y & _ & _ & ->).
  eauto.
Qed.

(** The holdings after buying and selling back the same quantity. *)
Lemma holdings_round_trip (h : PyDict.dict Z) (k : string) (quantity : Z) :
  holdings_wf h -> 0 < quantity ->
  let owned := match PyDict.get k h with Some v => v | None => 0 end in
  let bought := PyDict.set k (owned + quantity) h in
  (if owned =? 0 then PyDict.del k (PyDict.set k owned bought)
   else PyDict.set k owned bought) = h.
Proof.
  intros [Hnd Hv] Hq owned bought. unfold bought. rewrite set_set.
  unfold owned. destruct (PyDict.get k h) as [v|] eqn:E.
  - pose proof (get_In _ _ _ E) as HI. apply Hv in HI.
    destruct (Z.eqb_spec v 0); [lia|]. now apply set_same.
  - simpl. now apply del_set_absent.
Qed.

Lemma total_value_eq prices self x :
  to_float (_cash_balance self) = Some x ->
  get_total_value prices self =
  match get_portfolio_value prices self with
  | Return pv => Return (Float (x + pv))
  | Raise e => Raise e
  end.
Proof.
  intros Hx. unfold get_total_value, get_cash_balance.
  destruct (get_portfolio_value prices self) as [pv|e]; [|reflexivity].
  unfold add, arith. destruct (_cash_balance self) as [z|f]; simpl in *.
  - now rewrite Hx.
  - injection Hx as ->. reflexivity.
Qed.

(** ** Replaying the log *)

Lemma later_transactions_app initial_deposit log tx :
  (gtb initial_deposit (Int 0) = true -> log <> []) ->
  later_transactions initial_deposit (log ++ [tx])%list
  = (later_transactions initial_deposit log ++ [tx])%list.
Proof.
  unfold later_transactions. intros H.
  destruct (gtb initial_deposit (Int 0)); [|reflexivity].
  destruct log; [now specialize (H eq_refl)|reflexivity].
Qed.

Lemma replay_cash_app initial_deposit log tx :
  (gtb initial_deposit (Int 0) = true -> log <> []) ->
  replay_cash initial_deposit (log ++ [tx])%list
  = replay_cash_step (replay_cash initial_deposit log) tx.
Proof.
  intros H. unfold replay_cash. rewrite later_transactions_app by exact H.
  now rewrite fold_left_app.
Qed.

Lemma replay_deposits_app initial_deposit log tx :
  (gtb initial_deposit (Int 0) = true -> log <> []) ->
  replay_deposits initial_deposit (log ++ [tx])%list
  = replay_deposits_step (replay_deposits initial_deposit log) tx.
Proof.
  intros H. unfold replay_deposits. rewrite later_transactions_app by exact H.
  now rewrite fold_left_app.
Qed.

Lemma reached_by_returns_replay initial_deposit self :
  reached_by_returns initial_deposit self ->
  (gtb initial_deposit (Int 0) = true -> _transactions self <> []) /\
  replay_cash initial_deposit (_transactions self) = Some (_cash_balance self) /\
  replay_deposits initial_deposit (_transactions self) = Some (_total_deposits self).
Proof.
  induction 1 as [account_id user_name now self Hinit
                 |prices o now self self' _ (Hne & Hcash & Htotal) Hrun].
  - rewrite init_eq in Hinit.
    destruct (ltb initial_deposit (Int 0)); [discriminate|].
    unfold replay_cash, replay_deposits, later_transactions.
    destruct (gtb initial_deposit (Int 0)) eqn:G; injection Hinit as <-;
      (split; [intros H; first [discriminate H|discriminate]|split; reflexivity]).
  - destruct o as [[amount|s]|[amount|s]|symbol [[quantity|f]|s]|symbol [[quantity|f]|s]];
      unfold run_op in Hrun;
      try (unfold deposit, withdraw, buy_shares, sell_shares, raise in Hrun;
           discriminate Hrun).
    + rewrite deposit_eq in Hrun.
      destruct (leb amount (Int 0)); [discriminate|].
      destruct (add (_cash_balance self) amount) as [cash|] eqn:Hc; [|discriminate].
      destruct (add (_total_deposits self) amount) as [total|] eqn:Ht; [|discriminate].
      injection Hrun as <-.
      cbn [_transactions _cash_balance _total_deposits with_transactions
             with_total_deposits with_cash_balance].
      rewrite replay_cash_app, replay_deposits_app, Hcash, Htotal by exact Hne.
      split; [intros _; now destruct (_transactions self)|]. split; assumption.
    + rewrite withdraw_eq in Hrun.
      destruct (leb amount (Int 0)); [discriminate|].
      destruct (gtb amount (_cash_balance self)).
      { destruct (to_float amount), (to_float (_cash_balance self)); discriminate. }
      destruct (sub (_cash_balance self) amount) as [cash|] eqn:Hc; [|discriminate].
      injection Hrun as <-.
      cbn [_transactions _cash_balance _total_deposits with_transactions
             with_total_deposits with_cash_balance].
      rewrite replay_cash_app, replay_deposits_app, Hcash, Htotal by exact Hne.
      split; [intros _; now destruct (_transactions self)|]. split; [assumption|reflexivity].
    + rewrite buy_shares_eq in Hrun.
      destruct (quantity <=? 0); [discriminate|].
      destruct (get_share_price prices symbol) as [price|e]; [|discriminate].
      destruct (mul (Float price) (Int quantity)) as [total_cost|]; [|discriminate].
      destruct (gtb total_cost (_cash_balance self)).
      { destruct (to_float total_cost), (to_float (_cash_balance self)); discriminate. }
      destruct (sub (_cash_balance self) total_cost) as [cash|] eqn:Hc; [|discriminate].
      injection Hrun as <-.
      cbn [_transactions _cash_balance _total_deposits with_transactions
             with_total_deposits with_cash_balance with_holdings].
      rewrite replay_cash_app, replay_deposits_app, Hcash, Htotal by exact Hne.
      split; [intros _; now destruct (_transactions self)|]. split; [assumption|reflexivity].
    + rewrite sell_shares_eq in Hrun.
      destruct (quantity <=? 0); [discriminate|].
      destruct (quantity >? shares_owned symbol self); [discriminate|].
      destruct (get_share_price prices symbol) as [price|e]; [|discriminate].
      destruct (mul (Float price) (Int quantity)) as [total_value|]; [|discriminate].
      destruct (add (_cash_balance self) total_value) as [cash|] eqn:Hc; [|discriminate].
      injection Hrun as <-.
      cbn [_transactions _cash_balance _total_deposits with_transactions
             with_total_deposits with_cash_balance with_holdings].
      rewrite replay_cash_app, replay_deposits_app, Hcash, Htotal by exact Hne.
      split; [intros _; now destruct (_transactions self)|]. split; [assumption|reflexivity].
Qed.

(** * The ledger properties *)

(** ** C1: all-or-nothing calls *)

(** C1.  The claim: in every reachable state a call of deposit, withdraw, buy
    or sell either succeeds and appends exactly one transaction, or fails and
    leaves every component of the state as it was.  [deposit] breaks it: it
    assigns the new cash balance before it computes the new total of the
    deposits, and that second addition can raise.  In the reachable account
    whose balance is the integer 5 and whose deposits total [10**400],
    [deposit(1.0)] raises [OverflowError] after the balance has become 6.0,
    with no transaction recorded.  ([run_op_all_or_nothing] shows that this
    is the only way a failing call changes the state.) *)
Theorem deposit_fails_after_changing_cash :
  exists self self',
    account_with_huge_deposits = Some self /\
    reachable self /\
    _cash_balance self = Int 5 /\
    deposit (PyNum (Float 1)) "t2" self = (Raise OverflowError, self') /\
    _cash_balance self' = Float 6 /\
    _total_deposits self' = _total_deposits self /\
    _transactions self' = _transactions self /\
    self' <> self.
Proof.
  destruct account_with_huge_deposits as [self|] eqn:E; [|discriminate E].
  pose proof (open_account_reachable _ _ _ _ _ _ _ E) as Hr.
  vm_compute in E. injection E as <-.
  eexists _, _. split; [reflexivity|]. split; [exact Hr|].
  split; [reflexivity|]. split; [vm_compute; reflexivity|].
  repeat split. discriminate.
Qed.

(** ** C2: the cash balance is never below zero *)

(** C2 as stated: the cash balance would be at least 0 in every state
    reachable from a non-negative initial deposit.  Finite, positive
    arguments lead out of it: deposits of [2.0**1023] twice make the
    balance [inf]; a purchase whose cost is [inf] passes the test
    [total_cost > self._cash_balance] and leaves [inf - inf], a NaN, for
    which [cash_balance >= 0] is false. *)
Lemma cash_balance_becomes_nan :
  exists self,
    account_after_overflow = Some self /\
    reachable self /\
    is_nan (_cash_balance self) = true /\
    cash_nonneg self = false.
Proof.
  destruct account_after_overflow as [self|] eqn:E; [|discriminate E].
  pose proof (open_account_reachable _ _ _ _ _ _ _ E) as Hr.
  vm_compute in E. injection E as <-.
  eexists. split; [reflexivity|]. split; [exact Hr|].
  split; vm_compute; reflexivity.
Qed.

(** A NaN is accepted as an amount as well ([nan <= 0] is false), and makes
    the balance a NaN at once. *)
Lemma nan_deposit_is_accepted :
  exists self self',
    __init__ "acc123" "Test User" (Float 10000) "t0" = Return self /\
    deposit (PyNum (Float nan)) "t1" self = (Return tt, self') /\
    cash_nonneg self' = false.
Proof.
  eexists _, _. split; [vm_compute; reflexivity|].
  split; vm_compute; reflexivity.
Qed.

(** C2, amended.  In every state reached from an initial deposit that is not
    below zero by calls of deposit, withdraw, buy and sell at positive
    prices, each made on a finite cash balance and none with a NaN as its
    amount, the cash balance is at least 0 (and so is not a NaN); and every
    such call on such a state, whether it returns or raises, leaves a cash
    balance that is at least 0. *)
Theorem cash_balance_nonneg self :
  reachable_while_finite self ->
  cash_nonneg self = true /\
  forall prices o now r self',
    positive_prices prices ->
    is_finite (_cash_balance self) = true ->
    op_amount_is_nan o = false ->
    run_op prices o now self = (r, self') ->
    cash_nonneg self' = true.
Proof.
  intros Hreach.
  assert (Hinv : forall s, reachable_while_finite s -> cash_nonneg s = true).
  { induction 1 as [account_id user_name initial_deposit now s Hinit Hge
                   |prices o now s r s' _ IH Hprices Hfin Hnan Hrun].
    - rewrite init_eq in Hinit.
      destruct (ltb initial_deposit (Int 0)); [discriminate|].
      injection Hinit as <-. exact Hge.
    - exact (run_op_cash_nonneg prices o now s r s' Hprices IH Hfin Hnan Hrun). }
  split; [exact (Hinv self Hreach)|].
  intros prices o now r self' Hprices Hfin Hnan Hrun.
  apply Hinv. exact (finite_step prices o now self r self' Hreach Hprices Hfin Hnan Hrun).
Qed.

Lemma cash_balance_nonneg_witness :
  exists self,
    account_after_buying_aapl (Int 10000) = Some self /\
    reachable_while_finite self /\
    _cash_balance self = Float 8500 /\
    cash_nonneg self = true.
Proof.
  eexists. split; [vm_compute; reflexivity|].
  assert (Hp : positive_prices _test_prices).
  { intros symbol price [[= <- <-]|[[= <- <-]|[[= <- <-]|[]]]]; reflexivity. }
  assert (Hr : reachable_while_finite
                 (snd (run_op _test_prices (Buy "AAPL" (PyNum (Int 10))) "t1"
                         {| _account_id := "acc123"; _user_name := "Test User";
                            _cash_balance := Int 10000; _total_deposits := Int 10000;
                            _holdings := [];
                            _transactions :=
                              [make_transaction "t0" DEPOSIT None None None (Int 10000)]
                         |}))).
  { eapply finite_step with (prices := _test_prices) (o := Buy "AAPL" (PyNum (Int 10)));
      [|exact Hp| | |apply surjective_pairing]; [|reflexivity|reflexivity].
    eapply finite_init with (initial_deposit := Int 10000); [|reflexivity].
    vm_compute. reflexivity. }
  split; [exact Hr|]. split; [reflexivity|].
  exact (proj1 (cash_balance_nonneg _ Hr)).
Defined.

(** ** C3: the holdings *)

(** C3.  In every reachable state each entry of the holdings has an
    upper-case (normalized) symbol as its key and a strictly positive
    quantity, one entry per symbol; and a sale of the whole quantity owned of
    a symbol leaves no entry for it.  (Such a sale returns whenever the
    symbol is held, its price is known and the quantity and the balance fit
    a double.) *)
Theorem holdings_normalized_and_positive self :
  reachable self ->
  (forall k v, In (k, v) (_holdings self) -> upper k = k /\ 0 < v) /\
  NoDup (PyDict.keys (_holdings self)) /\
  (forall prices symbol now self',
     sell_shares prices symbol (PyNum (Int (shares_owned symbol self))) now self
       = (Return tt, self') ->
     PyDict.get (upper symbol) (_holdings self') = None /\
     forall v, ~ In (upper symbol, v) (_holdings self')) /\
  (forall prices symbol now price,
     0 < shares_owned symbol self ->
     get_share_price prices symbol = Return price ->
     float_of_int (shares_owned symbol self) <> None ->
     to_float (_cash_balance self) <> None ->
     exists self',
       sell_shares prices symbol (PyNum (Int (shares_owned symbol self))) now self
       = (Return tt, self')).
Proof.
  intros Hr. pose proof (reachable_holdings_wf self Hr) as Hwf.
  destruct Hwf as [Hnd Hv]. split; [exact Hv|]. split; [exact Hnd|]. split.
  - intros prices symbol now self' Hsell.
    assert (Hnone : PyDict.get (upper symbol) (_holdings self') = None).
    { rewrite sell_shares_eq in Hsell.
      destruct (shares_owned symbol self <=? 0); [discriminate|].
      destruct (shares_owned symbol self >? shares_owned symbol self); [discriminate|].
      destruct (get_share_price prices symbol) as [price|e]; [|discriminate].
      destruct (mul (Float price) (Int (shares_owned symbol self))) as [total_value|];
        [|discriminate].
      destruct (add (_cash_balance self) total_value); [|discriminate].
      injection Hsell as <-. cbn [_holdings with_transactions with_holdings].
      rewrite Z.sub_diag. simpl. apply get_del_same. now apply NoDup_set. }
    split; [exact Hnone|].
    intros v HI. apply get_None_keys in Hnone. apply Hnone. eapply In_keys; eauto.
  - intros prices symbol now price Hown Hp Hq Hc.
    rewrite sell_shares_eq, Hp.
    destruct (Z.leb_spec (shares_owned symbol self) 0); [lia|].
    destruct (Z.gtb_spec (shares_owned symbol self) (shares_owned symbol self)); [lia|].
    unfold mul, arith. cbn [to_float].
    destruct (float_of_int (shares_owned symbol self)) as [q|]; [|contradiction].
    unfold add, arith.
    destruct (_cash_balance self) as [z|f]; cbn [to_float] in *.
    + destruct (float_of_int z); [|contradiction]. eexists. reflexivity.
    + eexists. reflexivity.
Qed.

Lemma holdings_normalized_and_positive_witness :
  exists self self',
    account_after_buying_aapl (Float 10000) = Some self /\
    reachable self /\
    _holdings self = [("AAPL", 10)] /\
    sell_shares _test_prices "aapl" (PyNum (Int 10)) "t2" self = (Return tt, self') /\
    PyDict.get "AAPL" (_holdings self') = None.
Proof.
  destruct (account_after_buying_aapl (Float 10000)) as [self|] eqn:E;
    [|discriminate E].
  pose proof (open_account_reachable _ _ _ _ _ _ _ E) as Hr.
  vm_compute in E. injection E as <-.
  eexists _, _. split; [reflexivity|]. split; [exact Hr|]. split; [reflexivity|].
  split; [vm_compute; reflexivity|].
  destruct (holdings_normalized_and_positive _ Hr) as (_ & _ & Hsell & _).
  apply (Hsell _test_prices "aapl" "t2"). vm_compute. reflexivity.
Defined.

(** ** C4: buying and selling back *)

(** C4 as stated: buying a quantity and selling it back at the same price
    would restore the cash balance, the total value and the profit or loss
    exactly.  With a balance of [2.0**53 + 2002], buying and selling 2
    shares of TSLA (1401.0 in all) leaves [2.0**53 + 2000]: both the
    subtraction and the addition round, to even, and the profit or loss
    goes from 0.0 to -2.0. *)
Lemma round_trip_loses_two :
  exists before after,
    account_before_round_trip = Some before /\
    account_after_round_trip = Some after /\
    reachable before /\
    _cash_balance before = Float 9007199254742994 /\
    _cash_balance after = Float 9007199254742992 /\
    eqb (_cash_balance after) (_cash_balance before) = false /\
    get_total_value _test_prices before = Return (Float 9007199254742994) /\
    get_total_value _test_prices after = Return (Float 9007199254742992) /\
    get_profit_loss _test_prices before = Return (Float 0) /\
    get_profit_loss _test_prices after = Return (Float (-2)).
Proof.
  destruct account_before_round_trip as [before|] eqn:E; [|discriminate E].
  pose proof (open_account_reachable _ _ _ _ _ _ _ E) as Hr.
  vm_compute in E. injection E as <-.
  eexists _, _. split; [reflexivity|]. split; [vm_compute; reflexivity|].
  split; [exact Hr|]. repeat split; vm_compute; reflexivity.
Qed.

(** C4, amended.  In every reachable state, when [buy_shares(symbol, q)]
    returns, [sell_shares(symbol, q)] at the same prices returns too; the
    two calls restore the holdings (and so [get_portfolio_value()]) exactly,
    leave the total of the deposits unchanged and record a BUY and a SELL;
    the cash balance becomes [(cash - cost) + cost] in double arithmetic.
    When that double is the balance before the trade, [get_total_value()]
    and [get_profit_loss()] are restored exactly. *)
Theorem buy_then_sell_back prices symbol quantity now1 now2 self self1 :
  reachable self ->
  buy_shares prices symbol (PyNum (Int quantity)) now1 self = (Return tt, self1) ->
  exists price cost cash1 self2,
    get_share_price prices symbol = Return price /\
    mul (Float price) (Int quantity) = Some (Float cost) /\
    sub (_cash_balance self) (Float cost) = Some (Float cash1) /\
    sell_shares prices symbol (PyNum (Int quantity)) now2 self1 = (Return tt, self2) /\
    _cash_balance self2 = Float (cash1 + cost) /\
    _holdings self2 = _holdings self /\
    get_portfolio_value prices self2 = get_portfolio_value prices self /\
    _total_deposits self2 = _total_deposits self /\
    _transactions self2 =
      (_transactions self
       ++ [make_transaction now1 BUY (Some symbol) (Some quantity) (Some price)
             (Float cost);
           make_transaction now2 SELL (Some symbol) (Some quantity) (Some price)
             (Float cost)])%list /\
    (to_float (_cash_balance self) = Some (cash1 + cost)%float ->
     get_total_value prices self2 = get_total_value prices self /\
     get_profit_loss prices self2 = get_profit_loss prices self).
Proof.
  intros Hr Hbuy. pose proof (reachable_holdings_wf self Hr) as Hwf.
  rewrite buy_shares_eq in Hbuy.
  destruct (Z.leb_spec quantity 0) as [|Hq]; [discriminate|].
  destruct (get_share_price prices symbol) as [price|e] eqn:Hp; [|discriminate].
  destruct (mul (Float price) (Int quantity)) as [total_cost|] eqn:Hm; [|discriminate].
  destruct (mul_price_float _ _ _ Hm) as [cost ->].
  destruct (gtb (Float cost) (_cash_balance self)).
  { destruct (to_float (Float cost)), (to_float (_cash_balance self)); discriminate. }
  destruct (sub (_cash_balance self) (Float cost)) as [cash|] eqn:Hs; [|discriminate].
  destruct (sub_float_r _ _ _ Hs) as [cash1 ->].
  injection Hbuy as <-.
  set (self1 := with_transactions _ _).
  assert (Hown : shares_owned symbol self1 = shares_owned symbol self + quantity).
  { unfold shares_owned at 1. unfold self1. cbn [_holdings with_transactions with_holdings].
    now rewrite get_set_same. }
  pose proof (shares_owned_nonneg symbol self Hwf) as Hnn.
  assert (Hsell : sell_shares prices symbol (PyNum (Int quantity)) now2 self1 =
    (Return tt,
     with_transactions
       (_transactions self1
        ++ [make_transaction now2 SELL (Some symbol) (Some quantity) (Some price)
              (Float cost)])%list
       (with_holdings (_holdings self)
          (with_cash_balance (Float (cash1 + cost)) self1)))).
  { rewrite sell_shares_eq, Hown, Hp, Hm.
    destruct (Z.leb_spec quantity 0); [lia|].
    destruct (Z.gtb_spec quantity (shares_owned symbol self + quantity)); [lia|].
    replace (shares_owned symbol self + quantity - quantity)
      with (shares_owned symbol self) by lia.
    change (add (_cash_balance self1) (Float cost)) with (Some (Float (cash1 + cost))).
    cbv zeta.
    assert (Hh : (if shares_owned symbol self =? 0
                  then PyDict.del (upper symbol)
                         (PyDict.set (upper symbol) (shares_owned symbol self)
                            (_holdings self1))
                  else PyDict.set (upper symbol) (shares_owned symbol self)
                         (_holdings self1)) = _holdings self).
    { exact (holdings_round_trip (_holdings self) (upper symbol) quantity Hwf Hq). }
    rewrite Hh. reflexivity. }
  set (self2 := with_transactions
                  (_transactions self1
                   ++ [make_transaction now2 SELL (Some symbol) (Some quantity)
                         (Some price) (Float cost)])%list
                  (with_holdings (_holdings self)
                     (with_cash_balance (Float (cash1 + cost)) self1))) in *.
  exists price, cost, cash1, self2.
  split; [reflexivity|]. split; [exact Hm|]. split; [exact Hs|].
  split; [exact Hsell|].
  split; [reflexivity|]. split; [reflexivity|]. split; [reflexivity|].
  split; [reflexivity|]. split.
  { unfold self2, self1. cbn [_transactions with_transactions].
    now rewrite <- app_assoc. }
  intros Hx.
  assert (Htv : get_total_value prices self2 = get_total_value prices self).
  { rewrite (total_value_eq prices self _ Hx).
    rewrite (total_value_eq prices self2 (cash1 + cost)%float eq_refl).
    reflexivity. }
  split; [exact Htv|].
  unfold get_profit_loss. rewrite Htv. reflexivity.
Qed.

Lemma buy_then_sell_back_witness :
  exists self self1 self2,
    account_after_buying_aapl (Float 10000) = Some self1 /\
    reachable self /\
    buy_shares _test_prices "AAPL" (PyNum (Int 10)) "t1" self = (Return tt, self1) /\
    sell_shares _test_prices "AAPL" (PyNum (Int 10)) "t2" self1 = (Return tt, self2) /\
    _cash_balance self2 = Float (8500 + 1500) /\
    _holdings self2 = _holdings self /\
    get_profit_loss _test_prices self2 = get_profit_loss _test_prices self.
Proof.
  assert (Hr : reachable
                 {| _account_id := "acc123"; _user_name := "Test User";
                    _cash_balance := Float 10000; _total_deposits := Float 10000;
                    _holdings := [];
                    _transactions :=
                      [make_transaction "t0" DEPOSIT None None None (Float 10000)] |}).
  { eapply reachable_init with (initial_deposit := Float 10000) (now := "t0").
    vm_compute. reflexivity. }
  destruct (buy_then_sell_back _test_prices "AAPL" 10 "t1" "t2" _ _ Hr eq_refl)
    as (price & cost & cash1 & self2 & Hp & Hm & Hs & Hsell & Hc & Hh & _ & _ & _ & Hv).
  injection Hp as <-. injection Hm as <-. injection Hs as <-.
  eexists _, _, self2. split; [vm_compute; reflexivity|]. split; [exact Hr|].
  split; [reflexivity|]. split; [exact Hsell|]. split; [exact Hc|].
  split; [exact Hh|]. apply Hv. reflexivity.
Defined.

(** ** C5: withdrawals and the profit or loss *)

(** [withdraw] never touches the total of the deposits. *)
Lemma withdraw_total_deposits amount now self r self' :
  withdraw amount now self = (r, self') ->
  _total_deposits self' = _total_deposits self.
Proof.
  destruct amount as [amount|s]; [|intros [= <- <-]; reflexivity].
  rewrite withdraw_eq.
  destruct (leb amount (Int 0)); [intros [= <- <-]; reflexivity|].
  destruct (gtb amount (_cash_balance self)).
  - destruct (to_float amount), (to_float (_cash_balance self));
      intros [= <- <-]; reflexivity.
  - destruct (sub (_cash_balance self) amount); intros [= <- <-]; reflexivity.
Qed.

(** C5.  The claim: a withdrawal within the balance leaves the total of the
    deposits unchanged and does not affect what [get_profit_loss()]
    returns.  The first half holds ([withdraw_total_deposits]); the second
    does not, although the docstring of [get_profit_loss] and
    [test_get_profit_loss] both say so: in the account of that test
    (10000.0 deposited, 10 AAPL bought) the profit or loss is 0.0, and after
    [withdraw(500)] it is -500.0, where the test asserts 0.0. *)
Theorem withdraw_lowers_profit_loss :
  exists self self',
    account_after_buying_aapl (Float 10000) = Some self /\
    reachable self /\
    get_profit_loss _test_prices self = Return (Float 0) /\
    withdraw (PyNum (Int 500)) "t2" self = (Return tt, self') /\
    _total_deposits self' = _total_deposits self /\
    get_profit_loss _test_prices self' = Return (Float (-500)).
Proof.
  destruct (account_after_buying_aapl (Float 10000)) as [self|] eqn:E;
    [|discriminate E].
  pose proof (open_account_reachable _ _ _ _ _ _ _ E) as Hr.
  vm_compute in E. injection E as <-.
  eexists _, _. split; [reflexivity|]. split; [exact Hr|].
  split; [vm_compute; reflexivity|]. split; [vm_compute; reflexivity|].
  split; vm_compute; reflexivity.
Qed.

(** ** C6: selling more than is owned *)




(** ** C7: invalid amounts *)

(** C7 as stated: a positive infinite amount would be rejected by [deposit]
    and by [withdraw] with the invalid-amount error, the state left
    unchanged.  [deposit] takes it: [amount <= 0] is false for [inf], and
    the balance becomes [inf].  [withdraw] does not find it invalid either:
    it raises [InsufficientFundsError]. *)
Lemma deposit_accepts_infinity :
  exists self self',
    __init__ "acc123" "Test User" (Float 10000) "t0" = Return self /\
    deposit (PyNum (Float infinity)) "t1" self = (Return tt, self') /\
    _cash_balance self' = Float infinity /\
    _total_deposits self' = Float infinity /\
    self' <> self /\
    withdraw (PyNum (Float infinity)) "t1" self =
      (Raise (InsufficientFundsError "Cannot withdraw " infinity 10000), self).
Proof.
  eexists _, _. split; [vm_compute; reflexivity|].
  split; [vm_compute; reflexivity|].
  split; [reflexivity|]. split; [reflexivity|]. split; [discriminate|].
  vm_compute. reflexivity.
Qed.

(** C7, amended.  For an amount that is not a NaN, [deposit] and [withdraw]
    raise [ValueError] exactly when the amount is not a positive number (not
    an [int] or [float], or not above 0), and then leave the account
    unchanged; finiteness is not asked for, so positive infinity is a valid
    amount. *)
Theorem invalid_amount_iff_not_positive amount now self :
  obj_is_nan amount = false ->
  raises_ValueError (deposit amount now self) = negb (positive_number amount) /\
  raises_ValueError (withdraw amount now self) = negb (positive_number amount) /\
  (raises_ValueError (deposit amount now self) = true ->
   snd (deposit amount now self) = self) /\
  (raises_ValueError (withdraw amount now self) = true ->
   snd (withdraw amount now self) = self) /\
  positive_number (PyNum (Float infinity)) = true.
Proof.
  intros Hnan. destruct amount as [amount|s]; [|repeat split].
  simpl in Hnan. unfold positive_number.
  rewrite deposit_eq, withdraw_eq, <- (leb_zero_not_gtb amount Hnan).
  destruct (leb amount (Int 0)) eqn:Hle; [repeat split|].
  assert (Hd : raises_ValueError
                 match add (_cash_balance self) amount with
                 | Some cash =>
                     match add (_total_deposits self) amount with
                     | Some total =>
                         (Return tt,
                          with_transactions
                            (_transactions self ++
                             [make_transaction now DEPOSIT None None None amount])%list
                            (with_total_deposits total (with_cash_balance cash self)))
                     | None => (Raise OverflowError, with_cash_balance cash self)
                     end
                 | None => (@Raise unit OverflowError, self)
                 end = false).
  { destruct (add (_cash_balance self) amount); [|reflexivity].
    destruct (add (_total_deposits self) amount); reflexivity. }
  assert (Hw : raises_ValueError
                 (if gtb amount (_cash_balance self)
                  then
                    match to_float amount, to_float (_cash_balance self) with
                    | Some requested, Some balance =>
                        (@Raise unit
                           (InsufficientFundsError "Cannot withdraw " requested balance),
                         self)
                    | _, _ => (Raise OverflowError, self)
                    end
                  else
                    match sub (_cash_balance self) amount with
                    | Some cash =>
                        (Return tt,
                         with_transactions
                           (_transactions self ++
                            [make_transaction now WITHDRAW None None None amount])%list
                           (with_cash_balance cash self))
                    | None => (Raise OverflowError, self)
                    end) = false).
  { destruct (gtb amount (_cash_balance self)).
    - destruct (to_float amount), (to_float (_cash_balance self)); reflexivity.
    - destruct (sub (_cash_balance self) amount); reflexivity. }
  rewrite Hd, Hw. repeat split; discriminate.
Qed.

Lemma invalid_amount_iff_not_positive_witness :
  let self := Build_Account "acc123" "Test User" (Float 10000) (Float 10000) [] [] in
  let amount := PyNum (Float (-50)) in
  obj_is_nan amount = false /\
  raises_ValueError (deposit amount "t1" self) = negb (positive_number amount) /\
  raises_ValueError (withdraw amount "t1" self) = negb (positive_number amount) /\
  (raises_ValueError (deposit amount "t1" self) = true ->
   snd (deposit amount "t1" self) = self) /\
  (raises_ValueError (withdraw amount "t1" self) = true ->
   snd (withdraw amount "t1" self) = self) /\
  positive_number (PyNum (Float infinity)) = true.
Proof.
  intros self amount. split; [reflexivity|].
  apply (invalid_amount_iff_not_positive amount "t1" self). reflexivity.
Defined.

(** ** C8: the portfolio value *)

(** C8 as stated: for every holdings map [get_portfolio_value()] would
    return the sum of the values of the holdings.  A holding too large for a
    double makes it raise instead: [price * quantity] converts the quantity,
    and the [OverflowError] of the conversion is not caught.  The account
    below is reachable and holds [2 * 10**308] shares of AAPL. *)
Lemma portfolio_value_raises_overflow :
  exists self,
    account_with_huge_holding = Some self /\
    reachable self /\
    _holdings self = [("AAPL", 2 * 10 ^ 308)] /\
    get_portfolio_value _test_prices self = Raise OverflowError /\
    get_total_value _test_prices self = Raise OverflowError.
Proof.
  destruct account_with_huge_holding as [self|] eqn:E; [|discriminate E].
  pose proof (open_account_reachable _ _ _ _ _ _ _ E) as Hr.
  vm_compute in E. injection E as <-.
  eexists. split; [reflexivity|]. split; [exact Hr|].
  split; [reflexivity|]. split; vm_compute; reflexivity.
Qed.

(** C8, amended.  For every holdings map whose quantities can be converted
    to doubles, [get_portfolio_value()] returns the sum, in the order of the
    dictionary, of [price_lookup(symbol) * quantity] over the holdings, a
    holding whose lookup fails counting for exactly 0 and the evaluation
    going on with the remaining holdings.  For every holdings map
    whatsoever it never raises [UnknownSymbolError], and
    [get_total_value()] is [get_cash_balance() + get_portfolio_value()]. *)
Theorem portfolio_value_is_sum prices self :
  quantities_fit_double (_holdings self) ->
  get_portfolio_value prices self = Return (portfolio_sum prices (_holdings self)) /\
  get_total_value prices self =
    match add (get_cash_balance self) (Float (portfolio_sum prices (_holdings self))) with
    | Some v => Return v
    | None => Raise OverflowError
    end /\
  forall prices' self',
    raises_UnknownSymbolError (get_portfolio_value prices' self') = false /\
    get_total_value prices' self' =
      match get_portfolio_value prices' self' with
      | Return pv =>
          match add (get_cash_balance self') (Float pv) with
          | Some v => Return v
          | None => Raise OverflowError
          end
      | Raise e => Raise e
      end.
Proof.
  intros Hfit.
  assert (E : get_portfolio_value prices self
              = Return (portfolio_sum prices (_holdings self))).
  { unfold get_portfolio_value, portfolio_sum.
    apply portfolio_loop_sum; [exact Hfit|discriminate]. }
  split; [exact E|]. split.
  - unfold get_total_value. now rewrite E.
  - intros prices' self'. split; [apply portfolio_loop_not_unknown|reflexivity].
Qed.

Lemma portfolio_value_is_sum_witness :
  let self := {| _account_id := "acc123"; _user_name := "Test User";
                 _cash_balance := Float 7099; _total_deposits := Float 10000;
                 _holdings := [("AAPL", 10); ("GONE", 3); ("TSLA", 2)];
                 _transactions := [] |} in
  quantities_fit_double (_holdings self) /\
  get_portfolio_value _test_prices self = Return 2901%float /\
  get_total_value _test_prices self = Return (Float 10000).
Proof.
  intros self.
  assert (Hfit : quantities_fit_double (_holdings self)).
  { intros symbol quantity [[= <- <-]|[[= <- <-]|[[= <- <-]|[]]]]; discriminate. }
  split; [exact Hfit|].
  destruct (portfolio_value_is_sum _test_prices self Hfit) as (Hpv & Htv & _).
  split; [exact Hpv|exact Htv].
Defined.

(** ** C9: the scenario of the price rise *)

(** C9 as stated: after a deposit of 10000 and the purchase of 10 shares at
    150, with the price at 160, [get_profit_loss()] would be -400.  It is
    not. *)
Lemma profit_loss_after_price_rise_is_not_minus_400 :
  exists self,
    account_after_buying_aapl (Float 10000) = Some self /\
    _cash_balance self = Float 8500 /\
    get_profit_loss prices_aapl_160 self <> Return (Float (-400)).
Proof.
  eexists. split; [vm_compute; reflexivity|]. split; [reflexivity|].
  vm_compute. discriminate.
Qed.

(** C9, amended.  In that scenario the cash is 8500 and
    [get_profit_loss()] returns (8500 + 10 * 160) - 10000 = 100, whether the
    10000 were given as a [float] or as an [int].  (-400 is what the test
    gets, which withdraws 500 before the price moves.) *)
Theorem profit_loss_after_price_rise :
  forall initial_deposit,
    initial_deposit = Float 10000 \/ initial_deposit = Int 10000 ->
    exists self,
      account_after_buying_aapl initial_deposit = Some self /\
      _cash_balance self = Float 8500 /\
      _holdings self = [("AAPL", 10)] /\
      get_profit_loss prices_aapl_160 self = Return (Float 100).
Proof.
  intros initial_deposit [-> | ->]; eexists.
  - split; [vm_compute; reflexivity|].
    split; [reflexivity|]. split; [reflexivity|]. vm_compute. reflexivity.
  - split; [vm_compute; reflexivity|].
    split; [reflexivity|]. split; [reflexivity|]. vm_compute. reflexivity.
Qed.

Lemma profit_loss_after_price_rise_witness :
  exists self,
    account_after_buying_aapl (Float 10000) = Some self /\
    _cash_balance self = Float 8500 /\
    _holdings self = [("AAPL", 10)] /\
    get_profit_loss prices_aapl_160 self = Return (Float 100).
Proof.
  apply (profit_loss_after_price_rise (Float 10000)). left. reflexivity.
Defined.

(** ** C10: the balances and the transaction log *)

(** C10 as stated: the cash balance would be the sum of the DEPOSIT
    amounts, minus the sum of the WITHDRAW amounts, minus the sum of the BUY
    amounts, plus the sum of the SELL amounts.  After [Account(..., 0.1)],
    [withdraw(0.1)] and [deposit(0.2)] the balance is 0.2 (0.1 - 0.1 + 0.2),
    and the sums give (0.1 + 0.2) - 0.1 = 0.20000000000000004: double
    addition is not associative.  (The total of the deposits does agree with
    the sum of the DEPOSIT amounts here.) *)
Lemma cash_is_not_the_sum_by_type :
  exists self,
    account_after_interleaving = Some self /\
    reachable self /\
    _cash_balance self = Float 0.2 /\
    sum_amounts DEPOSIT (_transactions self) = Some (Float (0.1 + 0.2)) /\
    eqb (_total_deposits self) (Float (0.1 + 0.2)) = true /\
    cash_from_sums (_transactions self) = Some (Float (0.1 + 0.2 - 0.1)) /\
    eqb (_cash_balance self) (Float (0.1 + 0.2 - 0.1)) = false.
Proof.
  destruct account_after_interleaving as [self|] eqn:E; [|discriminate E].
  pose proof (open_account_reachable _ _ _ _ _ _ _ E) as Hr.
  vm_compute in E. injection E as <-.
  eexists. split; [reflexivity|]. split; [exact Hr|].
  repeat split; vm_compute; reflexivity.
Qed.

(** C10, amended.  In every state reached from [Account(...,
    initial_deposit)] by calls that returned, the balances are what the
    recorded transactions give when they are replayed in order on the
    initial deposit: the total of the deposits is the initial deposit with
    the amount of every later DEPOSIT added, one after the other, and the
    cash balance is the initial deposit with every later DEPOSIT and SELL
    amount added and every WITHDRAW and BUY amount subtracted, one after the
    other, in Python's arithmetic. *)
Theorem balances_replay_the_log initial_deposit self :
  reached_by_returns initial_deposit self ->
  replay_deposits initial_deposit (_transactions self) = Some (_total_deposits self) /\
  replay_cash initial_deposit (_transactions self) = Some (_cash_balance self).
Proof.
  intros H. destruct (reached_by_returns_replay initial_deposit self H) as (_ & Hc & Ht).
  split; assumption.
Qed.

Lemma balances_replay_the_log_witness :
  exists self,
    account_after_interleaving = Some self /\
    reached_by_returns (Float 0.1) self /\
    replay_deposits (Float 0.1) (_transactions self) = Some (Float (0.1 + 0.2)) /\
    replay_cash (Float 0.1) (_transactions self) = Some (Float (0.1 - 0.1 + 0.2)).
Proof.
  eexists. split; [vm_compute; reflexivity|].
  pose (s0 := {| _account_id := "acc"; _user_name := "user";
                 _cash_balance := Float 0.1; _total_deposits := Float 0.1;
                 _holdings := [];
                 _transactions :=
                   [make_transaction "t0" DEPOSIT None None None (Float 0.1)] |}).
  pose (s1 := snd (run_op _test_prices (Withdraw (PyNum (Float 0.1))) "t1" s0)).
  pose (s2 := snd (run_op _test_prices (Deposit (PyNum (Float 0.2))) "t2" s1)).
  assert (H0 : reached_by_returns (Float 0.1) s0).
  { eapply returns_init with (now := "t0"). vm_compute. reflexivity. }
  assert (H1 : reached_by_returns (Float 0.1) s1).
  { apply (returns_step _ _test_prices (Withdraw (PyNum (Float 0.1))) "t1" s0 s1 H0).
    vm_compute. reflexivity. }
  assert (H2 : reached_by_returns (Float 0.1) s2).
  { apply (returns_step _ _test_prices (Deposit (PyNum (Float 0.2))) "t2" s1 s2 H1).
    vm_compute. reflexivity. }
  split; [exact H2|].
  exact (balances_replay_the_log _ _ H2).
Defined.

(** * Further properties of the ledger *)

(** ** Dictionaries: other keys *)

Lemma get_set_other {V : Type} (d : PyDict.dict V) k k' v :
  k <> k' -> PyDict.get k (PyDict.set k' v d) = PyDict.get k d.
Proof.
  intros Hne. induction d as [|[k1 v1] d IH]; simpl.
  - destruct (String.eqb_spec k k'); [contradiction|reflexivity].
  - destruct (String.eqb_spec k' k1) as [->|Hne1]; simpl.
    + destruct (String.eqb_spec k k1); [contradiction|reflexivity].
    + destruct (String.eqb_spec k k1); [reflexivity|exact IH].
Qed.

Lemma get_del_other {V : Type} (d : PyDict.dict V) k k' :
  k <> k' -> PyDict.get k (PyDict.del k' d) = PyDict.get k d.
Proof.
  intros Hne. induction d as [|[k1 v1] d IH]; simpl; [reflexivity|].
  destruct (String.eqb_spec k' k1) as [->|Hne1]; simpl.
  - destruct (String.eqb_spec k k1); [contradiction|reflexivity].
  - destruct (String.eqb_spec k k1); [reflexivity|exact IH].
Qed.

Lemma upper_empty (s : string) : upper s = "" <-> s = "".
Proof. destruct s; simpl; split; congruence. Qed.

(** ** The calls that return *)

(** What a call that returns has done, method by method. *)
Lemma run_op_returns prices o now self self' :
  run_op prices o now self = (Return tt, self') ->
  (exists amount cash total,
     o = Deposit (PyNum amount) /\ leb amount (Int 0) = false /\
     add (_cash_balance self) amount = Some cash /\
     add (_total_deposits self) amount = Some total /\
     self' = with_transactions
               (_transactions self
                ++ [make_transaction now DEPOSIT None None None amount])%list
               (with_total_deposits total (with_cash_balance cash self))) \/
  (exists amount cash,
     o = Withdraw (PyNum amount) /\ leb amount (Int 0) = false /\
     gtb amount (_cash_balance self) = false /\
     sub (_cash_balance self) amount = Some cash /\
     self' = with_transactions
               (_transactions self
                ++ [make_transaction now WITHDRAW None None None amount])%list
               (with_cash_balance cash self)) \/
  (exists symbol quantity price total_cost cash,
     o = Buy symbol (PyNum (Int quantity)) /\ 0 < quantity /\
     get_share_price prices symbol = Return price /\
     mul (Float price) (Int quantity) = Some total_cost /\
     gtb total_cost (_cash_balance self) = false /\
     sub (_cash_balance self) total_cost = Some cash /\
     self' = with_transactions
               (_transactions self
                ++ [make_transaction now BUY (Some symbol) (Some quantity)
                      (Some price) total_cost])%list
               (with_holdings
                  (PyDict.set (upper symbol)
                     (shares_owned symbol self + quantity) (_holdings self))
                  (with_cash_balance cash self))) \/
  (exists symbol quantity price total_value cash,
     o = Sell symbol (PyNum (Int quantity)) /\ 0 < quantity /\
     quantity <= shares_owned symbol self /\
     get_share_price prices symbol = Return price /\
     mul (Float price) (Int quantity) = Some total_value /\
     add (_cash_balance self) total_value = Some cash /\
     self' = with_transactions
               (_transactions self
                ++ [make_transaction now SELL (Some symbol) (Some quantity)
                      (Some price) total_value])%list
               (with_holdings
                  (if shares_owned symbol self - quantity =? 0
                   then PyDict.del (upper symbol)
                          (PyDict.set (upper symbol)
                             (shares_owned symbol self - quantity) (_holdings self))
                   else PyDict.set (upper symbol)
                          (shares_owned symbol self - quantity) (_holdings self))
                  (with_cash_balance cash self))).
Proof.
  destruct o as [[amount|s]|[amount|s]|symbol [[quantity|f]|s]|symbol [[quantity|f]|s]];
    unfold run_op;
    try (unfold deposit, withdraw, buy_shares, sell_shares, raise; discriminate).
  - rewrite deposit_eq.
    destruct (leb amount (Int 0)) eqn:Hle; [discriminate|].
    destruct (add (_cash_balance self) amount) as [cash|] eqn:Hc; [|discriminate].
    destruct (add (_total_deposits self) amount) as [total|] eqn:Ht; [|discriminate].
    intros [= <-]. left. exists amount, cash, total. auto.
  - rewrite withdraw_eq.
    destruct (leb amount (Int 0)) eqn:Hle; [discriminate|].
    destruct (gtb amount (_cash_balance self)) eqn:Hgt.
    + destruct (to_float amount), (to_float (_cash_balance self)); discriminate.
    + destruct (sub (_cash_balance self) amount) as [cash|] eqn:Hs; [|discriminate].
      intros [= <-]. right. left. exists amount, cash. auto.
  - rewrite buy_shares_eq.
    destruct (Z.leb_spec quantity 0) as [|Hq]; [discriminate|].
    destruct (get_share_price prices symbol) as [price|e] eqn:Hp; [|discriminate].
    destruct (mul (Float price) (Int quantity)) as [total_cost|] eqn:Hm; [|discriminate].
    destruct (gtb total_cost (_cash_balance self)) eqn:Hgt.
    + destruct (to_float total_cost), (to_float (_cash_balance self)); discriminate.
    + destruct (sub (_cash_balance self) total_cost) as [cash|] eqn:Hs; [|discriminate].
      intros [= <-]. right. right. left.
      exists symbol, quantity, price, total_cost, cash. auto 10.
  - rewrite sell_shares_eq.
    destruct (Z.leb_spec quantity 0) as [|Hq]; [discriminate|].
    destruct (Z.gtb_spec quantity (shares_owned symbol self)) as [|Hown]; [discriminate|].
    destruct (get_share_price prices symbol) as [price|e] eqn:Hp; [|discriminate].
    destruct (mul (Float price) (Int quantity)) as [total_value|] eqn:Hm; [|discriminate].
    destruct (add (_cash_balance self) total_value) as [cash|] eqn:Ha; [|discriminate].
    intros [= <-]. right. right. right.
    exists symbol, quantity, price, total_value, cash. auto 10.
Qed.

(** The quantity of a trade that returned is within the limit of [str]: its
    product with the price was computed. *)
Lemma returned_trade_prints prices symbol q now self self' :
  buy_shares prices symbol (PyNum (Int q)) now self = (Return tt, self') \/
  sell_shares prices symbol (PyNum (Int q)) now self = (Return tt, self') ->
  str_of_int q = Some (decimal q).
Proof.
  rewrite buy_shares_eq, sell_shares_eq. intros [E|E].
  - destruct (q <=? 0); [discriminate|].
    destruct (get_share_price prices symbol) as [price|]; [|discriminate].
    destruct (mul (Float price) (Int q)) as [total|] eqn:Hm; [|discriminate].
    exact (mul_price_str _ _ _ Hm).
  - destruct (q <=? 0); [discriminate|].
    destruct (q >? shares_owned symbol self); [discriminate|].
    destruct (get_share_price prices symbol) as [price|]; [|discriminate].
    destruct (mul (Float price) (Int q)) as [total|] eqn:Hm; [|discriminate].
    exact (mul_price_str _ _ _ Hm).
Qed.
(** ** Failing calls *)

(** X1.  [withdraw], [buy_shares] and [sell_shares] are all-or-nothing in
    every state: a call that raises leaves the account exactly as it was.  A
    call of [deposit] that raises leaves it as it was too, unless it raised
    [OverflowError] at its second addition: then the cash balance has the
    amount added and nothing else has changed.  A call that returns has
    appended exactly one record. *)
Theorem failing_call_changes_at_most_cash prices o now self :
  let r := fst (run_op prices o now self) in
  let self' := snd (run_op prices o now self) in
  match r with
  | Return _ => exists tx, _transactions self' = (_transactions self ++ [tx])%list
  | Raise e =>
      match o with
      | Deposit amount =>
          self' = self \/
          (e = OverflowError /\
           exists a cash,
             amount = PyNum a /\
             add (_cash_balance self) a = Some cash /\
             add (_total_deposits self) a = None /\
             self' = with_cash_balance cash self)
      | Withdraw _ | Buy _ _ | Sell _ _ => self' = self
      end
  end.
Proof.
  cbv zeta. destruct (run_op prices o now self) as [r self'] eqn:E.
  pose proof (run_op_all_or_nothing prices o now self r self' E) as H.
  cbn [fst snd]. destruct r as [[]|e]; [exact H|].
  destruct H as [H|(He & a & cash & Ho & Hc & Ht & Hs)].
  - destruct o; auto.
  - subst o. right. split; [exact He|]. exists a, cash. auto.
Qed.

(** With float balances the second addition of [deposit] raises only when
    the first has raised. *)
Lemma run_op_float_balances prices o now self r self' :
  is_float (_cash_balance self) = true ->
  is_float (_total_deposits self) = true ->
  run_op prices o now self = (r, self') ->
  is_float (_cash_balance self') = true /\
  is_float (_total_deposits self') = true /\
  match r with
  | Return _ => exists tx, _transactions self' = (_transactions self ++ [tx])%list
  | Raise _ => self' = self
  end.
Proof.
  intros Hc Ht E.
  destruct (_cash_balance self) as [z|c] eqn:Ec; [discriminate|].
  destruct (_total_deposits self) as [z|t] eqn:Et; [discriminate|].
  destruct r as [[]|e].
  - split; [|split; [|exact (run_op_all_or_nothing _ _ _ _ _ _ E)]].
    + destruct (run_op_returns _ _ _ _ _ E)
        as [(a & cash & total & _ & _ & Ha & _ & ->)
           |[(a & cash & _ & _ & _ & Ha & ->)
            |[(s & q & p & cost & cash & _ & _ & _ & _ & _ & Ha & ->)
             |(s & q & p & v & cash & _ & _ & _ & _ & _ & Ha & ->)]]];
        reduce_M; rewrite Ec in Ha;
        apply arith_float in Ha; try reflexivity;
        destruct Ha as (x & y & _ & _ & ->); reflexivity.
    + destruct (run_op_returns _ _ _ _ _ E)
        as [(a & cash & total & _ & _ & _ & Ha & ->)
           |[(a & cash & _ & _ & _ & _ & ->)
            |[(s & q & p & cost & cash & _ & _ & _ & _ & _ & _ & ->)
             |(s & q & p & v & cash & _ & _ & _ & _ & _ & _ & ->)]]];
        reduce_M; try (rewrite Et; reflexivity).
      rewrite Et in Ha. apply arith_float in Ha; [|reflexivity].
      destruct Ha as (x & y & _ & _ & ->). reflexivity.
  - destruct (run_op_all_or_nothing _ _ _ _ _ _ E)
      as [->|(_ & a & cash & _ & Ha & Hb & _)].
    + rewrite Ec, Et. auto.
    + exfalso. rewrite Ec in Ha. rewrite Et in Hb.
      apply arith_float in Ha; [|reflexivity].
      destruct Ha as (x & y & _ & Hy & _).
      unfold add, arith in Hb. cbn [to_float] in Hb. rewrite Hy in Hb.
      destruct a; discriminate.
Qed.

(** X2.  When the cash balance and the total of the deposits are floats (an
    account opened with a float and used in any way keeps them so), every
    call is all-or-nothing: it returns after appending exactly one record,
    or raises and leaves the account exactly as it was; and both balances
    are floats afterwards. *)
Theorem float_balances_all_or_nothing prices o now self r self' :
  is_float (_cash_balance self) = true ->
  is_float (_total_deposits self) = true ->
  run_op prices o now self = (r, self') ->
  is_float (_cash_balance self') = true /\
  is_float (_total_deposits self') = true /\
  match r with
  | Return _ => exists tx, _transactions self' = (_transactions self ++ [tx])%list
  | Raise _ => self' = self
  end.
Proof.
  intros Hc Ht E.
  destruct (run_op_float_balances prices o now self r self' Hc Ht E) as (Hc' & Ht' & H).
  split; [exact Hc'|]. split; [exact Ht'|exact H].
Qed.

Lemma float_balances_all_or_nothing_witness :
  let self := {| _account_id := "acc"; _user_name := "user";
                 _cash_balance := Float 10000; _total_deposits := Float 10000;
                 _holdings := [];
                 _transactions :=
                   [make_transaction "t0" DEPOSIT None None None (Float 10000)] |} in
  run_op _test_prices (Deposit (PyNum (Int (10 ^ 400)))) "t1" self
    = (Raise OverflowError, self) /\
  is_float (_cash_balance self) = true /\
  is_float (_total_deposits self) = true.
Proof.
  intros self.
  assert (E : run_op _test_prices (Deposit (PyNum (Int (10 ^ 400)))) "t1" self
              = (Raise OverflowError, self)) by (vm_compute; reflexivity).
  split; [exact E|].
  destruct (float_balances_all_or_nothing _ _ _ self _ _ eq_refl eq_refl E)
    as (Hc & Ht & _).
  split; [exact Hc|exact Ht].
Defined.
(** ** The transaction log *)

Lemma run_op_raise_keeps prices o now self e self' :
  run_op prices o now self = (Raise e, self') ->
  _transactions self' = _transactions self /\
  _holdings self' = _holdings self /\
  _total_deposits self' = _total_deposits self /\
  _account_id self' = _account_id self /\
  _user_name self' = _user_name self.
Proof.
  intros E.
  destruct (run_op_all_or_nothing _ _ _ _ _ _ E)
    as [->|(_ & a & cash & _ & _ & _ & ->)]; repeat split.
Qed.

(** X3.  The log is append-only and counts the calls that returned: after
    any sequence of calls the log is the log before it followed by one
    record for each call that returned (none for a call that raised), and
    the account id and the user name are what they were. *)
Theorem log_grows_by_returned_calls prices calls self :
  exists added,
    _transactions (run_calls prices calls self) = (_transactions self ++ added)%list /\
    List.length added = returned_calls prices calls self /\
    _account_id (run_calls prices calls self) = _account_id self /\
    _user_name (run_calls prices calls self) = _user_name self.
Proof.
  revert self. induction calls as [|[o now] rest IH]; intros self.
  - exists []. simpl. rewrite app_nil_r. auto.
  - simpl. destruct (run_op prices o now self) as [r self'] eqn:E. cbn [snd].
    destruct (IH self') as (added & Hlog & Hlen & Hid & Hname).
    destruct r as [[]|e].
    + destruct (run_op_all_or_nothing _ _ _ _ _ _ E) as [tx Htx].
      exists (tx :: added). rewrite Hlog, Htx, <- app_assoc. simpl.
      split; [reflexivity|]. split; [now rewrite Hlen|].
      destruct (run_op_returns _ _ _ _ _ E)
        as [(a & cash & total & _ & _ & _ & _ & Hs)
           |[(a & cash & _ & _ & _ & _ & Hs)
            |[(s & q & p & cost & cash & _ & _ & _ & _ & _ & _ & Hs)
             |(s & q & p & v & cash & _ & _ & _ & _ & _ & _ & Hs)]]];
        rewrite Hid, Hname, Hs; split; reflexivity.
    + destruct (run_op_raise_keeps _ _ _ _ _ _ E) as (Htx & _ & _ & Hid' & Hname').
      exists added. rewrite Hlog, Htx, Hid, Hname. auto.
Qed.

(** For instance the account of the tests, opened with 10000.0, has two
    records after its first deposit: the one of the initial deposit and the
    one of the call. *)
Lemma log_after_the_first_deposit :
  exists self,
    open_account "acc123" "Test User" (Float 10000) "t0" _test_prices
      [(Deposit (PyNum (Float 500)), "t1")] = Some self /\
    get_cash_balance self = Float 10500 /\
    List.length (get_transaction_history self) = 2%nat.
Proof. eexists. split; [vm_compute; reflexivity|]. split; reflexivity. Qed.

(** X4.  What a call never touches, whether it returns or raises: no call
    changes the account id or the user name; [deposit] and [withdraw] leave
    the holdings alone; [withdraw], [buy_shares] and [sell_shares] leave the
    total of the deposits alone. *)
Theorem calls_touch_only_their_fields prices o now self :
  let self' := snd (run_op prices o now self) in
  _account_id self' = _account_id self /\
  _user_name self' = _user_name self /\
  match o with
  | Deposit _ => _holdings self' = _holdings self
  | Withdraw _ =>
      _holdings self' = _holdings self /\
      _total_deposits self' = _total_deposits self
  | Buy _ _ | Sell _ _ => _total_deposits self' = _total_deposits self
  end.
Proof.
  cbv zeta. destruct (run_op prices o now self) as [r self'] eqn:E. cbn [snd].
  destruct r as [[]|e].
  - destruct (run_op_returns _ _ _ _ _ E)
      as [(a & cash & total & -> & _ & _ & _ & ->)
         |[(a & cash & -> & _ & _ & _ & ->)
          |[(s & q & p & cost & cash & -> & _ & _ & _ & _ & _ & ->)
           |(s & q & p & v & cash & -> & _ & _ & _ & _ & _ & ->)]]];
      repeat split.
  - destruct (run_op_raise_keeps _ _ _ _ _ _ E) as (_ & Hh & Ht & Hid & Hname).
    split; [exact Hid|]. split; [exact Hname|]. destruct o; auto.
Qed.

(** X5.  A call that returns is recorded as it was made: the record
    appended carries the clock reading of the call and its kind; for a
    deposit or a withdrawal the amount passed and no symbol, quantity or
    price; for a purchase or a sale the symbol in upper case, the quantity
    passed, the price the lookup gave and their product as the amount. *)
Theorem returning_call_is_recorded prices o now self self' :
  run_op prices o now self = (Return tt, self') ->
  exists tx,
    _transactions self' = (_transactions self ++ [tx])%list /\
    tx_timestamp tx = now /\
    match o with
    | Deposit amount =>
        tx_type_of tx = DEPOSIT /\ amount = PyNum (tx_total_amount tx) /\
        tx_symbol tx = None /\ tx_quantity tx = None /\ tx_price_per_share tx = None
    | Withdraw amount =>
        tx_type_of tx = WITHDRAW /\ amount = PyNum (tx_total_amount tx) /\
        tx_symbol tx = None /\ tx_quantity tx = None /\ tx_price_per_share tx = None
    | Buy symbol quantity =>
        tx_type_of tx = BUY /\
        tx_symbol tx = (if String.eqb symbol "" then None else Some (upper symbol)) /\
        exists q price,
          quantity = PyNum (Int q) /\ tx_quantity tx = Some q /\
          get_share_price prices symbol = Return price /\
          tx_price_per_share tx = Some price /\
          mul (Float price) (Int q) = Some (tx_total_amount tx)
    | Sell symbol quantity =>
        tx_type_of tx = SELL /\
        tx_symbol tx = (if String.eqb symbol "" then None else Some (upper symbol)) /\
        exists q price,
          quantity = PyNum (Int q) /\ tx_quantity tx = Some q /\
          get_share_price prices symbol = Return price /\
          tx_price_per_share tx = Some price /\
          mul (Float price) (Int q) = Some (tx_total_amount tx)
    end.
Proof.
  intros E.
  destruct (run_op_returns _ _ _ _ _ E)
    as [(a & cash & total & -> & _ & _ & _ & ->)
       |[(a & cash & -> & _ & _ & _ & ->)
        |[(s & q & p & cost & cash & -> & _ & Hp & Hm & _ & _ & ->)
         |(s & q & p & v & cash & -> & _ & _ & Hp & Hm & _ & ->)]]];
    eexists; (split; [reflexivity|]); (split; [reflexivity|]); cbn.
  - repeat split.
  - repeat split.
  - split; [reflexivity|]. split; [destruct s; reflexivity|].
    exists q, p. repeat split; assumption.
  - split; [reflexivity|]. split; [destruct s; reflexivity|].
    exists q, p. repeat split; assumption.
Qed.

Lemma returning_call_is_recorded_witness :
  exists self' tx,
    run_op _test_prices (Buy "tsla" (PyNum (Int 2))) "t1"
      {| _account_id := "acc"; _user_name := "user";
         _cash_balance := Float 10000; _total_deposits := Float 10000;
         _holdings := []; _transactions := [] |} = (Return tt, self') /\
    _transactions self' = [tx] /\
    tx_timestamp tx = "t1" /\ tx_type_of tx = BUY /\ tx_symbol tx = Some "TSLA".
Proof.
  pose (self := {| _account_id := "acc"; _user_name := "user";
                   _cash_balance := Float 10000; _total_deposits := Float 10000;
                   _holdings := []; _transactions := [] |}).
  pose (o := Buy "tsla" (PyNum (Int 2))).
  assert (E : run_op _test_prices o "t1" self
              = (Return tt, snd (run_op _test_prices o "t1" self)))
    by (vm_compute; reflexivity).
  destruct (returning_call_is_recorded _test_prices o "t1" self _ E)
    as (tx & Hlog & Hnow & Htype & Hsymbol & _).
  exists (snd (run_op _test_prices o "t1" self)), tx.
  split; [exact E|]. split; [exact Hlog|].
  split; [exact Hnow|]. split; [exact Htype|exact Hsymbol].
Defined.
Lemma gtb_zero_not_leb (a : num) : gtb a (Int 0) = true -> leb a (Int 0) = false.
Proof.
  intros H. rewrite leb_zero_not_gtb, H; [reflexivity|].
  apply NonNeg_not_nan, gtb_zero_NonNeg, H.
Qed.

Lemma make_transaction_trade_wf now type symbol quantity price total :
  type = BUY \/ type = SELL ->
  0 < quantity -> mul (Float price) (Int quantity) = Some total ->
  transaction_wf (make_transaction now type (Some symbol) (Some quantity) (Some price) total).
Proof.
  intros Ht Hq Hm. unfold transaction_wf.
  assert (H : exists q p,
            Some quantity = Some q /\ 0 < q /\ Some price = Some p /\
            mul (Float p) (Int q) = Some total /\
            match tx_symbol (make_transaction now type (Some symbol) (Some quantity)
                               (Some price) total) with
            | Some s => upper s = s /\ s <> ""
            | None => True
            end).
  { exists quantity, price. repeat split; try assumption.
    destruct symbol as [|c r]; cbn [make_transaction tx_symbol]; [exact I|].
    split; [apply upper_idem|]. simpl. discriminate. }
  destruct Ht as [-> | ->]; exact H.
Qed.

(** X6.  Every record in the log of a reachable account is well formed: a
    DEPOSIT or WITHDRAW record has an amount that is not [<= 0] and no
    symbol, quantity or price; a BUY or SELL record has a positive quantity,
    a price, the product of the two as its amount, and a symbol in upper
    case (or none, for the empty symbol). *)
Theorem log_records_well_formed self :
  reachable self -> Forall transaction_wf (_transactions self).
Proof.
  induction 1 as [account_id user_name initial_deposit now self Hinit
                 |prices o now self r self' _ IH Hrun].
  - rewrite init_eq in Hinit.
    destruct (ltb initial_deposit (Int 0)); [discriminate|].
    destruct (gtb initial_deposit (Int 0)) eqn:G; injection Hinit as <-;
      cbn [_transactions]; [|apply Forall_nil].
    apply Forall_cons; [|apply Forall_nil].
    unfold transaction_wf. cbn. repeat split. apply gtb_zero_not_leb, G.
  - destruct r as [[]|e].
    + destruct (run_op_returns _ _ _ _ _ Hrun)
        as [(a & cash & total & _ & Ha & _ & _ & ->)
           |[(a & cash & _ & Ha & _ & _ & ->)
            |[(s & q & p & cost & cash & _ & Hq & _ & Hm & _ & _ & ->)
             |(s & q & p & v & cash & _ & Hq & _ & _ & Hm & _ & ->)]]];
        cbn [_transactions with_transactions]; apply Forall_app; (split; [exact IH|]);
        (apply Forall_cons; [|apply Forall_nil]).
      * unfold transaction_wf. cbn. repeat split. exact Ha.
      * unfold transaction_wf. cbn. repeat split. exact Ha.
      * apply make_transaction_trade_wf; auto.
      * apply make_transaction_trade_wf; auto.
    + destruct (run_op_raise_keeps _ _ _ _ _ _ Hrun) as (-> & _). exact IH.
Qed.

Lemma log_records_well_formed_witness :
  exists self,
    account_after_round_trip = Some self /\
    List.length (_transactions self) = 3%nat /\
    Forall transaction_wf (_transactions self).
Proof.
  destruct account_after_round_trip as [self|] eqn:E; [|discriminate E].
  pose proof (open_account_reachable _ _ _ _ _ _ _ E) as Hr.
  vm_compute in E. injection E as <-.
  eexists. split; [reflexivity|]. split; [reflexivity|].
  exact (log_records_well_formed _ Hr).
Defined.

(** ** The holdings and the log *)

Lemma net_quantity_app symbol log tx :
  net_quantity symbol (log ++ [tx]) = net_quantity symbol log + traded_quantity symbol tx.
Proof. unfold net_quantity. rewrite fold_left_app. reflexivity. Qed.

Lemma traded_quantity_no_symbol symbol now type amount :
  traded_quantity symbol (make_transaction now type None None None amount) = 0.
Proof. reflexivity. Qed.

Lemma traded_quantity_trade k now type symbol quantity price total :
  k <> "" ->
  traded_quantity k
    (make_transaction now type (Some symbol) (Some quantity) (Some price) total) =
  if String.eqb (upper symbol) k then
    match type with BUY => quantity | SELL => - quantity | _ => 0 end
  else 0.
Proof.
  intros Hk. unfold traded_quantity. destruct symbol as [|c r]; cbn.
  - destruct k; [contradiction|reflexivity].
  - reflexivity.
Qed.

Lemma shares_owned_get symbol self :
  shares_owned symbol self =
  match PyDict.get (upper symbol) (_holdings self) with Some v => v | None => 0 end.
Proof. reflexivity. Qed.

(** X7.  The holdings agree with the log: in every reachable account the
    number of shares held of a symbol (any but the empty one, which the
    records leave out) is the sum of the quantities of the BUY records of
    that symbol less the sum of the quantities of its SELL records
    (integers, so exactly). *)
Theorem holdings_are_the_net_of_the_log self :
  reachable self ->
  forall symbol, symbol <> "" ->
    shares_owned symbol self = net_quantity (upper symbol) (_transactions self).
Proof.
  intros Hreach.
  induction Hreach as [account_id user_name initial_deposit now self Hinit
                      |prices o now self r self' Hreach IH Hrun];
    intros symbol Hne.
  - rewrite init_eq in Hinit.
    destruct (ltb initial_deposit (Int 0)); [discriminate|].
    destruct (gtb initial_deposit (Int 0)); injection Hinit as <-; reflexivity.
  - assert (Hk : upper symbol <> "") by (rewrite upper_empty; exact Hne).
    pose proof (reachable_holdings_wf _ Hreach) as [Hnd _].
    specialize (IH symbol Hne).
    destruct r as [[]|e].
    2:{ destruct (run_op_raise_keeps _ _ _ _ _ _ Hrun) as (Ht & Hh & _).
        unfold shares_owned in *. rewrite Ht, Hh. exact IH. }
    destruct (run_op_returns _ _ _ _ _ Hrun)
      as [(a & cash & total & _ & _ & _ & _ & ->)
         |[(a & cash & _ & _ & _ & _ & ->)
          |[(s & q & p & cost & cash & _ & Hq & _ & _ & _ & _ & ->)
           |(s & q & p & v & cash & _ & Hq & Hown & _ & _ & _ & ->)]]];
      cbn [_transactions with_transactions]; rewrite net_quantity_app, <- IH.
    + rewrite traded_quantity_no_symbol. unfold shares_owned. cbn. lia.
    + rewrite traded_quantity_no_symbol. unfold shares_owned. cbn. lia.
    + rewrite traded_quantity_trade by exact Hk.
      rewrite (shares_owned_get symbol). cbn [_holdings with_holdings with_transactions].
      destruct (String.eqb_spec (upper s) (upper symbol)) as [Heq|Hneq].
      * rewrite <- Heq, get_set_same. unfold shares_owned. rewrite Heq. reflexivity.
      * rewrite get_set_other by congruence. unfold shares_owned. lia.
    + rewrite traded_quantity_trade by exact Hk.
      rewrite (shares_owned_get symbol). cbn [_holdings with_holdings with_transactions].
      destruct (String.eqb_spec (upper s) (upper symbol)) as [Heq|Hneq].
      * rewrite <- Heq.
        destruct (Z.eqb_spec (shares_owned s self - q) 0) as [Hz|Hz].
        -- rewrite get_del_same by (apply NoDup_set; exact Hnd).
           unfold shares_owned in *. rewrite <- Heq. lia.
        -- rewrite get_set_same. unfold shares_owned. rewrite Heq. lia.
      * destruct (shares_owned s self - q =? 0).
        -- rewrite get_del_other, get_set_other by congruence. unfold shares_owned. lia.
        -- rewrite get_set_other by congruence. unfold shares_owned. lia.
Qed.

Lemma holdings_are_the_net_of_the_log_witness :
  exists self,
    account_after_buying_aapl (Float 10000) = Some self /\
    shares_owned "aapl" self = 10 /\
    net_quantity "AAPL" (_transactions self) = 10.
Proof.
  destruct (account_after_buying_aapl (Float 10000)) as [self|] eqn:E;
    [|discriminate E].
  pose proof (open_account_reachable _ _ _ _ _ _ _ E) as Hr.
  vm_compute in E. injection E as <-.
  eexists. split; [reflexivity|]. split; [reflexivity|].
  assert (Hne : "aapl" <> "") by discriminate.
  etransitivity;
    [symmetry; exact (holdings_are_the_net_of_the_log _ Hr "aapl" Hne)|reflexivity].
Defined.
(** ** Exceptions *)

(** What a sale of more than is owned raises is an
    [InsufficientSharesError], or the [ValueError] of a number too long to
    print. *)
Lemma documented_insufficient_shares symbol q quantity normalized_symbol owned :
  documented (Sell symbol q)
    (insufficient_shares_error quantity normalized_symbol owned) = true.
Proof.
  unfold insufficient_shares_error.
  destruct (str_of_int quantity), (str_of_int owned); reflexivity.
Qed.

Lemma run_op_raises prices o now self e self' :
  run_op prices o now self = (Raise e, self') ->
  documented o e = true \/ e = OverflowError.
Proof.
  destruct o as [[amount|s]|[amount|s]|symbol [[quantity|f]|s]|symbol [[quantity|f]|s]];
    unfold run_op;
    try (unfold deposit, withdraw, buy_shares, sell_shares, raise;
         intros [= <- <-]; now left).
  - rewrite deposit_eq.
    destruct (leb amount (Int 0)); [intros [= <- <-]; now left|].
    destruct (add (_cash_balance self) amount); [|intros [= <- <-]; now right].
    destruct (add (_total_deposits self) amount); [discriminate|].
    intros [= <- <-]; now right.
  - rewrite withdraw_eq.
    destruct (leb amount (Int 0)); [intros [= <- <-]; now left|].
    destruct (gtb amount (_cash_balance self)).
    + destruct (to_float amount), (to_float (_cash_balance self));
        intros [= <- <-]; auto.
    + destruct (sub (_cash_balance self) amount); [discriminate|].
      intros [= <- <-]; now right.
  - rewrite buy_shares_eq.
    destruct (quantity <=? 0); [intros [= <- <-]; now left|].
    destruct (get_share_price prices symbol) as [price|e'] eqn:Hp.
    2:{ destruct (get_share_price_raises _ _ _ Hp) as [msg ->].
        intros [= <- <-]; now left. }
    destruct (mul (Float price) (Int quantity)) as [total_cost|];
      [|intros [= <- <-]; now right].
    destruct (gtb total_cost (_cash_balance self)).
    + destruct (to_float total_cost), (to_float (_cash_balance self));
        intros [= <- <-]; auto.
    + destruct (sub (_cash_balance self) total_cost); [discriminate|].
      intros [= <- <-]; now right.
  - rewrite sell_shares_eq.
    destruct (quantity <=? 0); [intros [= <- <-]; now left|].
    destruct (quantity >? shares_owned symbol self).
    { intros [= <- <-]. left. apply documented_insufficient_shares. }
    destruct (get_share_price prices symbol) as [price|e'] eqn:Hp.
    2:{ destruct (get_share_price_raises _ _ _ Hp) as [msg ->].
        intros [= <- <-]; now left. }
    destruct (mul (Float price) (Int quantity)) as [total_value|];
      [|intros [= <- <-]; now right].
    destruct (add (_cash_balance self) total_value); [discriminate|].
    intros [= <- <-]; now right.
Qed.

(** X8.  A call raises nothing but the exceptions its docstring lists, and
    [OverflowError]: [deposit] raises [ValueError]; [withdraw] raises
    [ValueError] or [InsufficientFundsError]; [buy_shares] raises
    [ValueError], [UnknownSymbolError] or [InsufficientFundsError];
    [sell_shares] raises [ValueError] (also the one of a quantity too long
    to print in the message of its [InsufficientSharesError]),
    [UnknownSymbolError] or [InsufficientSharesError].  In particular the
    subscript
    [self._holdings[normalized_symbol]] of [sell_shares] never raises
    [KeyError]. *)
Theorem calls_raise_documented_or_overflow prices o now self e self' :
  run_op prices o now self = (Raise e, self') ->
  documented o e = true \/ e = OverflowError.
Proof.
  intros E.
  destruct (run_op_raises prices o now self e self' E) as [H|H].
  - left. exact H.
  - right. exact H.
Qed.

Lemma calls_raise_documented_or_overflow_witness :
  let self := {| _account_id := "acc"; _user_name := "user";
                 _cash_balance := Float 100; _total_deposits := Float 100;
                 _holdings := []; _transactions := [] |} in
  run_op _test_prices (Withdraw (PyNum (Int (10 ^ 400)))) "t1" self
    = (Raise OverflowError, self) /\
  (documented (Withdraw (PyNum (Int (10 ^ 400)))) OverflowError = true \/
   OverflowError = OverflowError).
Proof.
  intros self.
  assert (E : run_op _test_prices (Withdraw (PyNum (Int (10 ^ 400)))) "t1" self
              = (Raise OverflowError, self)) by (vm_compute; reflexivity).
  split; [exact E|].
  exact (calls_raise_documented_or_overflow _ _ _ _ _ _ E).
Defined.

Lemma buy_positive_no_ValueError prices symbol q now self :
  0 < q ->
  raises_ValueError (buy_shares prices symbol (PyNum (Int q)) now self) = false.
Proof.
  intros Hq. rewrite buy_shares_eq. destruct (Z.leb_spec q 0); [lia|].
  unfold raises_ValueError.
  destruct (get_share_price prices symbol) as [price|e] eqn:Hp.
  2:{ destruct (get_share_price_raises _ _ _ Hp) as [msg ->]. reflexivity. }
  destruct (mul (Float price) (Int q)) as [total_cost|]; [|reflexivity].
  destruct (gtb total_cost (_cash_balance self)).
  - destruct (to_float total_cost), (to_float (_cash_balance self)); reflexivity.
  - destruct (sub (_cash_balance self) total_cost); reflexivity.
Qed.

(** X9.  [buy_shares] and [sell_shares] refuse a quantity with their
    [ValueError] ("Quantity to buy must be a positive integer.", "Quantity
    to sell must be a positive integer.") if and only if the quantity is not
    a positive integer (a float is refused even when it is a whole number);
    they refuse it before anything else is looked at, whatever the symbol,
    and leave the account as it was.  With a positive integer [buy_shares]
    raises no [ValueError] at all. *)
Theorem invalid_quantity_iff_not_positive_int prices symbol quantity now self :
  (buy_shares prices symbol quantity now self
     = (Raise (ValueError "Quantity to buy must be a positive integer."), self)
   <-> positive_int quantity = false) /\
  (sell_shares prices symbol quantity now self
     = (Raise (ValueError "Quantity to sell must be a positive integer."), self)
   <-> positive_int quantity = false) /\
  raises_ValueError (buy_shares prices symbol quantity now self)
    = negb (positive_int quantity).
Proof.
  destruct quantity as [[q|f]|s]; try (repeat split; reflexivity).
  cbn [positive_int]. destruct (Z.ltb_spec 0 q) as [Hq|Hq].
  - pose proof (buy_positive_no_ValueError prices symbol q now self Hq) as Hbuy.
    split; [|split; [|exact Hbuy]].
    + split; [|discriminate]. intros E. rewrite E in Hbuy. discriminate Hbuy.
    + split; [|discriminate]. rewrite sell_shares_eq.
      destruct (Z.leb_spec q 0); [lia|].
      destruct (q >? shares_owned symbol self).
      { unfold insufficient_shares_error, digit_limit_message.
        destruct (str_of_int q), (str_of_int (shares_owned symbol self));
          discriminate. }
      destruct (get_share_price prices symbol) as [price|e] eqn:Hp.
      2:{ destruct (get_share_price_raises _ _ _ Hp) as [msg ->]. discriminate. }
      destruct (mul (Float price) (Int q)) as [total_value|]; [|discriminate].
      destruct (add (_cash_balance self) total_value); discriminate.
  - rewrite buy_shares_eq, sell_shares_eq.
    destruct (Z.leb_spec q 0); [|lia]. repeat split; reflexivity.
Qed.

(** X10.  An overdraft is refused: a withdrawal of a positive amount above
    the cash balance, and a purchase whose cost is above it, raise and
    leave the account as it was.  The exception is
    [InsufficientFundsError], whose message shows the amount asked for and
    the balance; when one of the two is an [int] too large for a double the
    message cannot be formatted and the exception is [OverflowError]. *)
Theorem overdraft_is_refused prices symbol quantity amount now self :
  (leb amount (Int 0) = false ->
   gtb amount (_cash_balance self) = true ->
   withdraw (PyNum amount) now self =
     (match to_float amount, to_float (_cash_balance self) with
      | Some requested, Some balance =>
          Raise (InsufficientFundsError "Cannot withdraw " requested balance)
      | _, _ => Raise OverflowError
      end, self)) /\
  (forall price cost,
     0 < quantity ->
     get_share_price prices symbol = Return price ->
     mul (Float price) (Int quantity) = Some (Float cost) ->
     gtb (Float cost) (_cash_balance self) = true ->
     buy_shares prices symbol (PyNum (Int quantity)) now self =
       (match to_float (_cash_balance self) with
        | Some balance =>
            Raise (InsufficientFundsError
                     ("Cannot buy " ++ decimal quantity ++ " of " ++ upper symbol
                      ++ " for ") cost balance)
        | None => Raise OverflowError
        end, self)).
Proof.
  split.
  - intros Hle Hgt. rewrite withdraw_eq, Hle, Hgt.
    destruct (to_float amount), (to_float (_cash_balance self)); reflexivity.
  - intros price cost Hq Hp Hm Hgt. rewrite buy_shares_eq.
    destruct (Z.leb_spec quantity 0); [lia|].
    rewrite Hp, Hm, Hgt. cbn [to_float].
    destruct (to_float (_cash_balance self)); reflexivity.
Qed.

(** ** Symbols in any case *)

(** X11.  The price lookup ignores the case of the symbol: two spellings
    with the same upper case get the same price, or both fail with
    [UnknownSymbolError], each with the spelling it was given in its
    message. *)
Theorem share_price_ignores_case prices symbol symbol' :
  upper symbol = upper symbol' ->
  match get_share_price prices symbol with
  | Return price => get_share_price prices symbol' = Return price
  | Raise e =>
      e = UnknownSymbolError ("No price data found for symbol: " ++ symbol) /\
      get_share_price prices symbol'
        = Raise (UnknownSymbolError ("No price data found for symbol: " ++ symbol'))
  end.
Proof.
  intros H. unfold get_share_price. rewrite <- H.
  destruct (PyDict.get (upper symbol) prices); auto.
Qed.

Lemma share_price_ignores_case_witness :
  get_share_price _test_prices "gOOgl" = Return 2750%float /\
  get_share_price _test_prices "GOOGL" = Return 2750%float.
Proof.
  split; [reflexivity|].
  exact (share_price_ignores_case _test_prices "gOOgl" "GOOGL" eq_refl).
Defined.

Lemma make_transaction_upper now type symbol symbol' quantity price total :
  upper symbol = upper symbol' ->
  make_transaction now type (Some symbol) quantity price total
  = make_transaction now type (Some symbol') quantity price total.
Proof.
  intros H. unfold make_transaction.
  destruct symbol as [|c r], symbol' as [|c' r']; try discriminate; try reflexivity.
  rewrite H. reflexivity.
Qed.

(** X12.  Trading ignores the case of the symbol: a purchase or a sale made
    under two spellings with the same upper case leaves the same account
    (the same holdings, cash and record), and returns under the one
    spelling exactly when it returns under the other. *)
Theorem trading_ignores_case prices symbol symbol' quantity now self :
  upper symbol = upper symbol' ->
  snd (buy_shares prices symbol quantity now self)
    = snd (buy_shares prices symbol' quantity now self) /\
  snd (sell_shares prices symbol quantity now self)
    = snd (sell_shares prices symbol' quantity now self) /\
  (fst (buy_shares prices symbol quantity now self) = Return tt <->
   fst (buy_shares prices symbol' quantity now self) = Return tt) /\
  (fst (sell_shares prices symbol quantity now self) = Return tt <->
   fst (sell_shares prices symbol' quantity now self) = Return tt).
Proof.
  intros H.
  destruct quantity as [[q|f]|s];
    try (repeat split; try reflexivity; intros; assumption).
  rewrite !buy_shares_eq, !sell_shares_eq.
  assert (Hown : shares_owned symbol' self = shares_owned symbol self)
    by (unfold shares_owned; now rewrite H).
  assert (Hprice : match get_share_price prices symbol with
                   | Return price => get_share_price prices symbol' = Return price
                   | Raise _ => exists e', get_share_price prices symbol' = Raise e'
                   end).
  { unfold get_share_price. rewrite <- H.
    destruct (PyDict.get (upper symbol) prices); eauto. }
  rewrite Hown, <- H.
  destruct (q <=? 0); [repeat split; try reflexivity; intros; assumption|].
  destruct (get_share_price prices symbol) as [price|e].
  - rewrite Hprice.
    destruct (mul (Float price) (Int q)) as [total|];
      [|repeat split; try reflexivity; intros; assumption].
    rewrite (make_transaction_upper now BUY symbol symbol') by exact H.
    rewrite (make_transaction_upper now SELL symbol symbol') by exact H.
    repeat split; try reflexivity; intros; assumption.
  - destruct Hprice as [e' ->].
    destruct (q >? shares_owned symbol self); repeat split; try reflexivity;
      try (intros; assumption); cbn; intros; discriminate.
Qed.

Lemma trading_ignores_case_witness :
  let self := {| _account_id := "acc"; _user_name := "user";
                 _cash_balance := Float 10000; _total_deposits := Float 10000;
                 _holdings := []; _transactions := [] |} in
  upper "Aapl" = upper "aAPL" /\
  snd (buy_shares _test_prices "Aapl" (PyNum (Int 3)) "t1" self)
    = snd (buy_shares _test_prices "aAPL" (PyNum (Int 3)) "t1" self).
Proof.
  intros self. split; [reflexivity|].
  exact (proj1 (trading_ignores_case _test_prices "Aapl" "aAPL" (PyNum (Int 3)) "t1"
                  self eq_refl)).
Defined.
(** ** Balances *)

Lemma sub_diag_float (f : float) :
  sf_finite (Prim2SF f) -> (f - f)%float = 0%float.
Proof.
  intros Hf. rewrite <- (SF2Prim_Prim2SF (f - f)), sub_spec.
  destruct (Prim2SF f) as [s|s| |s m e]; simpl in Hf; try contradiction.
  - destruct s; reflexivity.
  - unfold SF64sub, SFsub. rewrite Z.sub_diag. reflexivity.
Qed.

Lemma ltb_irrefl (a : num) : ltb a a = false.
Proof.
  destruct a as [z|f]; simpl; [apply Z.ltb_irrefl|].
  rewrite ltb_spec. unfold SFltb.
  destruct (Prim2SF f) as [s|s| |s m e] eqn:E; try reflexivity.
  - now destruct s.
  - rewrite SFcompare_refl by discriminate. reflexivity.
Qed.

(** X13.  The whole balance can be withdrawn: when the cash balance is
    finite and above zero, [withdraw(get_cash_balance())] returns and leaves
    a balance of exactly zero (the integer 0 for an [int] balance, 0.0 for
    a [float] one), with the holdings and the total of the deposits as they
    were. *)
Theorem whole_balance_can_be_withdrawn now self :
  is_finite (_cash_balance self) = true ->
  gtb (_cash_balance self) (Int 0) = true ->
  exists self',
    withdraw (PyNum (get_cash_balance self)) now self = (Return tt, self') /\
    _cash_balance self' =
      (match _cash_balance self with Int _ => Int 0 | Float _ => Float 0 end) /\
    eqb (_cash_balance self') (Int 0) = true /\
    _holdings self' = _holdings self /\
    _total_deposits self' = _total_deposits self.
Proof.
  intros Hfin Hpos. unfold get_cash_balance.
  rewrite withdraw_eq, (gtb_zero_not_leb _ Hpos).
  unfold gtb at 1. rewrite ltb_irrefl.
  destruct (_cash_balance self) as [z|f] eqn:Ec.
  - cbn [sub arith]. rewrite Z.sub_diag. eexists. split; [reflexivity|].
    repeat split.
  - unfold sub, arith. cbn [to_float].
    rewrite sub_diag_float by (apply is_finite_spec; exact Hfin).
    eexists. split; [reflexivity|]. repeat split.
Qed.

Lemma whole_balance_can_be_withdrawn_witness :
  exists self',
    withdraw (PyNum (Float 8500)) "t2"
      {| _account_id := "acc"; _user_name := "user";
         _cash_balance := Float 8500; _total_deposits := Float 10000;
         _holdings := [("AAPL", 10)]; _transactions := [] |} = (Return tt, self') /\
    _cash_balance self' = Float 0.
Proof.
  destruct (whole_balance_can_be_withdrawn "t2"
              {| _account_id := "acc"; _user_name := "user";
                 _cash_balance := Float 8500; _total_deposits := Float 10000;
                 _holdings := [("AAPL", 10)]; _transactions := [] |}
              eq_refl eq_refl) as (self' & Hw & Hc & _).
  exists self'. split; [exact Hw|exact Hc].
Defined.

Lemma to_float_init_nonneg_zero (a : num) (x : float) :
  ltb a (Int 0) = false -> is_finite a = true -> to_float a = Some x ->
  sf_finite (Prim2SF x) /\ (x + 0 - x)%float = 0%float.
Proof.
  intros Hlt Hfin Hx.
  pose proof (to_float_finite a x Hfin Hx) as Fx. split; [exact Fx|].
  destruct (Prim2SF x) as [s|s| |s m e] eqn:E; simpl in Fx; try contradiction.
  - rewrite <- (SF2Prim_Prim2SF (x + 0 - x)), sub_spec, add_spec, E.
    destruct s; reflexivity.
  - rewrite add_zero_r by (rewrite E; discriminate).
    apply sub_diag_float. rewrite E. exact I.
Qed.

(** X14.  The constructor refuses exactly the initial deposits below zero.
    A new account has the initial deposit as its cash balance and as the
    total of its deposits, no holdings, and a log with one DEPOSIT record of
    the initial deposit when that is above zero and no record otherwise;
    its portfolio value is 0.0, and when the initial deposit is finite and
    fits a double its total value is the deposit as a double and its profit
    or loss is 0.0. *)
Theorem new_account_has_no_profit account_id user_name initial_deposit now prices :
  match __init__ account_id user_name initial_deposit now with
  | Raise e =>
      ltb initial_deposit (Int 0) = true /\
      e = ValueError "Initial deposit cannot be negative."
  | Return self =>
      ltb initial_deposit (Int 0) = false /\
      _account_id self = account_id /\ _user_name self = user_name /\
      get_cash_balance self = initial_deposit /\
      _total_deposits self = initial_deposit /\
      get_holdings self = [] /\
      get_transaction_history self =
        (if gtb initial_deposit (Int 0)
         then [{| tx_timestamp := now; tx_type_of := DEPOSIT; tx_symbol := None;
                  tx_quantity := None; tx_price_per_share := None;
                  tx_total_amount := initial_deposit |}]
         else []) /\
      get_portfolio_value prices self = Return 0%float /\
      forall x,
        is_finite initial_deposit = true -> to_float initial_deposit = Some x ->
        get_total_value prices self = Return (Float (x + 0)) /\
        get_profit_loss prices self = Return (Float 0)
  end.
Proof.
  rewrite init_eq. destruct (ltb initial_deposit (Int 0)) eqn:Hlt; [auto|].
  split; [reflexivity|]. do 6 (split; [reflexivity|]). split; [reflexivity|].
  intros x Hfin Hx.
  destruct (to_float_init_nonneg_zero _ _ Hlt Hfin Hx) as [Fx Hz].
  unfold get_profit_loss.
  rewrite (total_value_eq prices _ x) by exact Hx.
  unfold get_portfolio_value. cbn [_holdings portfolio_loop _total_deposits].
  split; [reflexivity|].
  unfold sub, arith. cbn [to_float]. 
  destruct initial_deposit as [z|f]; cbn [to_float] in *.
  - rewrite Hx, Hz. reflexivity.
  - injection Hx as ->. rewrite Hz. reflexivity.
Qed.
(** ** Trades and the holdings *)

(** X15.  A purchase that returns moves exactly one holding: the number of
    shares held of the symbol bought (under any spelling) grows by the
    quantity, every other symbol is held as before, the cash balance goes
    down by the cost, which was not above it, and the total of the deposits
    is unchanged. *)
Theorem buy_moves_one_holding prices symbol quantity now self self' :
  buy_shares prices symbol (PyNum (Int quantity)) now self = (Return tt, self') ->
  0 < quantity /\
  shares_owned symbol self' = shares_owned symbol self + quantity /\
  (forall other, upper other <> upper symbol ->
     shares_owned other self' = shares_owned other self) /\
  (exists price cost,
     get_share_price prices symbol = Return price /\
     mul (Float price) (Int quantity) = Some cost /\
     gtb cost (_cash_balance self) = false /\
     sub (_cash_balance self) cost = Some (_cash_balance self')) /\
  _total_deposits self' = _total_deposits self.
Proof.
  intros E.
  destruct (run_op_returns prices (Buy symbol (PyNum (Int quantity))) now self self' E)
    as [(a & cash & total & [=] & _)
       |[(a & cash & [=] & _)
        |[(s & q & p & cost & cash & [= <- <-] & Hq & Hp & Hm & Hgt & Hs & ->)
         |(s & q & p & v & cash & [=] & _)]]].
  split; [exact Hq|]. split; [|split; [|split]].
  - unfold shares_owned at 1. cbn [_holdings with_holdings with_transactions].
    now rewrite get_set_same.
  - intros other Hne. unfold shares_owned.
    cbn [_holdings with_holdings with_transactions]. now rewrite get_set_other.
  - exists p, cost. auto.
  - reflexivity.
Qed.

Lemma buy_moves_one_holding_witness :
  let self := {| _account_id := "acc"; _user_name := "user";
                 _cash_balance := Float 10000; _total_deposits := Float 10000;
                 _holdings := [("TSLA", 1); ("AAPL", 4)]; _transactions := [] |} in
  exists self',
    buy_shares _test_prices "aapl" (PyNum (Int 3)) "t1" self = (Return tt, self') /\
    shares_owned "AAPL" self' = 7 /\ shares_owned "TSLA" self' = 1.
Proof.
  intros self.
  assert (E : buy_shares _test_prices "aapl" (PyNum (Int 3)) "t1" self
              = (Return tt, snd (buy_shares _test_prices "aapl" (PyNum (Int 3)) "t1" self)))
    by (vm_compute; reflexivity).
  destruct (buy_moves_one_holding _ _ _ _ _ _ E) as (_ & Hown & Hother & _).
  eexists. split; [exact E|]. split.
  - exact Hown.
  - apply (Hother "TSLA"). discriminate.
Defined.

(** X16.  A sale that returns moves exactly one holding: the quantity sold
    was not above the shares held, the number of shares held of the symbol
    sold goes down by the quantity, every other symbol is held as before,
    the proceeds are added to the cash balance, and the total of the
    deposits is unchanged. *)
Theorem sell_moves_one_holding prices symbol quantity now self self' :
  reachable self ->
  sell_shares prices symbol (PyNum (Int quantity)) now self = (Return tt, self') ->
  0 < quantity <= shares_owned symbol self /\
  shares_owned symbol self' = shares_owned symbol self - quantity /\
  (forall other, upper other <> upper symbol ->
     shares_owned other self' = shares_owned other self) /\
  (exists price proceeds,
     get_share_price prices symbol = Return price /\
     mul (Float price) (Int quantity) = Some proceeds /\
     add (_cash_balance self) proceeds = Some (_cash_balance self')) /\
  _total_deposits self' = _total_deposits self.
Proof.
  intros Hreach E.
  pose proof (reachable_holdings_wf _ Hreach) as [Hnd _].
  destruct (run_op_returns prices (Sell symbol (PyNum (Int quantity))) now self self' E)
    as [(a & cash & total & [=] & _)
       |[(a & cash & [=] & _)
        |[(s & q & p & cost & cash & [=] & _)
         |(s & q & p & v & cash & [= <- <-] & Hq & Hown & Hp & Hm & Ha & ->)]]].
  split; [lia|]. split; [|split; [|split]].
  - unfold shares_owned at 1. cbn [_holdings with_holdings with_transactions].
    destruct (Z.eqb_spec (shares_owned symbol self - quantity) 0) as [Hz|Hz].
    + rewrite get_del_same by (apply NoDup_set; exact Hnd). lia.
    + now rewrite get_set_same.
  - intros other Hne. unfold shares_owned at 1.
    cbn [_holdings with_holdings with_transactions].
    destruct (shares_owned symbol self - quantity =? 0).
    + now rewrite get_del_other, get_set_other.
    + now rewrite get_set_other.
  - exists p, v. auto.
  - reflexivity.
Qed.

Lemma sell_moves_one_holding_witness :
  exists self self',
    account_after_buying_aapl (Float 10000) = Some self /\
    sell_shares _test_prices "aapl" (PyNum (Int 4)) "t2" self = (Return tt, self') /\
    shares_owned "AAPL" self = 10 /\
    shares_owned "AAPL" self' = 6.
Proof.
  destruct (account_after_buying_aapl (Float 10000)) as [self|] eqn:E;
    [|discriminate E].
  pose proof (open_account_reachable _ _ _ _ _ _ _ E) as Hr.
  vm_compute in E. injection E as <-.
  eexists _, _. split; [reflexivity|].
  match goal with
  | |- ?call = _ /\ _ =>
      assert (Es : call = (Return tt, snd call)) by (vm_compute; reflexivity)
  end.
  destruct (sell_moves_one_holding _ _ _ _ _ _ Hr Es) as (_ & Hown & _).
  split; [exact Es|]. split; [reflexivity|exact Hown].
Defined.
(** ** The derived values *)

Lemma portfolio_loop_nonneg prices items total v :
  positive_prices prices ->
  (forall k q, In (k, q) items -> 0 < q) ->
  NonNeg (Float total) ->
  portfolio_loop prices total items = Return v ->
  NonNeg (Float v).
Proof.
  intros Hprices. revert total.
  induction items as [|[symbol quantity] rest IH]; intros total Hq Ht; simpl.
  - intros [= <-]. exact Ht.
  - destruct (get_share_price prices symbol) as [price|e] eqn:Hp.
    + destruct (float_of_int quantity) as [q|] eqn:Hf; [|discriminate].
      apply IH; [intros k q' HI; apply (Hq k q'); now right|].
      assert (Hm : mul (Float price) (Int quantity) = Some (Float (price * q)))
        by (unfold mul, arith; cbn [to_float]; now rewrite Hf).
      apply (add_nonneg (Float total) (Float (price * q))); [exact Ht| |reflexivity].
      apply (mul_nonneg price quantity); [|apply (Hq symbol quantity); now left|exact Hm].
      apply (Hprices (upper symbol)). apply get_share_price_In. exact Hp.
    + destruct e; try discriminate.
      apply IH; [intros k q' HI; apply (Hq k q'); now right|exact Ht].
Qed.

(** X17.  At positive prices the value of the portfolio of a reachable
    account is never below zero and never a NaN, and neither is its total
    value when its cash balance is not below zero. *)
Theorem portfolio_value_not_below_zero prices self :
  reachable self -> positive_prices prices ->
  (forall v, get_portfolio_value prices self = Return v -> geb (Float v) (Int 0) = true) /\
  (forall t, geb (_cash_balance self) (Int 0) = true ->
     get_total_value prices self = Return t -> geb t (Int 0) = true).
Proof.
  intros Hreach Hprices.
  pose proof (reachable_holdings_wf _ Hreach) as [_ Hwf].
  assert (Hpv : forall v, get_portfolio_value prices self = Return v -> NonNeg (Float v)).
  { intros v Hv. unfold get_portfolio_value in Hv.
    apply (portfolio_loop_nonneg prices (_holdings self) 0%float v Hprices);
      [intros k q HI; apply (Hwf k q HI)|reflexivity|exact Hv]. }
  split; [exact Hpv|].
  intros t Hc Ht. unfold get_total_value in Ht.
  destruct (get_portfolio_value prices self) as [pv|e]; [|discriminate].
  unfold get_cash_balance in Ht.
  destruct (add (_cash_balance self) (Float pv)) as [v|] eqn:Ha; [|discriminate].
  injection Ht as <-.
  exact (add_nonneg _ _ _ Hc (Hpv pv eq_refl) Ha).
Qed.

Lemma portfolio_value_not_below_zero_witness :
  exists self,
    account_after_buying_aapl (Float 10000) = Some self /\
    get_portfolio_value _test_prices self = Return 1500%float /\
    geb (Float 1500) (Int 0) = true.
Proof.
  destruct (account_after_buying_aapl (Float 10000)) as [self|] eqn:E;
    [|discriminate E].
  pose proof (open_account_reachable _ _ _ _ _ _ _ E) as Hr.
  vm_compute in E. injection E as <-.
  assert (Hp : positive_prices _test_prices).
  { intros symbol price [[= <- <-]|[[= <- <-]|[[= <- <-]|[]]]]; reflexivity. }
  eexists. split; [reflexivity|].
  assert (Hv : get_portfolio_value _test_prices
                 {| _account_id := "acc123"; _user_name := "Test User";
                    _cash_balance := Float 8500; _total_deposits := Float 10000;
                    _holdings := [("AAPL", 10)];
                    _transactions :=
                      [make_transaction "t0" DEPOSIT None None None (Float 10000);
                       make_transaction "t1" BUY (Some "AAPL") (Some 10)
                         (Some 150%float) (Float 1500)] |} = Return 1500%float)
    by (vm_compute; reflexivity).
  split; [exact Hv|].
  exact (proj1 (portfolio_value_not_below_zero _ _ Hr Hp) _ Hv).
Defined.

Lemma portfolio_loop_raises prices items total e :
  portfolio_loop prices total items = Raise e -> e = OverflowError.
Proof.
  revert total. induction items as [|[symbol quantity] rest IH]; intros total; simpl.
  - discriminate.
  - destruct (get_share_price prices symbol) as [price|e'] eqn:Hp.
    + destruct (float_of_int quantity); [apply IH|]. now intros [= <-].
    + destruct (get_share_price_raises _ _ _ Hp) as [msg ->]. apply IH.
Qed.

Lemma get_total_value_raises prices self e :
  get_total_value prices self = Raise e -> e = OverflowError.
Proof.
  unfold get_total_value.
  destruct (get_portfolio_value prices self) as [pv|e'] eqn:E.
  - destruct (add (get_cash_balance self) (Float pv)); [discriminate|].
    now intros [= <-].
  - intros [= <-]. exact (portfolio_loop_raises _ _ _ _ E).
Qed.

Lemma get_profit_loss_raises prices self e :
  get_profit_loss prices self = Raise e -> e = OverflowError.
Proof.
  unfold get_profit_loss.
  destruct (get_total_value prices self) as [tv|e'] eqn:E.
  - destruct (sub tv (_total_deposits self)); [discriminate|]. now intros [= <-].
  - intros [= <-]. exact (get_total_value_raises _ _ _ E).
Qed.

(** X18.  [get_portfolio_value], [get_total_value] and [get_profit_loss]
    raise nothing but [OverflowError] (an [int] too large for a double), in
    any state and at any prices; and all three return when every quantity
    held fits a double and the cash balance and the total of the deposits
    are floats. *)
Theorem values_raise_only_overflow prices self :
  (forall e, get_portfolio_value prices self = Raise e -> e = OverflowError) /\
  (forall e, get_total_value prices self = Raise e -> e = OverflowError) /\
  (forall e, get_profit_loss prices self = Raise e -> e = OverflowError) /\
  (quantities_fit_double (_holdings self) ->
   is_float (_cash_balance self) = true ->
   is_float (_total_deposits self) = true ->
   exists pv tv pl,
     get_portfolio_value prices self = Return pv /\
     get_total_value prices self = Return (Float tv) /\
     get_profit_loss prices self = Return (Float pl)).
Proof.
  split; [intros e; apply portfolio_loop_raises|].
  split; [intros e; apply get_total_value_raises|].
  split; [intros e; apply get_profit_loss_raises|].
  intros Hfit Hc Ht.
  destruct (_cash_balance self) as [z|c] eqn:Ec; [discriminate|].
  destruct (_total_deposits self) as [z|t] eqn:Et; [discriminate|].
  assert (E : get_portfolio_value prices self
              = Return (portfolio_sum prices (_holdings self))).
  { unfold get_portfolio_value, portfolio_sum.
    apply portfolio_loop_sum; [exact Hfit|discriminate]. }
  unfold get_profit_loss, get_total_value, get_cash_balance.
  rewrite E, Ec, Et. unfold add, sub, arith. cbn [to_float].
  eexists _, _, _. repeat split; reflexivity.
Qed.
(** X19.  The total of the deposits is never below zero and never a NaN in
    the states reached from an initial deposit that is not below zero by
    calls that pass no NaN as an amount. *)
Theorem total_deposits_not_below_zero self :
  reachable_without_nan self -> geb (_total_deposits self) (Int 0) = true.
Proof.
  induction 1 as [account_id user_name initial_deposit now self Hinit Hge
                 |prices o now self r self' _ IH Hnan Hrun].
  - rewrite init_eq in Hinit.
    destruct (ltb initial_deposit (Int 0)); [discriminate|].
    injection Hinit as <-. exact Hge.
  - destruct r as [[]|e].
    + destruct (run_op_returns _ _ _ _ _ Hrun)
        as [(a & cash & total & -> & Ha & _ & Ht & ->)
           |[(a & cash & _ & _ & _ & _ & ->)
            |[(s & q & p & cost & cash & _ & _ & _ & _ & _ & _ & ->)
             |(s & q & p & v & cash & _ & _ & _ & _ & _ & _ & ->)]]];
        try exact IH.
      cbn [_total_deposits with_transactions with_total_deposits].
      apply (add_nonneg _ _ _ IH (positive_amount_NonNeg a Hnan Ha) Ht).
    + destruct (run_op_raise_keeps _ _ _ _ _ _ Hrun) as (_ & _ & -> & _). exact IH.
Qed.

Lemma total_deposits_not_below_zero_witness :
  exists self,
    reachable_without_nan self /\
    _total_deposits self = Float 10500 /\
    geb (_total_deposits self) (Int 0) = true.
Proof.
  pose (s0 := {| _account_id := "acc123"; _user_name := "Test User";
                 _cash_balance := Float 10000; _total_deposits := Float 10000;
                 _holdings := [];
                 _transactions :=
                   [make_transaction "t0" DEPOSIT None None None (Float 10000)] |}).
  pose (o := Deposit (PyNum (Float 500))).
  assert (H0 : reachable_without_nan s0).
  { eapply without_nan_init with (initial_deposit := Float 10000) (now := "t0");
      [vm_compute; reflexivity|reflexivity]. }
  assert (H1 : reachable_without_nan (snd (run_op _test_prices o "t1" s0))).
  { apply (without_nan_step _test_prices o "t1" s0 (fst (run_op _test_prices o "t1" s0)) _
             H0 eq_refl).
    apply surjective_pairing. }
  exists (snd (run_op _test_prices o "t1" s0)).
  split; [exact H1|]. split; [vm_compute; reflexivity|].
  exact (total_deposits_not_below_zero _ H1).
Defined.

(** ** Holdings and prices *)

Lemma run_op_holdings_priced prices o now self r self' :
  run_op prices o now self = (r, self') ->
  holdings_wf (_holdings self) ->
  (forall k v, In (k, v) (_holdings self) -> PyDict.get k prices <> None) ->
  forall k v, In (k, v) (_holdings self') -> PyDict.get k prices <> None.
Proof.
  intros Hrun [Hnd _] Hinv.
  destruct r as [[]|e].
  2:{ destruct (run_op_raise_keeps _ _ _ _ _ _ Hrun) as (_ & -> & _). exact Hinv. }
  destruct (run_op_returns _ _ _ _ _ Hrun)
    as [(a & cash & total & _ & _ & _ & _ & ->)
       |[(a & cash & _ & _ & _ & _ & ->)
        |[(s & q & p & cost & cash & _ & _ & Hp & _ & _ & _ & ->)
         |(s & q & p & v0 & cash & _ & _ & _ & Hp & _ & _ & ->)]]];
    cbn [_holdings with_holdings with_transactions]; try exact Hinv;
    intros k v HI.
  - apply In_set in HI. destruct HI as [[-> _]|HI]; [|exact (Hinv k v HI)].
    unfold get_share_price in Hp.
    destruct (PyDict.get (upper s) prices); [discriminate|discriminate].
  - assert (HI' : In (k, v) (PyDict.set (upper s) (shares_owned s self - q)
                               (_holdings self))).
    { destruct (shares_owned s self - q =? 0); [|exact HI].
      apply In_del_ne in HI; [tauto|apply NoDup_set; exact Hnd]. }
    apply In_set in HI'. destruct HI' as [[-> _]|HI']; [|exact (Hinv k v HI')].
    unfold get_share_price in Hp.
    destruct (PyDict.get (upper s) prices); [discriminate|discriminate].
Qed.

(** X20.  While the price table stays the same, every symbol held has a
    price: in an account opened and used under one table,
    [get_share_price] returns for every symbol of the holdings, so that
    [get_portfolio_value] values no holding at 0 for want of a price (the
    case its handler is written for is not reached). *)
Theorem held_symbols_have_prices account_id user_name initial_deposit now prices
    calls self :
  open_account account_id user_name initial_deposit now prices calls = Some self ->
  forall symbol quantity,
    In (symbol, quantity) (get_holdings self) ->
    exists price,
      get_share_price prices symbol = Return price /\
      In (symbol, price) prices.
Proof.
  unfold open_account, get_holdings.
  destruct (__init__ account_id user_name initial_deposit now) as [s0|e] eqn:Hinit;
    [|discriminate].
  intros [= <-].
  assert (Hr0 : reachable s0) by (eapply reachable_init; exact Hinit).
  assert (H0 : forall k v, In (k, v) (_holdings s0) -> PyDict.get k prices <> None).
  { rewrite init_eq in Hinit. destruct (ltb initial_deposit (Int 0)); [discriminate|].
    injection Hinit as <-. intros k v []. }
  clear Hinit.
  assert (Hinv : forall k v, In (k, v) (_holdings (run_calls prices calls s0)) ->
                             PyDict.get k prices <> None).
  { revert s0 Hr0 H0. induction calls as [|[o t] rest IH]; intros s0 Hr0 H0; simpl.
    - exact H0.
    - apply IH.
      + eapply reachable_step; [exact Hr0|apply surjective_pairing].
      + eapply run_op_holdings_priced;
          [apply surjective_pairing|apply reachable_holdings_wf; exact Hr0|exact H0]. }
  intros symbol quantity HI.
  pose proof (reachable_holdings_wf _ (run_calls_reachable prices calls s0 Hr0))
    as [_ Hwf].
  destruct (Hwf symbol quantity HI) as [Hup _].
  specialize (Hinv symbol quantity HI).
  unfold get_share_price. rewrite Hup.
  destruct (PyDict.get symbol prices) as [price|] eqn:Hg; [|contradiction].
  exists price. split; [reflexivity|]. apply get_In. exact Hg.
Qed.

Lemma held_symbols_have_prices_witness :
  exists self price,
    account_after_buying_aapl (Float 10000) = Some self /\
    In ("AAPL", 10) (get_holdings self) /\
    get_share_price _test_prices "AAPL" = Return price /\
    In ("AAPL", price) _test_prices.
Proof.
  destruct (account_after_buying_aapl (Float 10000)) as [self|] eqn:E;
    [|discriminate E].
  pose proof (held_symbols_have_prices _ _ _ _ _ _ _ E) as H.
  vm_compute in E. injection E as <-.
  destruct (H "AAPL" 10 (or_introl eq_refl)) as (price & Hp & HI).
  eexists _, price. split; [reflexivity|]. split; [left; reflexivity|].
  split; [exact Hp|exact HI].
Defined.
(** ** Balances that only grow *)

Lemma SFleb_zero_nonneg (s : bool) (y : spec_float) :
  sf_nonneg y -> SFleb (S754_zero s) y = true.
Proof. destruct y as [sy|[]| |[] my ey]; simpl; try contradiction; reflexivity. Qed.

Lemma SFleb_refl (x : spec_float) : x <> S754_nan -> SFleb x x = true.
Proof. intros H. unfold SFleb. now rewrite SFcompare_refl. Qed.

(** A sum of two doubles that are not below zero is not below the first. *)
Lemma SFadd_ge_left (x y : spec_float) :
  valid_binary x = true -> valid_binary y = true ->
  sf_nonneg x -> sf_nonneg y -> SFleb x (SF64add x y) = true.
Proof.
  intros Vx Vy Hx Hy.
  destruct x as [sx|[]| |[] mx ex]; simpl in Hx; try contradiction.
  - apply SFleb_zero_nonneg. apply SFadd_nonneg; auto.
  - destruct y as [sy|[]| |[] my ey]; simpl in Hy; try contradiction; reflexivity.
  - destruct y as [sy|[]| |[] my ey]; simpl in Hy; try contradiction.
    + apply SFleb_refl. discriminate.
    + reflexivity.
    + pose proof (valid_finite_exponent _ _ _ Vx) as Hex.
      pose proof (valid_finite_exponent _ _ _ Vy) as Hey.
      unfold SF64add, SFadd. cbn [cond_Zopp].
      set (ez := Z.min ex ey).
      assert (Hez : -1074 <= ez) by (unfold ez; lia).
      pose proof (sval_aligned mx ex ez ltac:(unfold ez; lia)) as Sx.
      pose proof (sval_aligned my ey ez ltac:(unfold ez; lia)) as Sy.
      destruct (Z.pos (fst (shl_align mx ex ez)) + Z.pos (fst (shl_align my ey ez)))
        as [|p|p] eqn:Ep; try lia.
      simpl binary_normalize.
      destruct (binary_round_spec false p ez Hez)
        as [->|(m' & e' & e1 & q & -> & Hb & He1 & Hq & HX & HV & Hexact)];
        [reflexivity|].
      unfold SFleb. rewrite SFcompare_pos_finite by assumption.
      destruct (round_monotone mx ex (sval p ez) (sval m' e') e1 q Vx He1 Hq HX HV Hexact)
        as [Hmono _].
      assert (Hle : sval mx ex <= sval p ez).
      { unfold sval at 2. rewrite <- Ep, Sx.
        pose proof (pow2_pos (ez + 1074) ltac:(lia)). nia. }
      specialize (Hmono Hle).
      destruct (Z.compare_spec (sval mx ex) (sval m' e')); [reflexivity|reflexivity|lia].
Qed.

Lemma add_ge_left (c : float) (b v : num) :
  NonNeg (Float c) -> NonNeg b -> add (Float c) b = Some v ->
  leb (Float c) v = true.
Proof.
  intros Hc Hb Ha.
  destruct (arith_float _ _ (Float c) b v eq_refl Ha) as (x & y & [= <-] & Ey & ->).
  cbn [leb]. rewrite leb_spec, add_spec.
  apply SFadd_ge_left; try apply Prim2SF_valid.
  - now apply NonNeg_Float.
  - exact (to_float_nonneg b y Hb Ey).
Qed.

(** Rounding overflows only above every double. *)
Lemma binary_round_aux_overflow (sx : bool) (m : positive) (e : Z) :
  -1074 <= e -> e <= fexp prec emax (digits m + e) ->
  binary_round_aux prec emax sx (Zpos m) e loc_Exact = S754_infinity sx ->
  (2 ^ 53 - 1) * 2 ^ 2045 < Zpos m * 2 ^ (e + 1074).
Proof.
  intros He Hal Hinf.
  set (n := fexp prec emax (digits m + e) - e).
  set (q := Zpos m / 2 ^ n).
  assert (Hn : n = Z.max (digits m + e - 53) (-1074) - e) by (unfold n; now rewrite fexp_eq).
  rewrite fexp_eq in Hal.
  destruct (binary_round_aux_exact sx m e n) as (m1 & n2 & Hm1 & Hn2 & Hr).
  { rewrite fexp_eq. lia. }
  rewrite Hinf in Hr. fold q in Hm1. rewrite fexp_eq in Hn2.
  pose proof (digits_pos m) as HD.
  pose proof (digits_bounds m) as [Hlo Hhi].
  assert (Hpe : 0 < 2 ^ (e + 1074)) by (apply pow2_pos; lia).
  destruct (Z.eq_dec n 0) as [Hn0|Hn0].
  - assert (Hq : q = Zpos m) by (unfold q; rewrite Hn0; simpl; apply Z.div_1_r).
    assert (Hm1' : m1 = Zpos m).
    { destruct Hm1 as [->|[_ Hne]]; [exact Hq|].
      rewrite Hn0 in Hne. simpl in Hne. rewrite Z.mod_1_r in Hne. lia. }
    rewrite Hm1', Zdigits2_pos in Hn2. assert (Hn20 : n2 = 0) by lia.
    rewrite Hm1', Hn20 in Hr. change (2 ^ 0) with 1 in Hr. rewrite Z.div_1_r in Hr.
    destruct (Z.leb_spec (e + n + 0) (emax - prec)) as [Hle|Hgt]; [discriminate Hr|].
    change (emax - prec) with 971 in Hgt.
    assert (Hd : digits m = 53) by lia.
    rewrite Hd in Hlo. change (2 ^ (53 - 1)) with (2 ^ 52) in Hlo.
    assert (Hpow : 2 ^ 2046 <= 2 ^ (e + 1074)) by (apply pow2_le; lia).
    change (2 ^ 2046) with (2 * 2 ^ 2045) in Hpow.
    assert (0 < 2 ^ 2045) by (apply pow2_pos; lia).
    change (2 ^ 53) with (2 * 2 ^ 52). nia.
  - assert (Hn' : n = digits m - 53 /\ 0 < n) by lia. destruct Hn' as [Hn1 Hnpos].
    assert (Hqb : 2 ^ 52 <= q < 2 ^ 53).
    { pose proof (div_pow2_bounds m n ltac:(lia) ltac:(lia)) as B.
      replace (digits m - n - 1) with 52 in B by lia.
      replace (digits m - n) with 53 in B by lia. exact B. }
    assert (Hm1b : 2 ^ 52 <= m1 <= 2 ^ 53) by lia.
    pose proof (pow2_pos n ltac:(lia)) as Hpn.
    pose proof (Z_div_mod_eq_full (Zpos m) (2 ^ n)) as Hdm. fold q in Hdm.
    pose proof (Z.mod_pos_bound (Zpos m) (2 ^ n) Hpn) as Hmb.
    assert (Hsplit : 2 ^ (e + n + 1074) = 2 ^ n * 2 ^ (e + 1074)).
    { replace (e + n + 1074) with (n + (e + 1074)) by lia. apply pow2_split; lia. }
    assert (H2045 : 0 < 2 ^ 2045) by (apply pow2_pos; lia).
    destruct (Z.eq_dec m1 (2 ^ 53)) as [Htop|Htop].
    + rewrite Htop in Hn2. change (Zdigits2 (2 ^ 53)) with 54 in Hn2.
      assert (Hn21 : n2 = 1) by lia.
      rewrite Htop, Hn21 in Hr.
      change (2 ^ 53 / 2 ^ 1) with (Zpos (2 ^ 52)%positive) in Hr. cbv iota in Hr.
      destruct (Z.leb_spec (e + n + 1) (emax - prec)) as [Hle|Hgt]; [discriminate Hr|].
      change (emax - prec) with 971 in Hgt.
      destruct Hm1 as [E|[E Hne]]; [lia|].
      assert (Hpow : 2 ^ 2045 <= 2 ^ (e + n + 1074)) by (apply pow2_le; lia).
      rewrite Hsplit in Hpow.
      assert (Hq' : q = 2 ^ 53 - 1) by lia.
      assert (Hm : (2 ^ 53 - 1) * 2 ^ n < Zpos m) by (rewrite <- Hq'; lia).
      apply Z.le_lt_trans with ((2 ^ 53 - 1) * (2 ^ n * 2 ^ (e + 1074))).
      * apply Z.mul_le_mono_nonneg_l; [lia|exact Hpow].
      * rewrite Z.mul_assoc. apply Z.mul_lt_mono_pos_r; [exact Hpe|exact Hm].
    + destruct m1 as [|p1|p1]; try lia.
      assert (HD1 : digits p1 = 53)
        by (apply digits_unique; change (2 ^ (53 - 1)) with (2 ^ 52); lia).
      rewrite Zdigits2_pos, HD1 in Hn2. assert (Hn20 : n2 = 0) by lia.
      rewrite Hn20 in Hr. change (2 ^ 0) with 1 in Hr. rewrite Z.div_1_r in Hr.
      destruct (Z.leb_spec (e + n + 0) (emax - prec)) as [Hle|Hgt]; [discriminate Hr|].
      change (emax - prec) with 971 in Hgt.
      assert (Hpow : 2 ^ 2046 <= 2 ^ (e + n + 1074)) by (apply pow2_le; lia).
      rewrite Hsplit in Hpow. change (2 ^ 2046) with (2 * 2 ^ 2045) in Hpow.
      assert (Hm : 2 ^ 52 * 2 ^ n <= Zpos m) by nia.
      apply Z.lt_le_trans with (2 ^ 52 * (2 ^ n * 2 ^ (e + 1074))).
      * change (2 ^ 53) with (2 * 2 ^ 52). nia.
      * rewrite Z.mul_assoc. apply Z.mul_le_mono_nonneg_r; [lia|exact Hm].
Qed.

Lemma binary_round_overflow (mx : positive) (ex : Z) :
  -1074 <= ex ->
  binary_round prec emax false mx ex = S754_infinity false ->
  (2 ^ 53 - 1) * 2 ^ 2045 < sval mx ex.
Proof.
  intros He Hinf.
  destruct (shl_align_fexp_spec mx ex He) as (mz & ez & Eal & Hez & Hal & Hv).
  unfold binary_round in Hinf.
  change (Zpos (digits2_pos mx)) with (digits mx) in Hinf. rewrite Eal in Hinf.
  rewrite <- Hv. unfold sval.
  exact (binary_round_aux_overflow false mz ez Hez Hal Hinf).
Qed.

(** A difference of two doubles that are not below zero is not above the
    first. *)
Lemma SFsub_le_left (c a : spec_float) :
  valid_binary c = true -> valid_binary a = true ->
  sf_nonneg a -> SFleb a c = true -> sf_finite c -> SFleb (SF64sub c a) c = true.
Proof.
  intros Vc Va Ha Hle Hc.
  destruct c as [sc|sc| |sc mc ec]; simpl in Hc; try contradiction;
    destruct a as [sa|[]| |[] ma ea]; simpl in Ha; try contradiction;
    try (unfold SFleb in Hle; simpl in Hle; discriminate).
  - destruct sc, sa; reflexivity.
  - apply SFleb_refl. discriminate.
  - destruct sc; [unfold SFleb in Hle; simpl in Hle; discriminate|].
    unfold SFleb in Hle. rewrite SFcompare_pos_finite in Hle by assumption.
    assert (HS : sval ma ea <= sval mc ec).
    { destruct (Z.compare_spec (sval ma ea) (sval mc ec)); [lia|lia|discriminate]. }
    pose proof (valid_finite_exponent _ _ _ Vc) as Hec.
    pose proof (valid_finite_exponent _ _ _ Va) as Hea.
    unfold SF64sub, SFsub. cbn [cond_Zopp].
    set (ez := Z.min ec ea).
    assert (Hez : -1074 <= ez) by (unfold ez; lia).
    pose proof (sval_aligned mc ec ez ltac:(unfold ez; lia)) as Sc.
    pose proof (sval_aligned ma ea ez ltac:(unfold ez; lia)) as Sa.
    pose proof (pow2_pos (ez + 1074) ltac:(lia)) as Hp.
    pose proof (sval_positive ma ea Hea) as Hapos.
    destruct (Z.pos (fst (shl_align mc ec ez)) - Z.pos (fst (shl_align ma ea ez)))
      as [|p|p] eqn:Ep; [reflexivity| |nia].
    simpl binary_normalize.
    assert (Hle' : sval p ez <= sval mc ec).
    { unfold sval at 1. rewrite <- Ep, Sc. nia. }
    destruct (binary_round_spec false p ez Hez)
      as [Hinf|(m' & e' & e1 & q & -> & Hb & He1 & Hq & HX & HV & Hexact)].
    + apply binary_round_overflow in Hinf; [|exact Hez].
      pose proof (sval_le_max mc ec Vc). lia.
    + unfold SFleb. rewrite SFcompare_pos_finite by assumption.
      destruct (round_monotone mc ec (sval p ez) (sval m' e') e1 q Vc He1 Hq HX HV Hexact)
        as [_ Hmono].
      specialize (Hmono Hle').
      destruct (Z.compare_spec (sval m' e') (sval mc ec)); [reflexivity|reflexivity|lia].
Qed.

Lemma sub_le_left (c : float) (b v : num) :
  NonNeg b -> leb b (Float c) = true -> is_finite (Float c) = true ->
  sub (Float c) b = Some v -> leb v (Float c) = true.
Proof.
  intros Hb Hle Hfin Hs.
  assert (Hc : NonNeg (Float c)).
  { apply NonNeg_Float. apply is_finite_spec in Hfin.
    pose proof (Prim2SF_valid c) as Vc.
    destruct b as [z|f].
    - apply NonNeg_Int in Hb. cbn [leb] in Hle.
      destruct (Prim2SF c) as [s|s| |s m e] eqn:E; simpl in Hfin; try contradiction;
        [exact I|].
      destruct s; [|exact I]. exfalso.
      unfold cmp_int_float in Hle. rewrite E in Hle. cbn [cond_Zopp] in Hle.
      pose proof (valid_finite_exponent _ _ _ Vc) as He.
      unfold is_le in Hle.
      destruct (Z.leb_spec 0 e).
      + assert (0 < 2 ^ e) by (apply pow2_pos; lia).
        destruct (Z.compare_spec z (- Z.pos m * 2 ^ e)); try discriminate; nia.
      + assert (0 < 2 ^ (- e)) by (apply pow2_pos; lia).
        destruct (Z.compare_spec (z * 2 ^ (- e)) (- Z.pos m)); try discriminate; nia.
    - apply NonNeg_Float in Hb. cbn [leb] in Hle. rewrite leb_spec in Hle.
      destruct (Prim2SF c) as [s|s| |s m e] eqn:E; simpl in Hfin; try contradiction;
        [exact I|].
      destruct s; [|exact I]. exfalso.
      destruct (Prim2SF f) as [sf|[]| |[] mf ef]; simpl in Hb; try contradiction;
        unfold SFleb in Hle; simpl in Hle; discriminate. }
  destruct (arith_float _ _ (Float c) b v eq_refl Hs) as (x & y & [= <-] & Ey & ->).
  cbn [leb]. rewrite leb_spec, sub_spec.
  apply SFsub_le_left; try apply Prim2SF_valid.
  - exact (to_float_nonneg b y Hb Ey).
  - apply (to_float_leb b (Float c) y c); auto. apply orb_true_r.
  - now apply is_finite_spec.
Qed.

(** X21.  The cash balance moves in the direction of the call: when it is
    a finite float not below zero, the prices are positive and no NaN is
    passed as an amount, a deposit or a sale that returns leaves a balance
    that is not below the one before, and a withdrawal or a purchase that
    returns leaves one that is not above it. *)
Theorem cash_moves_with_the_call prices o now self self' :
  positive_prices prices ->
  op_amount_is_nan o = false ->
  is_float (_cash_balance self) = true ->
  is_finite (_cash_balance self) = true ->
  geb (_cash_balance self) (Int 0) = true ->
  run_op prices o now self = (Return tt, self') ->
  match o with
  | Deposit _ | Sell _ _ => leb (_cash_balance self) (_cash_balance self') = true
  | Withdraw _ | Buy _ _ => leb (_cash_balance self') (_cash_balance self) = true
  end.
Proof.
  intros Hprices Hnan Hf Hfin Hge Hrun.
  destruct (_cash_balance self) as [z|c] eqn:Ec; [discriminate|].
  assert (Hcn : is_nan (Float c) = false) by (apply NonNeg_not_nan; exact Hge).
  destruct (run_op_returns _ _ _ _ _ Hrun)
    as [(a & cash & total & -> & Hpos & Ha & _ & ->)
       |[(a & cash & -> & Hpos & Hgt & Hs & ->)
        |[(s & q & p & cost & cash & -> & Hq & Hp & Hm & Hgt & Hs & ->)
         |(s & q & p & v & cash & -> & Hq & _ & Hp & Hm & Ha & ->)]]];
    reduce_M; rewrite Ec in *.
  - exact (add_ge_left c a cash Hge (positive_amount_NonNeg a Hnan Hpos) Ha).
  - pose proof (positive_amount_NonNeg a Hnan Hpos) as Hnn.
    apply (sub_le_left c a cash Hnn); [|exact Hfin|exact Hs].
    now apply not_gtb_leb.
  - assert (Hnn : NonNeg cost).
    { apply (mul_nonneg p q cost); [|exact Hq|exact Hm].
      apply (Hprices (upper s)). apply get_share_price_In. exact Hp. }
    apply (sub_le_left c cost cash Hnn); [|exact Hfin|exact Hs].
    apply not_gtb_leb; [apply NonNeg_not_nan; exact Hnn|exact Hcn|exact Hgt].
  - apply (add_ge_left c v cash Hge); [|exact Ha].
    apply (mul_nonneg p q v); [|exact Hq|exact Hm].
    apply (Hprices (upper s)). apply get_share_price_In. exact Hp.
Qed.

Lemma cash_moves_with_the_call_witness :
  let self := {| _account_id := "acc"; _user_name := "user";
                 _cash_balance := Float 0x1p+53; _total_deposits := Float 0x1p+53;
                 _holdings := []; _transactions := [] |} in
  exists self',
    run_op _test_prices (Withdraw (PyNum (Float 1))) "t1" self = (Return tt, self') /\
    _cash_balance self' = Float 9007199254740991 /\
    leb (_cash_balance self') (_cash_balance self) = true.
Proof.
  intros self.
  assert (Hp : positive_prices _test_prices).
  { intros symbol price [[= <- <-]|[[= <- <-]|[[= <- <-]|[]]]]; reflexivity. }
  pose (o := Withdraw (PyNum (Float 1))).
  assert (E : run_op _test_prices o "t1" self
              = (Return tt, snd (run_op _test_prices o "t1" self)))
    by (vm_compute; reflexivity).
  eexists. split; [exact E|]. split; [vm_compute; reflexivity|].
  exact (cash_moves_with_the_call _test_prices o "t1" self _
           Hp eq_refl eq_refl eq_refl eq_refl E).
Defined.

(** The balance has to be a float for this: an [int] balance is converted
    when a float is deposited, and the conversion can round it down by more
    than the deposit. *)
Lemma deposit_can_lower_an_int_balance :
  let self := {| _account_id := "acc"; _user_name := "user";
                 _cash_balance := Int (2 ^ 53 + 1); _total_deposits := Int (2 ^ 53 + 1);
                 _holdings := []; _transactions := [] |} in
  exists self',
    deposit (PyNum (Float 0.5)) "t1" self = (Return tt, self') /\
    _cash_balance self' = Float 0x1p+53 /\
    ltb (_cash_balance self') (_cash_balance self) = true.
Proof.
  intros self. eexists. split; [vm_compute; reflexivity|].
  split; vm_compute; reflexivity.
Qed.

(** X22.  The total of the deposits never goes down: when it is a float not
    below zero, it is not below its former value after any call that passes
    no NaN as an amount, whether the call returns or raises. *)
Theorem total_deposits_never_go_down prices o now self :
  op_amount_is_nan o = false ->
  is_float (_total_deposits self) = true ->
  geb (_total_deposits self) (Int 0) = true ->
  leb (_total_deposits self)
      (_total_deposits (snd (run_op prices o now self))) = true.
Proof.
  intros Hnan Hf Hge.
  destruct (_total_deposits self) as [z|t] eqn:Et; [discriminate|].
  assert (Hrefl : leb (Float t) (Float t) = true).
  { cbn [leb]. rewrite leb_spec. apply SFleb_refl.
    apply not_nan_spec. exact (NonNeg_not_nan _ Hge). }
  destruct (run_op prices o now self) as [r self'] eqn:Hrun. cbn [snd].
  destruct r as [[]|e].
  - destruct (run_op_returns _ _ _ _ _ Hrun)
      as [(a & cash & total & -> & Hpos & _ & Ht & ->)
         |[(a & cash & _ & _ & _ & _ & ->)
          |[(s & q & p & cost & cash & _ & _ & _ & _ & _ & _ & ->)
           |(s & q & p & v & cash & _ & _ & _ & _ & _ & _ & ->)]]];
      reduce_M; rewrite Et in *; try exact Hrefl.
    exact (add_ge_left t a total Hge (positive_amount_NonNeg a Hnan Hpos) Ht).
  - destruct (run_op_raise_keeps _ _ _ _ _ _ Hrun) as (_ & _ & -> & _).
    rewrite Et. exact Hrefl.
Qed.

Lemma total_deposits_never_go_down_witness :
  let self := {| _account_id := "acc"; _user_name := "user";
                 _cash_balance := Float 8500; _total_deposits := Float 10000;
                 _holdings := [("AAPL", 10)]; _transactions := [] |} in
  _total_deposits (snd (run_op _test_prices (Deposit (PyNum (Int 250))) "t1" self))
    = Float 10250 /\
  leb (_total_deposits self)
      (_total_deposits (snd (run_op _test_prices (Deposit (PyNum (Int 250))) "t1" self)))
    = true.
Proof.
  intros self. split; [vm_compute; reflexivity|].
  exact (total_deposits_never_go_down _test_prices (Deposit (PyNum (Int 250))) "t1" self
           eq_refl eq_refl eq_refl).
Defined.

(** * The handlers of the demo *)

Section AppFacts.

Variable prices : PyDict.dict float.
Variable pd : pandas.

Lemma snd_respond_to_call success r account :
  snd (respond_to_call prices pd success (r, account)) = Some account.
Proof.
  unfold respond_to_call. destruct r as [[]|e]; [reflexivity|].
  destruct (is_ValueError_or_TradingError e); reflexivity.
Qed.

(** A click runs at most one call of a method of the account. *)
Lemma handle_runs_a_call c now account :
  snd (handle prices pd c now (Some account)) = Some account \/
  exists o,
    snd (handle prices pd c now (Some account)) = Some (snd (run_op prices o now account)) /\
    match o with
    | Deposit amount | Withdraw amount => exists f, amount = PyNum (Float f)
    | Buy _ quantity | Sell _ quantity => exists q, quantity = PyNum (Int q)
    end.
Proof.
  destruct c as [amount|amount|symbol quantity|symbol quantity];
    unfold handle, handle_deposit, handle_withdraw, handle_buy, handle_sell.
  - destruct (float_of amount) as [f|e]; [|now left].
    right. exists (Deposit (PyNum (Float f))). split; [|now exists f].
    cbn [run_op]. destruct (deposit (PyNum (Float f)) now account) as [r account'].
    apply snd_respond_to_call.
  - destruct (float_of amount) as [f|e]; [|now left].
    right. exists (Withdraw (PyNum (Float f))). split; [|now exists f].
    cbn [run_op]. destruct (withdraw (PyNum (Float f)) now account) as [r account'].
    apply snd_respond_to_call.
  - destruct (trade_arguments symbol quantity) as [[[s q]|]|e]; [|now left|now left].
    right. exists (Buy s (PyNum (Int q))). split; [|now exists q].
    cbn [run_op].
    destruct (buy_shares prices s (PyNum (Int q)) now account) as [r account'].
    apply snd_respond_to_call.
  - destruct (trade_arguments symbol quantity) as [[[s q]|]|e]; [|now left|now left].
    right. exists (Sell s (PyNum (Int q))). split; [|now exists q].
    cbn [run_op].
    destruct (sell_shares prices s (PyNum (Int q)) now account) as [r account'].
    apply snd_respond_to_call.
Qed.

Lemma handle_float_balances c now account :
  is_float (_cash_balance account) = true ->
  is_float (_total_deposits account) = true ->
  exists account',
    snd (handle prices pd c now (Some account)) = Some account' /\
    is_float (_cash_balance account') = true /\
    is_float (_total_deposits account') = true /\
    (account' = account \/
     exists tx, _transactions account' = (_transactions account ++ [tx])%list).
Proof.
  intros Hc Ht.
  destruct (handle_runs_a_call c now account) as [E|(o & E & _)].
  - exists account. auto.
  - destruct (run_op prices o now account) as [r account'] eqn:Hrun.
    destruct (run_op_float_balances _ _ _ _ _ _ Hc Ht Hrun) as (Hc' & Ht' & H).
    exists account'. split; [exact E|]. split; [exact Hc'|]. split; [exact Ht'|].
    destruct r as [[]|e]; [right; exact H|left; exact H].
Qed.


Lemma respond_returns msg trading_account msg' m trading_account' :
  respond prices pd msg trading_account = (Returns (msg', m), trading_account') ->
  msg' = msg /\ trading_account' = trading_account /\
  get_all_metrics prices pd trading_account = Returns m.
Proof.
  unfold respond. intros [= H <-].
  destruct (get_all_metrics prices pd trading_account) as [m0|e]; [|discriminate H].
  cbn [rbind] in H. injection H as <- <-. auto.
Qed.

Lemma caught_is_not_overflow e :
  is_ValueError_or_TradingError e = true -> e <> OverflowError.
Proof. intros H ->. discriminate H. Qed.

Lemma respond_to_call_returns o now account success msg m trading_account' :
  respond_to_call prices pd success (run_op prices o now account)
    = (Returns (msg, m), trading_account') ->
  get_all_metrics prices pd trading_account' = Returns m /\
  exists account',
    trading_account' = Some account' /\
    ((msg = success /\
      exists tx, _transactions account' = (_transactions account ++ [tx])%list) \/
     (exists e, msg = ErrorOf e /\ is_ValueError_or_TradingError e = true /\
                account' = account)).
Proof.
  destruct (run_op prices o now account) as [r account'] eqn:Hrun.
  unfold respond_to_call. destruct r as [[]|e].
  - intros H. apply respond_returns in H. destruct H as (-> & -> & Hm).
    split; [exact Hm|]. exists account'. split; [reflexivity|]. left.
    split; [reflexivity|]. exact (run_op_all_or_nothing _ _ _ _ _ _ Hrun).
  - destruct (is_ValueError_or_TradingError e) eqn:Hcaught; [|discriminate].
    intros H. apply respond_returns in H. destruct H as (-> & -> & Hm).
    split; [exact Hm|]. exists account'. split; [reflexivity|]. right.
    exists e. split; [reflexivity|]. split; [exact Hcaught|].
    destruct (run_op_all_or_nothing _ _ _ _ _ _ Hrun) as [H|[H _]]; [exact H|].
    exfalso. exact (caught_is_not_overflow e Hcaught H).
Qed.

Lemma holdings_row_raises item e :
  holdings_row prices item = Raise e -> e = OverflowError.
Proof.
  destruct item as [symbol quantity]. unfold holdings_row.
  destruct (get_share_price prices symbol) as [price|e'] eqn:Hp.
  - destruct (float_of_int quantity); [discriminate|]. now intros [= <-].
  - destruct (get_share_price_raises _ _ _ Hp) as [msg ->]. discriminate.
Qed.

Lemma holdings_rows_raises items data e :
  holdings_rows prices items data = Raise e -> e = OverflowError.
Proof.
  revert data. induction items as [|item rest IH]; intros data; simpl; [discriminate|].
  destruct (holdings_row prices item) as [row|e'] eqn:Hrow; [apply IH|].
  intros [= <-]. exact (holdings_row_raises _ _ Hrow).
Qed.

Lemma format_holdings_to_df_raises holdings e :
  format_holdings_to_df prices pd holdings = Raise e -> e = OverflowError.
Proof.
  unfold format_holdings_to_df. destruct holdings as [|item rest]; [discriminate|].
  destruct (holdings_rows prices (item :: rest) []) as [data|e'] eqn:Hrows;
    [discriminate|].
  intros [= <-]. exact (holdings_rows_raises _ _ _ Hrows).
Qed.

Lemma dollars_raises a e : dollars a = Raises e -> e = FromAccounts OverflowError.
Proof. unfold dollars. destruct (to_float a); [discriminate|]. now intros [= <-]. Qed.

Lemma get_all_metrics_raises trading_account e :
  get_all_metrics prices pd trading_account = Raises e ->
  e = FromAccounts OverflowError \/
  exists log, log <> [] /\ transactions_table pd log = Raises e.
Proof.
  unfold get_all_metrics. destruct trading_account as [account|].
  - destruct (dollars (get_cash_balance account)) as [c|e1] eqn:H1; cbn [rbind];
      [|intros [= <-]; left; exact (dollars_raises _ _ H1)].
    destruct (get_portfolio_value prices account) as [pv|e2] eqn:H2;
      cbn [result_of rbind];
      [|intros [= <-]; left; f_equal; exact (portfolio_loop_raises _ _ _ _ H2)].
    destruct (get_total_value prices account) as [tv|e3] eqn:H3;
      cbn [result_of rbind];
      [|intros [= <-]; left; f_equal; exact (get_total_value_raises _ _ _ H3)].
    destruct (dollars tv) as [t|e4] eqn:H4; cbn [rbind];
      [|intros [= <-]; left; exact (dollars_raises _ _ H4)].
    destruct (get_profit_loss prices account) as [pl|e5] eqn:H5;
      cbn [result_of rbind];
      [|intros [= <-]; left; f_equal; exact (get_profit_loss_raises _ _ _ H5)].
    destruct (dollars pl) as [p|e6] eqn:H6; cbn [rbind];
      [|intros [= <-]; left; exact (dollars_raises _ _ H6)].
    destruct (format_holdings_to_df prices pd (get_holdings account)) as [h|e7] eqn:H7;
      cbn [result_of rbind];
      [|intros [= <-]; left; f_equal; exact (format_holdings_to_df_raises _ _ H7)].
    unfold format_transactions_to_df.
    destruct (get_transaction_history account) as [|tx log] eqn:Hlog;
      cbn [rbind]; [discriminate|].
    destruct (transactions_table pd (tx :: log)) as [t'|e8] eqn:H8; cbn [rbind];
      [discriminate|].
    intros [= <-]. right. exists (tx :: log). split; [discriminate|exact H8].
  - cbn. discriminate.
Qed.

End AppFacts.

Lemma app_reachable_float trading_account :
  app_reachable trading_account ->
  exists account,
    trading_account = Some account /\
    is_float (_cash_balance account) = true /\
    is_float (_total_deposits account) = true.
Proof.
  induction 1 as [now|prices pd c now trading_account _ (account & -> & Hc & Ht)].
  - unfold trading_account_at_start. rewrite init_eq. cbn. eexists. repeat split.
  - destruct (handle_float_balances prices pd c now account Hc Ht)
      as (account' & E & Hc' & Ht' & _).
    exists account'. auto.
Qed.

(** X23.  In the demo every click is all-or-nothing on the account: the
    account exists, its cash balance and the total of its deposits are
    floats, and whatever is clicked, with whatever input, the handler leaves
    the account exactly as it was or with exactly one record appended,
    whether it returns or raises. *)
Theorem demo_clicks_are_all_or_nothing trading_account :
  app_reachable trading_account ->
  exists account,
    trading_account = Some account /\
    is_float (_cash_balance account) = true /\
    is_float (_total_deposits account) = true /\
    forall prices pd c now,
    exists account',
      snd (handle prices pd c now trading_account) = Some account' /\
      (account' = account \/
       exists tx, _transactions account' = (_transactions account ++ [tx])%list).
Proof.
  intros Hreach.
  destruct (app_reachable_float _ Hreach) as (account & -> & Hc & Ht).
  exists account. split; [reflexivity|]. split; [exact Hc|]. split; [exact Ht|].
  intros prices pd c now.
  destruct (handle_float_balances prices pd c now account Hc Ht)
    as (account' & E & _ & _ & H).
  exists account'. split; [exact E|exact H].
Qed.

Lemma demo_clicks_are_all_or_nothing_witness :
  exists account account',
    trading_account_at_start "t0" = Some account /\
    _cash_balance account = Float 10000 /\
    snd (handle _test_prices rows_and_columns (ClickDeposit (Some (Int (10 ^ 400)))) "t1"
           (trading_account_at_start "t0")) = Some account' /\
    (account' = account \/
     exists tx, _transactions account' = (_transactions account ++ [tx])%list).
Proof.
  destruct (demo_clicks_are_all_or_nothing _ (app_start "t0"))
    as (account & E & _ & _ & H).
  destruct (H _test_prices rows_and_columns (ClickDeposit (Some (Int (10 ^ 400)))) "t1")
    as (account' & E' & H').
  exists account, account'. split; [exact E|]. split.
  - vm_compute in E. injection E as <-. reflexivity.
  - split; [exact E'|exact H'].
Defined.

Lemma trade_arguments_integer_part symbol f z :
  int_of_float f = Return z ->
  trade_arguments symbol (Some (Float f)) = trade_arguments symbol (Some (Int z)).
Proof.
  intros Hint. unfold trade_arguments.
  destruct (not_symbol symbol) eqn:Hs; [reflexivity|]. cbn [orb].
  destruct symbol as [s|]; [|discriminate Hs].
  change (not_quantity (Some (Float f))) with (is_eq (cmp_int_float 0 f)).
  change (not_quantity (Some (Int z))) with (z =? 0).
  change (int_of (Float f)) with (int_of_float f).
  change (int_of (Int z)) with (@Return Z z).
  rewrite Hint.
  assert (Hzero : is_eq (cmp_int_float 0 f) = true -> z = 0).
  { rewrite cmp_zero_float. unfold int_of_float in Hint.
    destruct (Prim2SF f) as [sg|sg| |sg m e]; try discriminate Hint.
    - now injection Hint as <-.
    - destruct sg; discriminate. }
  destruct (is_eq (cmp_int_float 0 f)).
  - rewrite (Hzero eq_refl). reflexivity.
  - destruct (Z.eqb_spec z 0) as [->|Hz]; reflexivity.
Qed.

(** X24.  The trade handlers use the integer part of the quantity: with a
    float quantity [handle_buy] and [handle_sell] do what they do with
    [int(quantity)], its integer part towards zero (2.9 buys 2 shares, 0.5
    is refused like 0). *)
Theorem trade_handlers_use_the_integer_part prices pd symbol f z now trading_account :
  int_of_float f = Return z ->
  handle_buy prices pd symbol (Some (Float f)) now trading_account
    = handle_buy prices pd symbol (Some (Int z)) now trading_account /\
  handle_sell prices pd symbol (Some (Float f)) now trading_account
    = handle_sell prices pd symbol (Some (Int z)) now trading_account.
Proof.
  intros Hint. unfold handle_buy, handle_sell.
  rewrite (trade_arguments_integer_part symbol f z Hint).
  split; reflexivity.
Qed.

Lemma trade_handlers_use_the_integer_part_witness :
  int_of_float 2.9 = Return 2 /\
  handle_buy _test_prices rows_and_columns (Some "AAPL") (Some (Float 2.9)) "t1"
    (trading_account_at_start "t0")
  = handle_buy _test_prices rows_and_columns (Some "AAPL") (Some (Int 2)) "t1"
      (trading_account_at_start "t0").
Proof.
  assert (H : int_of_float 2.9 = Return 2) by (vm_compute; reflexivity).
  split; [exact H|].
  exact (proj1 (trade_handlers_use_the_integer_part _test_prices rows_and_columns
                  (Some "AAPL") 2.9 2 "t1" (trading_account_at_start "t0") H)).
Defined.

(** X25.  The trade handlers refuse bad input without calling the account:
    when the symbol is [None] or empty, or the quantity is [None] or zero,
    or its integer part is not above zero, [handle_buy] and [handle_sell]
    answer "Error: Please provide a valid symbol and a positive quantity."
    with the metrics of the account, which they leave as it was. *)
Theorem trade_handlers_refuse_bad_input prices pd symbol quantity now account :
  not_symbol symbol = true \/ not_quantity quantity = true \/
  (exists q z, quantity = Some q /\ int_of q = Return z /\ z <= 0) ->
  handle_buy prices pd symbol quantity now (Some account)
    = respond prices pd
        (Literal "Error: Please provide a valid symbol and a positive quantity.")
        (Some account) /\
  handle_sell prices pd symbol quantity now (Some account)
    = respond prices pd
        (Literal "Error: Please provide a valid symbol and a positive quantity.")
        (Some account) /\
  snd (handle_buy prices pd symbol quantity now (Some account)) = Some account /\
  snd (handle_sell prices pd symbol quantity now (Some account)) = Some account.
Proof.
  intros H.
  assert (E : trade_arguments symbol quantity = Return None).
  { unfold trade_arguments.
    destruct (not_symbol symbol) eqn:Hs; [reflexivity|].
    destruct (not_quantity quantity) eqn:Hq; [reflexivity|]. cbn [orb].
    destruct H as [H|[H|(q & z & -> & Hint & Hz)]]; try discriminate H.
    destruct symbol as [s|]; [|reflexivity].
    rewrite Hint. destruct (Z.leb_spec z 0); [reflexivity|lia]. }
  unfold handle_buy, handle_sell. rewrite E. repeat split.
Qed.

Lemma trade_handlers_refuse_bad_input_witness :
  let account := {| _account_id := "gradio_demo_001"; _user_name := "Demo User";
                    _cash_balance := Float 10000; _total_deposits := Float 10000;
                    _holdings := []; _transactions := [] |} in
  int_of (Float 0.5) = Return 0 /\
  snd (handle_buy _test_prices rows_and_columns (Some "AAPL") (Some (Float 0.5)) "t1"
         (Some account)) = Some account.
Proof.
  intros account.
  assert (H : int_of (Float 0.5) = Return 0) by (vm_compute; reflexivity).
  split; [exact H|].
  refine (proj1 (proj2 (proj2
            (trade_handlers_refuse_bad_input _test_prices rows_and_columns (Some "AAPL")
               (Some (Float 0.5)) "t1" account _)))).
  right. right. exists (Float 0.5), 0. split; [reflexivity|]. split; [exact H|lia].
Defined.

(** X26.  The message of a handler tells what happened to the account: when
    a handler returns, a success message comes with exactly one record
    appended to the log; an "Error: ..." message made of an exception comes
    with the account as it was, the exception being a [ValueError] or a
    [TradingError]; the literal message is the one about the symbol and the
    quantity and comes with the account as it was.  The metrics returned
    are those of the account as the handler leaves it. *)
Theorem handler_message_tells_what_happened prices pd c now account msg m
    trading_account' :
  handle prices pd c now (Some account) = (Returns (msg, m), trading_account') ->
  get_all_metrics prices pd trading_account' = Returns m /\
  exists account',
    trading_account' = Some account' /\ message_agrees msg account account'.
Proof.
  assert (Hcall : forall o success,
            (match success with Success _ _ | SuccessTrade _ _ _ => True | _ => False end) ->
            respond_to_call prices pd success (run_op prices o now account)
              = (Returns (msg, m), trading_account') ->
            get_all_metrics prices pd trading_account' = Returns m /\
            exists account',
              trading_account' = Some account' /\ message_agrees msg account account').
  { intros o success Hs H.
    destruct (respond_to_call_returns prices pd o now account success msg m _ H)
      as (Hm & account' & -> & [(-> & Htx)|(e & -> & He & ->)]).
    - split; [exact Hm|]. exists account'. split; [reflexivity|].
      destruct success; try contradiction; exact Htx.
    - split; [exact Hm|]. exists account. split; [reflexivity|]. split; auto. }
  assert (Hguard : respond prices pd
                     (Literal "Error: Please provide a valid symbol and a positive quantity.")
                     (Some account) = (Returns (msg, m), trading_account') ->
                   get_all_metrics prices pd trading_account' = Returns m /\
                   exists account',
                     trading_account' = Some account' /\
                     message_agrees msg account account').
  { intros H. apply respond_returns in H. destruct H as (-> & -> & Hm).
    split; [exact Hm|]. exists account. split; [reflexivity|]. split; reflexivity. }
  destruct c as [amount|amount|symbol quantity|symbol quantity];
    unfold handle, handle_deposit, handle_withdraw, handle_buy, handle_sell.
  - destruct (float_of amount) as [f|e]; [|discriminate].
    apply (Hcall (Deposit (PyNum (Float f)))). exact I.
  - destruct (float_of amount) as [f|e]; [|discriminate].
    apply (Hcall (Withdraw (PyNum (Float f)))). exact I.
  - destruct (trade_arguments symbol quantity) as [[[s q]|]|e];
      [|exact Hguard|discriminate].
    apply (Hcall (Buy s (PyNum (Int q)))). exact I.
  - destruct (trade_arguments symbol quantity) as [[[s q]|]|e];
      [|exact Hguard|discriminate].
    apply (Hcall (Sell s (PyNum (Int q)))). exact I.
Qed.

Lemma handler_message_tells_what_happened_witness :
  let account := {| _account_id := "gradio_demo_001"; _user_name := "Demo User";
                    _cash_balance := Float 10000; _total_deposits := Float 10000;
                    _holdings := [];
                    _transactions :=
                      [make_transaction "t0" DEPOSIT None None None (Float 10000)] |} in
  exists m account',
    handle _test_prices rows_and_columns (ClickWithdraw (Some (Int 20000))) "t1"
      (Some account)
    = (Returns (ErrorOf (InsufficientFundsError "Cannot withdraw " 20000 10000), m),
       Some account') /\
    account' = account.
Proof.
  intros account.
  assert (E : exists m,
            handle _test_prices rows_and_columns (ClickWithdraw (Some (Int 20000))) "t1"
              (Some account)
            = (Returns (ErrorOf (InsufficientFundsError "Cannot withdraw " 20000 10000), m),
               Some account))
    by (eexists; lazy; reflexivity).
  destruct E as [m E].
  destruct (handler_message_tells_what_happened _ _ _ _ _ _ _ _ E)
    as (_ & account' & _ & _ & _).
  exists m, account. split; [exact E|reflexivity].
Defined.

Lemma holdings_rows_spec prices items data :
  quantities_fit_double items ->
  exists rows,
    holdings_rows prices items data = Return (data ++ rows)%list /\
    Forall2 (row_shows prices) items rows.
Proof.
  revert data. induction items as [|[symbol quantity] rest IH]; intros data Hfit.
  - exists []. simpl. rewrite app_nil_r. split; [reflexivity|constructor].
  - assert (Hq : float_of_int quantity <> None) by (apply (Hfit symbol); now left).
    assert (Hrest : quantities_fit_double rest)
      by (intros s q HI; apply (Hfit s q); now right).
    assert (Hrow : exists row,
              holdings_row prices (symbol, quantity) = Return row /\
              row_shows prices (symbol, quantity) row).
    { unfold holdings_row, row_shows, holding_value. cbn [fst snd].
      destruct (get_share_price prices symbol) as [price|e] eqn:Hp.
      - destruct (float_of_int quantity) as [q|]; [|contradiction].
        eexists. split; reflexivity.
      - destruct (get_share_price_raises _ _ _ Hp) as [msg ->]. cbn.
        eexists. split; reflexivity. }
    destruct Hrow as (row & Erow & Hshows).
    destruct (IH (data ++ [row])%list Hrest) as (rows & Erows & Hall).
    exists (row :: rows). cbn [holdings_rows]. rewrite Erow, Erows, <- app_assoc.
    split; [reflexivity|]. constructor; assumption.
Qed.

(** X27.  When the quantities held fit a double, the table of the holdings
    has a row for every holding, in the order of the dictionary: the symbol,
    the quantity, the price and the value that [get_portfolio_value] adds
    for it, or "N/A" twice when the symbol has no price.  It has the four
    columns when something is held and only "Symbol" and "Quantity" when
    nothing is; and for every holdings [format_holdings_to_df] raises
    nothing but [OverflowError] (a quantity too large for a double). *)
Theorem holdings_table_has_a_row_per_holding prices pd holdings :
  format_holdings_to_df prices pd [] = Return (pd_DataFrame pd [] ["Symbol"; "Quantity"]) /\
  (holdings <> [] -> quantities_fit_double holdings ->
   exists rows,
     format_holdings_to_df prices pd holdings
       = Return (pd_DataFrame pd rows
                   ["Symbol"; "Quantity"; "Current Price"; "Current Value"]) /\
     Forall2 (row_shows prices) holdings rows) /\
  (forall e, format_holdings_to_df prices pd holdings = Raise e -> e = OverflowError).
Proof.
  split; [reflexivity|]. split.
  - intros Hne Hfit.
    destruct (holdings_rows_spec prices holdings [] Hfit) as (rows & E & Hall).
    exists rows. split; [|exact Hall].
    unfold format_holdings_to_df. destruct holdings as [|item rest]; [contradiction|].
    rewrite E. reflexivity.
  - intros e. apply format_holdings_to_df_raises.
Qed.

(** X28.  What leaves a handler: a handler raises only [OverflowError] (an
    [int] too large for a double, or an infinite quantity), the
    [ValueError] of [int(nan)], the [TypeError] of [float(None)], or what
    pandas raises when it builds the table of a log that is not empty; no
    [TradingError] and no other [ValueError] leaves it. *)
Theorem handlers_raise_only prices pd c now trading_account e trading_account' :
  handle prices pd c now trading_account = (Raises e, trading_account') ->
  e = FromAccounts OverflowError \/
  e = FromAccounts (ValueError "cannot convert float NaN to integer") \/
  e = TypeError "float() argument must be a string or a real number, not 'NoneType'" \/
  exists log, log <> [] /\ transactions_table pd log = Raises e.
Proof.
  assert (Hrespond : forall msg ta,
            respond prices pd msg ta = (Raises e, trading_account') ->
            e = FromAccounts OverflowError \/
            exists log, log <> [] /\ transactions_table pd log = Raises e).
  { intros msg ta. unfold respond. intros [= H _].
    destruct (get_all_metrics prices pd ta) as [m|e'] eqn:Hm; [discriminate H|].
    cbn [rbind] in H. injection H as ->.
    exact (get_all_metrics_raises prices pd ta e Hm). }
  assert (Hcall : forall o success account,
            respond_to_call prices pd success (run_op prices o now account)
              = (Raises e, trading_account') ->
            e = FromAccounts OverflowError \/
            exists log, log <> [] /\ transactions_table pd log = Raises e).
  { intros o success account.
    destruct (run_op prices o now account) as [r account'] eqn:Hrun.
    unfold respond_to_call. destruct r as [[]|e0]; [apply Hrespond|].
    destruct (is_ValueError_or_TradingError e0) eqn:Hcaught; [apply Hrespond|].
    intros [= <- _]. left. f_equal.
    destruct (run_op_raises _ _ _ _ _ _ Hrun) as [Hdoc|H]; [|exact H].
    exfalso. destruct o, e0; discriminate. }
  assert (Hargs : forall symbol quantity e0,
            trade_arguments symbol quantity = Raise e0 ->
            e0 = OverflowError \/ e0 = ValueError "cannot convert float NaN to integer").
  { intros symbol quantity e0. unfold trade_arguments.
    destruct (not_symbol symbol || not_quantity quantity); [discriminate|].
    destruct symbol as [s|], quantity as [[z|f]|]; try discriminate.
    - cbn [int_of]. destruct (z <=? 0); discriminate.
    - cbn [int_of]. unfold int_of_float.
      destruct (Prim2SF f) as [sg|sg| |sg m0 e1].
      + destruct (0 <=? 0); discriminate.
      + intros [= <-]. now left.
      + intros [= <-]. now right.
      + destruct (_ <=? 0); discriminate. }
  assert (Hfloat : forall amount e0,
            float_of amount = Raises e0 ->
            e0 = FromAccounts OverflowError \/
            e0 = TypeError
                   "float() argument must be a string or a real number, not 'NoneType'").
  { intros amount e0. unfold float_of. destruct amount as [a|].
    - destruct (to_float a); [discriminate|]. intros [= <-]. now left.
    - intros [= <-]. now right. }
  destruct trading_account as [account|].
  2:{ destruct c; intros H; destruct (Hrespond _ _ H) as [H'|H']; auto. }
  destruct c as [amount|amount|symbol quantity|symbol quantity];
    unfold handle, handle_deposit, handle_withdraw, handle_buy, handle_sell.
  - destruct (float_of amount) as [f|e0] eqn:Hf.
    + intros H. destruct (Hcall (Deposit (PyNum (Float f))) _ _ H) as [H'|H']; auto.
    + intros [= <- _]. destruct (Hfloat _ _ Hf) as [H'|H']; auto.
  - destruct (float_of amount) as [f|e0] eqn:Hf.
    + intros H. destruct (Hcall (Withdraw (PyNum (Float f))) _ _ H) as [H'|H']; auto.
    + intros [= <- _]. destruct (Hfloat _ _ Hf) as [H'|H']; auto.
  - destruct (trade_arguments symbol quantity) as [[[s q]|]|e0] eqn:Ha.
    + intros H. destruct (Hcall (Buy s (PyNum (Int q))) _ _ H) as [H'|H']; auto.
    + intros H. destruct (Hrespond _ _ H) as [H'|H']; auto.
    + intros [= <- _]. destruct (Hargs _ _ _ Ha) as [-> | ->]; auto.
  - destruct (trade_arguments symbol quantity) as [[[s q]|]|e0] eqn:Ha.
    + intros H. destruct (Hcall (Sell s (PyNum (Int q))) _ _ H) as [H'|H']; auto.
    + intros H. destruct (Hrespond _ _ H) as [H'|H']; auto.
    + intros [= <- _]. destruct (Hargs _ _ _ Ha) as [-> | ->]; auto.
Qed.

Lemma handlers_raise_only_witness :
  let account := {| _account_id := "gradio_demo_001"; _user_name := "Demo User";
                    _cash_balance := Float 10000; _total_deposits := Float 10000;
                    _holdings := []; _transactions := [] |} in
  handle _test_prices rows_and_columns (ClickBuy (Some "AAPL") (Some (Float nan))) "t1"
    (Some account)
  = (Raises (FromAccounts (ValueError "cannot convert float NaN to integer")),
     Some account).
Proof.
  intros account.
  assert (E : handle _test_prices rows_and_columns
                (ClickBuy (Some "AAPL") (Some (Float nan))) "t1" (Some account)
              = (Raises (FromAccounts (ValueError "cannot convert float NaN to integer")),
                 Some account))
    by (vm_compute; reflexivity).
  destruct (handlers_raise_only _ _ _ _ _ _ _ E) as [H|[H|[H|H]]]; exact E.
Defined.
